(** * Expense-Management-App: the query layer, the accessors and the handlers

    A shallow embedding of
      - scripts/utils/sqlalchemy2_utils.py  (SqlAlchemyUtil, SQLQueryBuilder)
      - scripts/utils/mongo_util.py         (MongoCollectionBaseClass)
      - scripts/core/handlers/*.py          (Category, Transaction, User)
      - scripts/core/services/*.py          (the response envelope)
    Python exceptions are a [Raise] result, the SQL session and the Mongo
    collection are explicit states threaded by a small state-and-error
    monad, Python dicts are finite maps. *)

From Stdlib Require Import ZArith Ascii String List Bool Lia.
From stdpp Require Import base option list gmap strings pretty.

Local Open Scope string_scope.
Local Open Scope Z_scope.

(** ** Exceptions and the state-and-error monad *)

(** The exception classes the embedded code raises or lets through. The
    payload is the text [str(e)] gives. *)
Inductive exn : Type :=
  | CustomError (msg : string)        (* scripts.exceptions.module_exception *)
  | MongoException (msg : string)     (* scripts.exceptions.module_exception *)
  | OperationalError (msg : string)   (* the store failed the statement *)
  | IntegrityError (msg : string)     (* primary key or NOT NULL violated *)
  | CompileError (msg : string)       (* a statement that cannot be rendered *)
  | AttributeError (msg : string)
  | IndexError (msg : string)
  | KeyError (msg : string)
  | TypeError (msg : string)
  | ValidationError (msg : string)
  | ArgumentError (msg : string).     (* sqlalchemy.exc: not a SQL expression;
                                         the message without the repr of
                                         the rejected object *)

Definition str_exn (e : exn) : string :=
  match e with
  | CustomError m | MongoException m | OperationalError m | IntegrityError m
  | CompileError m | AttributeError m | IndexError m | KeyError m | TypeError m
  | ValidationError m | ArgumentError m => m
  end.

Global Instance exn_eq_dec : EqDecision exn.
Proof. solve_decision. Defined.

Inductive result (A : Type) : Type :=
  | Ok (a : A)
  | Raise (e : exn).
Arguments Ok {A} a.
Arguments Raise {A} e.

Global Instance result_eq_dec {A} `{EqDecision A} : EqDecision (result A).
Proof. solve_decision. Defined.

(** Pure code that may raise. *)
Definition rbind {A B} (r : result A) (k : A → result B) : result B :=
  match r with
  | Ok a => k a
  | Raise e => Raise e
  end.

(** Code that reads and writes a store of type [St] and may raise. An
    exception does not roll the store back: the state reached when it was
    raised is the state the caller sees. *)
Definition M (St A : Type) : Type := St → result A * St.

Definition ret {St A} (a : A) : M St A := λ s, (Ok a, s).
Definition raise {St A} (e : exn) : M St A := λ s, (Raise e, s).
Definition bind {St A B} (m : M St A) (k : A → M St B) : M St B :=
  λ s, match m s with
       | (Ok a, s') => k a s'
       | (Raise e, s') => (Raise e, s')
       end.
Definition lift {St A} (r : result A) : M St A := λ s, (r, s).
Definition gets {St A} (f : St → A) : M St A := λ s, (Ok (f s), s).
Definition modify {St} (f : St → St) : M St unit := λ s, (Ok tt, f s).

(** [try: m except Exception as e: h e] *)
Definition try_except {St A} (m : M St A) (h : exn → M St A) : M St A :=
  λ s, match m s with
       | (Ok a, s') => (Ok a, s')
       | (Raise e, s') => h e s'
       end.

Notation "'let*' x ':=' m 'in' k" := (bind m (λ x, k))
  (at level 10, x name, m at level 100, k at level 200).
Notation "m ';;' k" := (bind m (λ _, k))
  (at level 100, k at level 200, right associativity).
Notation "'let?' x ':=' r 'in' k" := (rbind r (λ x, k))
  (at level 10, x name, r at level 100, k at level 200).

(** ** Values *)

(** JSON scalars as they travel between request, handler and store. A
    Python float is carried by its decimal text: the program never computes
    with it. *)
Inductive scalar : Type :=
  | SNull
  | SBool (b : bool)
  | SInt (z : Z)
  | SFloat (repr : string)
  | SStr (s : string).

Global Instance scalar_eq_dec : EqDecision scalar.
Proof. solve_decision. Defined.

(** An attribute of a mapped instance once [jsonable_encoder] has turned
    the instance into a dict: the value of a column. *)
Inductive field : Type :=
  | FScalar (v : scalar)
  | FJson (o : gmap string scalar).

Global Instance field_eq_dec : EqDecision field.
Proof. solve_decision. Defined.

(** A column value or a dict entry: a scalar, a JSON object one level deep
    (the [meta] column, a [$set] envelope), or a mapped instance as a dict
    of its attributes (what a row of [select(Class)] holds under the name
    of the class). *)
Inductive value : Type :=
  | VScalar (v : scalar)
  | VJson (o : gmap string scalar)
  | VEntity (attrs : gmap string field).

(** A column holds a scalar or a JSON object. *)
Definition to_field (v : value) : field :=
  match v with
  | VScalar x => FScalar x
  | VJson o => FJson o
  | VEntity _ => FScalar SNull
  end.

Global Instance value_eq_dec : EqDecision value.
Proof. solve_decision. Defined.

(** A Python dict with string keys: a table row, a row mapping, a Mongo
    document, the output of [model_dump()]. *)
Abbreviation pydict := (gmap string value).

(** What the accessors and handlers hand back. *)
Inductive pyval : Type :=
  | PNone
  | PStr (s : string)
  | PDict (d : pydict)
  | PList (l : list pydict)
  | PCount (n : nat) (page : pyval).   (* the tuple [(count, results)] *)

(** Python truthiness, as [if x:] tests it. *)
Definition truthy_dict (d : pydict) : bool := negb (bool_decide (d = ∅)).

Definition truthy (v : pyval) : bool :=
  match v with
  | PNone => false
  | PStr s => negb (String.eqb s "")
  | PDict d => truthy_dict d
  | PList l => match l with [] => false | _ => true end
  | PCount _ _ => true
  end.

(** ** Table metadata (scripts/core/db/psql/db_models) *)

Record Column : Type := mkColumn {
  c_name : string;
  c_primary : bool;
  c_nullable : bool
}.

Inductive direction : Type := Asc | Desc.

(** What an order clause sorts on: a column, [text("meta->>'field'")], a
    bare string (a label that stands for the selected column of that name)
    or the constant [NULL]. A label that names no selected column makes the
    statement fail to compile; like the answers of the server, that is not
    derived from the statement (see [Session]). *)
Inductive order_key : Type :=
  | OCol (c : string)
  | OText (json_field : string)
  | OLabel (label : string)
  | ONull.

(** What a mapped class holds under a name that is not one of its mapped
    columns ([__tablename__], [metadata], ...), as far as the embedded code
    can observe the object [o] found there. *)
Record Other : Type := mkOther {
  o_name : string;
  o_equal : list scalar;              (* the request values [v] with [o == v] *)
  o_like : exn;                       (* what [o.like(v)] raises *)
  o_order : result order_key;         (* what [desc(o)] and [asc(o)] order by *)
  o_select : result (list string)     (* what [with_only_columns(o)] selects *)
}.

(** A mapped class: its name, [__tablename__], the columns it maps and its
    other attributes. *)
Record Table : Type := mkTable {
  classname : string;
  tablename : string;
  t_columns : list Column;
  t_others : list Other
}.

Definition no_attribute (type_ name : string) : exn :=
  AttributeError ("'" ++ type_ ++ "' object has no attribute '" ++ name ++ "'").

(** An object that is no SQL expression and equals no request value. *)
Definition foreign (name type_ : string) : Other :=
  mkOther name [] (no_attribute type_ "like")
    (Raise (ArgumentError "GROUP BY / OF / etc. expression expected"))
    (Raise (ArgumentError "Column expression, FROM clause, or other columns clause element expected")).

(** The attributes the declarative base gives a class with the table name
    [name] and the columns [cols], and [type_annotation_map], which [Base]
    declares. What every Python class has besides ([__class__], [__dict__],
    [__init__], ...) is not listed: the properties that speak of a name
    outside the class, or of any attribute, are stated for every [Table],
    whatever it lists. *)
Definition declarative (name : string) (cols : list string) : list Other :=
  [ mkOther "__tablename__" [SStr name] (no_attribute "str" "like")
      (Ok (OLabel name))
      (Raise (ArgumentError "Textual column expression should be explicitly declared with text()"));
    mkOther "__table__" [] (no_attribute "Table" "like")
      (Raise (ArgumentError "GROUP BY / OF / etc. expression expected"))
      (Ok cols);
    foreign "metadata" "MetaData";
    foreign "registry" "registry";
    foreign "type_annotation_map" "dict";
    mkOther "__doc__" [SNull] (no_attribute "NoneType" "like")
      (Ok ONull) (Ok ["anon_1"]) ].

Definition mapped (class_ name : string) (cols : list Column) : Table :=
  mkTable class_ name cols (declarative name (map c_name cols)).

Definition Categories : Table :=
  mapped "Categories" "categories"
    [ mkColumn "category_id" true false;
      mkColumn "category_name" false false;
      mkColumn "description" false false;
      mkColumn "meta" false true ].

Definition Transactions : Table :=
  mapped "Transactions" "transaction"
    [ mkColumn "t_id" true false;
      mkColumn "category_id" false false;
      mkColumn "amount" false false;
      mkColumn "description" false false;
      mkColumn "meta" false true ].

Definition column_names (t : Table) : list string := map c_name (t_columns t).

Definition is_column (t : Table) (name : string) : bool :=
  existsb (String.eqb name) (column_names t).

(** An attribute of the class: the instrumented attribute of a mapped
    column, or another object. *)
Inductive attribute : Type :=
  | Mapped (c : string)
  | Foreign (o : Other).

Definition lookup_other (t : Table) (name : string) : option Other :=
  List.find (λ o, String.eqb name (o_name o)) (t_others t).

(** [hasattr(table, name)] *)
Definition hasattr (t : Table) (name : string) : bool :=
  is_column t name
  || match lookup_other t name with Some _ => true | None => false end.

(** [getattr(table, name)] *)
Definition getattr (t : Table) (name : string) : result attribute :=
  if is_column t name then Ok (Mapped name)
  else match lookup_other t name with
       | Some o => Ok (Foreign o)
       | None =>
           Raise (AttributeError ("type object '" ++ classname t
                                  ++ "' has no attribute '" ++ name ++ "'"))
       end.

(** ** Statements *)

(** A condition: [column == value], [column.like(pat)], or a Python bool,
    which [where] takes for [true()] or [false()]. *)
Inductive clause : Type :=
  | ColEq (c : string) (v : scalar)
  | ColLike (c : string) (pat : string)
  | Const (b : bool).

(** [attr == value] and [attr.like(pat)] on an attribute of the class. *)
Definition equals (a : attribute) (v : scalar) : clause :=
  match a with
  | Mapped c => ColEq c v
  | Foreign o => Const (bool_decide (v ∈ o_equal o))
  end.

Definition like_ (a : attribute) (pat : string) : result clause :=
  match a with
  | Mapped c => Ok (ColLike c pat)
  | Foreign o => Raise (o_like o)
  end.

(** [desc(attr)] and [asc(attr)] *)
Definition ordering (d : direction) (a : attribute)
  : result (direction * order_key) :=
  match a with
  | Mapped c => Ok (d, OCol c)
  | Foreign o => let? key := o_order o in Ok (d, key)
  end.

(** What a statement selects: the mapped class itself, or a list of
    columns. *)
Inductive selection : Type :=
  | Entity
  | Columns (cols : list string).

Record Select : Type := mkSelect {
  s_from : Table;
  s_columns : selection;
  s_where : list clause;
  s_order : list (direction * order_key);
  s_offset : option nat;
  s_limit : option nat
}.

Global Instance Column_eq_dec : EqDecision Column.
Proof. solve_decision. Defined.
Global Instance direction_eq_dec : EqDecision direction.
Proof. solve_decision. Defined.
Global Instance order_key_eq_dec : EqDecision order_key.
Proof. solve_decision. Defined.
Global Instance Other_eq_dec : EqDecision Other.
Proof. solve_decision. Defined.
Global Instance Table_eq_dec : EqDecision Table.
Proof. solve_decision. Defined.
Global Instance clause_eq_dec : EqDecision clause.
Proof. solve_decision. Defined.
Global Instance selection_eq_dec : EqDecision selection.
Proof. solve_decision. Defined.
Global Instance Select_eq_dec : EqDecision Select.
Proof. solve_decision. Defined.

(** [select(table)] on the mapped class: one instance per row, no
    condition, no order. *)
Definition select (t : Table) : Select :=
  mkSelect t Entity [] [] None None.

(** [select( *table.__table__.columns)]: every column of the table. *)
Definition select_columns (t : Table) : Select :=
  mkSelect t (Columns (column_names t)) [] [] None None.

(** The generative methods of a statement; each call appends. *)
Definition where_ (q : Select) (cs : list clause) : Select :=
  mkSelect (s_from q) (s_columns q) (s_where q ++ cs) (s_order q)
           (s_offset q) (s_limit q).
Definition order_by (q : Select) (os : list (direction * order_key)) : Select :=
  mkSelect (s_from q) (s_columns q) (s_where q) (s_order q ++ os)
           (s_offset q) (s_limit q).
Definition with_only_columns (q : Select) (cols : list string) : Select :=
  mkSelect (s_from q) (Columns cols) (s_where q) (s_order q) (s_offset q)
           (s_limit q).
Definition offset (q : Select) (n : option nat) : Select :=
  mkSelect (s_from q) (s_columns q) (s_where q) (s_order q) n (s_limit q).
Definition limit (q : Select) (n : option nat) : Select :=
  mkSelect (s_from q) (s_columns q) (s_where q) (s_order q) (s_offset q) n.

(** ** The relational store *)

(** A missing entry of a row is SQL NULL. *)
Definition getcol (r : pydict) (c : string) : value :=
  default (VScalar SNull) (r !! c).

(** SQL [LIKE]: [%] stands for any run of characters, [_] for any one. *)
Fixpoint like (pat : string) : string → bool :=
  match pat with
  | EmptyString => λ s, match s with EmptyString => true | _ => false end
  | String c pat' =>
      if Ascii.eqb c "%" then
        fix star (s : string) : bool :=
          like pat' s
          || match s with EmptyString => false | String _ s' => star s' end
      else if Ascii.eqb c "_" then
        λ s, match s with EmptyString => false | String _ s' => like pat' s' end
      else
        λ s, match s with
             | EmptyString => false
             | String d s' => Ascii.eqb c d && like pat' s'
             end
  end.

(** [column == None] is rendered [IS NULL], so equality with [SNull] selects
    the rows whose column is NULL; a NULL column equals no other value. *)
Definition eval_clause (r : pydict) (c : clause) : bool :=
  match c with
  | ColEq col v => bool_decide (getcol r col = VScalar v)
  | ColLike col pat =>
      match getcol r col with
      | VScalar (SStr s) => like pat s
      | _ => false
      end
  | Const b => b
  end.

Definition matches (cs : list clause) (r : pydict) : bool :=
  forallb (eval_clause r) cs.

(** Ordering of scalars: numbers by value, text by code point, NULL after
    everything else (PostgreSQL's NULLS LAST for ascending order). *)
Definition scalar_rank (v : scalar) : Z :=
  match v with
  | SBool _ => 0 | SInt _ => 1 | SFloat _ => 2 | SStr _ => 3 | SNull => 4
  end.

Definition scalar_cmp (a b : scalar) : comparison :=
  match a, b with
  | SBool x, SBool y => Bool.compare x y
  | SInt x, SInt y => Z.compare x y
  | SFloat x, SFloat y => String.compare x y
  | SStr x, SStr y => String.compare x y
  | _, _ => Z.compare (scalar_rank a) (scalar_rank b)
  end.

Definition value_cmp (a b : value) : comparison :=
  match a, b with
  | VScalar x, VScalar y => scalar_cmp x y
  | _, _ => Eq
  end.

(** [->>] extracts a field of a JSON object as text. *)
Definition as_text (v : scalar) : scalar :=
  match v with
  | SNull => SNull
  | SBool b => SStr (if b then "true" else "false")
  | SInt z => SStr (pretty z)
  | SFloat r => SStr r
  | SStr s => SStr s
  end.

Definition json_text (meta : value) (field : string) : scalar :=
  match meta with
  | VJson o => match o !! field with Some v => as_text v | None => SNull end
  | VScalar _ | VEntity _ => SNull
  end.

Definition key_value (k : order_key) (r : pydict) : value :=
  match k with
  | OCol c => getcol r c
  | OText f => VScalar (json_text (getcol r "meta") f)
  | OLabel l => getcol r l
  | ONull => VScalar SNull
  end.

Fixpoint row_cmp (os : list (direction * order_key)) (r1 r2 : pydict)
  : comparison :=
  match os with
  | [] => Eq
  | (d, k) :: os' =>
      let c := value_cmp (key_value k r1) (key_value k r2) in
      match (match d with Asc => c | Desc => CompOpp c end) with
      | Eq => row_cmp os' r1 r2
      | c' => c'
      end
  end.

Definition row_le (os : list (direction * order_key)) (r1 r2 : pydict) : bool :=
  match row_cmp os r1 r2 with Gt => false | _ => true end.

(** A stable sort: rows that compare equal keep the order of the table. *)
Fixpoint insert_sorted {A} (le : A → A → bool) (x : A) (l : list A) : list A :=
  match l with
  | [] => [x]
  | y :: l' => if le x y then x :: l else y :: insert_sorted le x l'
  end.

Definition sort_rows {A} (le : A → A → bool) (l : list A) : list A :=
  foldr (insert_sorted le) [] l.

(** The row mapping a select of columns yields: one entry per selected
    column. *)
Definition row_mapping (cols : list string) (r : pydict) : pydict :=
  list_to_map (map (λ c, (c, getcol r c)) cols).

(** The row mapping a select of the mapped class yields: the instance,
    under the name of the class. [jsonable_encoder] makes the instance the
    dict of its column attributes. *)
Definition entity (t : Table) (r : pydict) : pydict :=
  {[ classname t := VEntity (to_field <$> row_mapping (column_names t) r) ]}.

Definition mapping (q : Select) (r : pydict) : pydict :=
  match s_columns q with
  | Entity => entity (s_from q) r
  | Columns cols => row_mapping cols r
  end.

Definition take_opt {A} (n : option nat) (l : list A) : list A :=
  match n with Some k => take k l | None => l end.

Definition run_select (q : Select) (rows : list pydict) : list pydict :=
  let matched := List.filter (matches (s_where q)) rows in
  let ordered := sort_rows (row_le (s_order q)) matched in
  let paged := take_opt (s_limit q) (drop (default 0%nat (s_offset q)) ordered) in
  map (mapping q) paged.

(** The session: the rows of every table, in table order, and what the
    store will do to the coming statements. [faults] is consumed one entry
    per executed statement: [Some e] makes the store fail that statement
    with [e] (lost connection, timeout, a statement the server rejects),
    [None] lets it through; past the end every statement goes through.
    What the server rejects for the types involved (a comparison between a
    text column and a number, an order on the JSON column) is not derived
    from the statement: such failures are among the faults. *)
Record Session : Type := mkSession {
  db : gmap string (list pydict);
  faults : list (option exn)
}.

Definition table_rows (t : Table) (s : Session) : list pydict :=
  default [] (db s !! tablename t).

Definition set_rows (t : Table) (rows : list pydict) (s : Session) : Session :=
  mkSession (<[tablename t := rows]> (db s)) (faults s).

Definition store_step : M Session unit :=
  λ s, match faults s with
       | Some e :: fs => (Raise e, mkSession (db s) fs)
       | None :: fs => (Ok tt, mkSession (db s) fs)
       | [] => (Ok tt, s)
       end.

(** Constraints the tables declare. *)
Definition known_keys (t : Table) (data : pydict) : bool :=
  bool_decide (map_Forall (λ k _, is_column t k = true) data).

Definition not_null_ok (t : Table) (r : pydict) : bool :=
  forallb (λ c, c_nullable c
                || negb (bool_decide (getcol r (c_name c) = VScalar SNull)))
          (t_columns t).

Definition pk_of (t : Table) (r : pydict) : list value :=
  map (λ c, getcol r (c_name c)) (List.filter c_primary (t_columns t)).

Definition pk_free (t : Table) (rows : list pydict) (r : pydict) : bool :=
  negb (existsb (λ r', bool_decide (pk_of t r' = pk_of t r)) rows).

Definition pk_unique (t : Table) (rows : list pydict) : bool :=
  bool_decide (NoDup (map (pk_of t) rows)).

Definition check (b : bool) (e : exn) : M Session unit :=
  if b then ret tt else raise e.

(** [session.execute(stmt)] for each kind of statement. A write takes
    effect when it is executed. *)
Definition session_execute_select (q : Select) : M Session (list pydict) :=
  store_step ;;
  gets (λ s, run_select q (table_rows (s_from q) s)).

(** [select(table).with_only_columns(func.count()).where( *cs)]: replacing
    the columns leaves the statement without a FROM list of its own, so the
    table is selected from only when a condition names one of its columns.
    A statement without FROM ranges over one empty row. *)
Definition names_column (c : clause) : bool :=
  match c with
  | ColEq _ _ | ColLike _ _ => true
  | Const _ => false
  end.

Definition count_from (t : Table) (cs : list clause) (s : Session) : list pydict :=
  if existsb names_column cs then table_rows t s else [∅].

Definition session_execute_count (t : Table) (cs : list clause) : M Session nat :=
  store_step ;;
  gets (λ s, length (List.filter (matches cs) (count_from t cs s))).

Definition session_execute_insert (t : Table) (data : pydict) : M Session unit :=
  store_step ;;
  check (known_keys t data) (CompileError "Unconsumed column names") ;;
  check (not_null_ok t data) (IntegrityError "null value in column") ;;
  let* rows := gets (table_rows t) in
  check (pk_free t rows data) (IntegrityError "duplicate key value") ;;
  modify (set_rows t (rows ++ [data])).

Definition update_rows (cs : list clause) (data : pydict) (rows : list pydict)
  : list pydict :=
  map (λ r, if matches cs r then data ∪ r else r) rows.

Definition session_execute_update (t : Table) (data : pydict) (cs : list clause)
  : M Session unit :=
  store_step ;;
  check (known_keys t data) (CompileError "Unconsumed column names") ;;
  let* rows := gets (table_rows t) in
  let rows' := update_rows cs data rows in
  check (forallb (not_null_ok t) rows') (IntegrityError "null value in column") ;;
  check (pk_unique t rows') (IntegrityError "duplicate key value") ;;
  modify (set_rows t rows').

(** [INSERT ... ON CONFLICT (keys) DO UPDATE SET ...] *)
Definition conflicts (keys : list string) (data r : pydict) : bool :=
  forallb (λ k, bool_decide (getcol r k = getcol data k)) keys.

Definition session_execute_upsert (t : Table) (data : pydict) (keys : list string)
  : M Session unit :=
  store_step ;;
  check (known_keys t data) (CompileError "Unconsumed column names") ;;
  check (forallb (is_column t) keys) (CompileError "no such column") ;;
  check (not_null_ok t data) (IntegrityError "null value in column") ;;
  let* rows := gets (table_rows t) in
  if existsb (conflicts keys data) rows
  then modify (set_rows t (map (λ r, if conflicts keys data r
                                     then data ∪ r else r) rows))
  else modify (set_rows t (rows ++ [data])).

Definition session_execute_delete (t : Table) (cs : list clause) : M Session unit :=
  store_step ;;
  let* rows := gets (table_rows t) in
  modify (set_rows t (List.filter (λ r, negb (matches cs r)) rows)).

(** [session.commit()]: the write was applied by [execute]. *)
Definition session_commit : M Session unit := ret tt.

(** ** SqlAlchemyUtil (scripts/utils/sqlalchemy2_utils.py)

    [self.session] is the monad's state, [self.table] the argument [self].
    Every method takes the optional [table] and starts with
    [table = table or self.table]. Only [QueryType.JSON] is embedded; the
    [group_by] argument, which no caller passes, is left out. *)
Module SqlAlchemyUtil.

Definition table_or (table : option Table) (self : Table) : Table :=
  default self table.

(** [getattr(table.c, key) for key in return_keys]: the generator is run
    when there is a key, and a mapped class has no attribute [c]. *)
Definition returning (t : Table) (return_keys : list string) : result unit :=
  match return_keys with
  | [] => Ok tt
  | _ :: _ =>
      Raise (AttributeError ("type object '" ++ classname t
                             ++ "' has no attribute 'c'"))
  end.

Definition insert (self : Table) (data : pydict) (return_keys : list string)
    (table : option Table) : M Session unit :=
  let table := table_or table self in
  try_except
    (lift (returning table return_keys) ;;
     session_execute_insert table data ;;
     session_commit)
    (λ e, raise e).

Definition update_with_where (self : Table) (data : pydict)
    (where_conditions : list clause) (table : option Table) : M Session unit :=
  let table := table_or table self in
  try_except
    (session_execute_update table data where_conditions ;;
     session_commit)
    (λ e, raise e).

Definition upsert (self : Table) (insert_json : pydict)
    (primary_keys : list string) (table : option Table) : M Session unit :=
  let table := table_or table self in
  try_except
    (session_execute_upsert table insert_json primary_keys ;;
     session_commit)
    (λ e, raise e).

Definition delete (self : Table) (where_conditions : list clause)
    (table : option Table) : M Session unit :=
  let table := table_or table self in
  try_except
    (session_execute_delete table where_conditions ;;
     session_commit)
    (λ e, raise e).

(** [_get_columns], for column names given as strings. *)
Fixpoint _get_columns (columns : list string) (table : Table)
  : result (list attribute) :=
  match columns with
  | [] => Ok []
  | column :: rest =>
      let? a := getattr table column in
      let? columns_updated := _get_columns rest table in
      Ok (a :: columns_updated)
  end.

(** What [with_only_columns( *attrs)] makes of its arguments, one after the
    other. *)
Fixpoint column_exprs (attrs : list attribute) : result (list string) :=
  match attrs with
  | [] => Ok []
  | a :: rest =>
      let? cols := match a with
                   | Mapped c => Ok [c]
                   | Foreign o => o_select o
                   end in
      let? more := column_exprs rest in
      Ok (cols ++ more)%list
  end.

Definition _build_select_query (table : Table) (where_conditions : list clause)
    (offset_ : option nat) (columns : option (list string))
    (order_by_ : option (list (direction * order_key))) : result Select :=
  let order_by_ := default [] order_by_ in
  let select_stmt := select_columns table in
  let? select_stmt :=
    match columns with
    | Some (c :: cs) =>
        let? attrs := _get_columns (c :: cs) table in
        let? cols := column_exprs attrs in
        Ok (with_only_columns select_stmt cols)
    | _ => Ok select_stmt
    end in
  Ok (offset (order_by (where_ select_stmt where_conditions) order_by_) offset_).

Definition _get_count (table : Table) (where_conditions : list clause)
  : M Session nat :=
  session_execute_count table where_conditions.

(** [data[0] if len(data) == 1 else data] *)
Definition one_or_all (data : list pydict) : pyval :=
  match data with
  | [row] => PDict row
  | _ => PList data
  end.

(** The [except] branch only logs, so the method returns [None] there.
    [query.compile(...)] is taken to succeed; a statement it rejects (an
    [OLabel] that names no selected column) ends in the same [except]
    branch as one the store fails. *)
Definition fetch_as_json (query : Select) : M Session pyval :=
  try_except
    (let* data := session_execute_select query in
     ret (one_or_all data))
    (λ e, ret PNone).

Definition fetch_by_query (query : Select) : M Session pyval :=
  try_except (fetch_as_json query) (λ e, ret PNone).

(** The keyword arguments of [select_from_table] and their defaults. *)
Record SelectOpts : Type := mkOpts {
  columns : option (list string);
  select_one : bool;
  offset_ : option nat;
  limit_ : option nat;
  return_count : bool;
  order_by_ : option (list (direction * order_key));
  table_ : option Table
}.

Definition defaults : SelectOpts :=
  mkOpts None false None None false None None.

(** [mappings().first()] through [jsonable_encoder] *)
Definition first_row (data : list pydict) : pyval :=
  match data with
  | [] => PNone
  | row :: _ => PDict row
  end.

Definition select_from_table (self : Table) (where_conditions : list clause)
    (o : SelectOpts) : M Session pyval :=
  let table := table_or (table_ o) self in
  try_except
    (let* select_stmt :=
       lift (_build_select_query table where_conditions (offset_ o)
                                 (columns o) (order_by_ o)) in
     if select_one o then
       let* data := session_execute_select select_stmt in
       ret (first_row data)
     else
       let* results := fetch_by_query (limit select_stmt (limit_ o)) in
       if return_count o then
         let* n := _get_count table where_conditions in
         ret (PCount n results)
       else ret results)
    (λ e, raise e).

End SqlAlchemyUtil.

(** ** Strings, as the query builder uses them *)

(** [str.lower()] on the ASCII letters; other bytes are left as they are,
    which is all a comparison with ["desc"] or ["asc"] can observe. *)
Definition lower_ascii (c : ascii) : ascii :=
  let n := nat_of_ascii c in
  if (65 <=? n)%nat && (n <=? 90)%nat then ascii_of_nat (n + 32) else c.

Fixpoint lower (s : string) : string :=
  match s with
  | EmptyString => EmptyString
  | String c s' => String (lower_ascii c) (lower s')
  end.

(** [s.startswith(p)] *)
Definition startswith (s p : string) : bool := String.prefix p s.

(** [s.split(sep)] for a one-character separator. *)
Fixpoint split (sep : ascii) (s : string) : list string :=
  match s with
  | EmptyString => [EmptyString]
  | String c s' =>
      if Ascii.eqb c sep then EmptyString :: split sep s'
      else match split sep s' with
           | h :: t => String c h :: t
           | [] => [String c EmptyString]
           end
  end.

(** [c in s] *)
Fixpoint contains (c : ascii) (s : string) : bool :=
  match s with
  | EmptyString => false
  | String d s' => Ascii.eqb c d || contains c s'
  end.

(** [l[i]] *)
Definition index {A} (l : list A) (i : nat) : result A :=
  match l !! i with
  | Some x => Ok x
  | None => Raise (IndexError "list index out of range")
  end.

(** ** Request schemas (scripts/core/schemas) *)

(** One entry of [sortModel]: a dict with the keys [colId] and [sort]. *)
Record SortEntry : Type := mkSort {
  colId : string;
  sort : string
}.

(** [filterModel] is a dict: its items in insertion order, one per key. *)
Record FilterModel : Type := mkFilterModel {
  filterModel : option (list (string * scalar));
  sortModel : option (list SortEntry)
}.

(** [FetchCategories], which both fetch routes receive;
    [FetchTransactionModel] has the same fields. *)
Record FetchCategories : Type := mkFetch {
  f_user_id : string;
  filters : option FilterModel
}.

Record MetaData : Type := mkMeta {
  created_by : option string;
  created_at : option Z;
  updated_at : option Z;
  updated_by : option string
}.

Record CreateCategoriesModel : Type := mkCategory {
  category_id : option string;
  category_name : string;
  description : option string;
  meta : option MetaData
}.

Record CreateTransactionModel : Type := mkTransaction {
  t_id : option string;
  t_category_id : string;
  amount : string;
  t_description : option string;
  t_meta : option MetaData
}.

Record UserUpdateModel : Type := mkUser {
  username : string;
  user_role : string;
  user_id : string
}.

Definition opt_str (o : option string) : scalar :=
  match o with Some s => SStr s | None => SNull end.
Definition opt_int (o : option Z) : scalar :=
  match o with Some z => SInt z | None => SNull end.

(** [model_dump()] *)
Definition dump_meta (m : MetaData) : gmap string scalar :=
  <["created_by" := opt_str (created_by m)]>
  (<["created_at" := opt_int (created_at m)]>
  (<["updated_at" := opt_int (updated_at m)]>
  (<["updated_by" := opt_str (updated_by m)]> ∅))).

Definition dump_opt_meta (m : option MetaData) : value :=
  match m with Some m => VJson (dump_meta m) | None => VScalar SNull end.

Definition dump_category (r : CreateCategoriesModel) : pydict :=
  <["category_id" := VScalar (opt_str (category_id r))]>
  (<["category_name" := VScalar (SStr (category_name r))]>
  (<["description" := VScalar (opt_str (description r))]>
  (<["meta" := dump_opt_meta (meta r)]> ∅))).

Definition dump_transaction (r : CreateTransactionModel) : pydict :=
  <["t_id" := VScalar (opt_str (t_id r))]>
  (<["category_id" := VScalar (SStr (t_category_id r))]>
  (<["amount" := VScalar (SFloat (amount r))]>
  (<["description" := VScalar (opt_str (t_description r))]>
  (<["meta" := dump_opt_meta (t_meta r)]> ∅)))).

Definition dump_user (r : UserUpdateModel) : pydict :=
  <["username" := VScalar (SStr (username r))]>
  (<["user_role" := VScalar (SStr (user_role r))]>
  (<["user_id" := VScalar (SStr (user_id r))]> ∅)).

(** Validation of a request body against [CreateCategoriesModel]: a field
    the body leaves out takes the default the class declares. Conversions
    between JSON types are not represented: a value of another type is
    rejected. *)
Definition field_opt_str (body : pydict) (k : string) (dflt : option string)
  : result (option string) :=
  match body !! k with
  | None => Ok dflt
  | Some (VScalar SNull) => Ok None
  | Some (VScalar (SStr s)) => Ok (Some s)
  | Some _ => Raise (ValidationError k)
  end.

Definition validate_str (v : scalar) (k : string) : result (option string) :=
  match v with
  | SNull => Ok None
  | SStr s => Ok (Some s)
  | _ => Raise (ValidationError k)
  end.

Definition validate_int (v : scalar) (k : string) : result (option Z) :=
  match v with
  | SNull => Ok None
  | SInt z => Ok (Some z)
  | _ => Raise (ValidationError k)
  end.

Definition field_scalar (o : gmap string scalar) (k : string) (dflt : scalar)
  : scalar := default dflt (o !! k).

Definition validate_meta (v : value) : result (option MetaData) :=
  match v with
  | VScalar SNull => Ok None
  | VScalar _ | VEntity _ => Raise (ValidationError "meta")
  | VJson o =>
      let? cb := validate_str (field_scalar o "created_by" (SStr "")) "created_by" in
      let? ca := validate_int (field_scalar o "created_at" (SInt 0)) "created_at" in
      let? ua := validate_int (field_scalar o "updated_at" (SInt 0)) "updated_at" in
      let? ub := validate_str (field_scalar o "updated_by" (SStr "")) "updated_by" in
      Ok (Some (mkMeta cb ca ua ub))
  end.

Definition parse_category (body : pydict) : result CreateCategoriesModel :=
  let? cid := field_opt_str body "category_id" (Some "") in
  let? name :=
    match body !! "category_name" with
    | Some (VScalar (SStr s)) => Ok s
    | _ => Raise (ValidationError "category_name")
    end in
  let? descr := field_opt_str body "description" (Some "") in
  let? m := match body !! "meta" with
            | None => Ok None
            | Some v => validate_meta v
            end in
  Ok (mkCategory cid name descr m).

(** ** SQLQueryBuilder (scripts/utils/sqlalchemy2_utils.py) *)

Module QueryConstants.
Definition key_column_map : gmap string string :=
  {[ "created_at" := "meta.created_at" ]}.
End QueryConstants.

Module SQLQueryBuilder.

(** [key_column_map.get(colId, colId)] *)
Definition resolve (col : string) : string :=
  default col (QueryConstants.key_column_map !! col).

(** The body of the loop over [sortModel]. *)
Definition add_sort (self : Table) (query : Select) (each_sort : SortEntry)
  : result Select :=
  let col := resolve (colId each_sort) in
  if hasattr self col then
    let? column := getattr self col in
    if String.eqb (lower (sort each_sort)) "desc" then
      let? clause := ordering Desc column in Ok (order_by query [clause])
    else if String.eqb (lower (sort each_sort)) "asc" then
      let? clause := ordering Asc column in Ok (order_by query [clause])
    else Ok query
  else if startswith col "meta" then
    let? json_field := index (split "." col) 1 in
    if String.eqb (lower (sort each_sort)) "desc" then
      Ok (order_by query [(Desc, OText json_field)])
    else
      Ok (order_by query [(Asc, OText json_field)])
  else Ok query.

Fixpoint sort_loop (self : Table) (query : Select) (entries : list SortEntry)
  : result Select :=
  match entries with
  | [] => Ok query
  | each_sort :: rest =>
      let? query := add_sort self query each_sort in
      sort_loop self query rest
  end.

(** The body of the loop over [filter_dict.items()]; [query.filter(...)]
    is [where]. *)
Definition add_filter (self : Table) (query : Select) (item : string * scalar)
  : result Select :=
  let '(_key, _value) := item in
  if hasattr self _key then
    let? column := getattr self _key in
    match _value with
    | SStr v =>
        if contains "%" v then
          let? c := like_ column v in Ok (where_ query [c])
        else Ok (where_ query [equals column _value])
    | _ => Ok (where_ query [equals column _value])
    end
  else Ok query.

Fixpoint query_builder (self : Table) (query : Select)
    (filter_dict : list (string * scalar)) : result Select :=
  match filter_dict with
  | [] => Ok query
  | item :: rest =>
      let? query := add_filter self query item in
      query_builder self query rest
  end.

Definition add_filters (self : Table) (query : Select) (input_data : FetchCategories)
  : result Select :=
  match filters input_data with
  | None => Raise (AttributeError "'NoneType' object has no attribute 'sortModel'")
  | Some f =>
      let? query :=
        match sortModel f with
        | Some (e :: es) => sort_loop self query (e :: es)
        | _ => Ok query
        end in
      match filterModel f with
      | Some (kv :: kvs) => query_builder self query (kv :: kvs)
      | _ => Ok query
      end
  end.

End SQLQueryBuilder.

(** ** Response envelopes (scripts/core/schemas/__init__.py) *)

Record Envelope : Type := mkEnvelope {
  status : string;
  message : string;
  data : pyval;
  error : option string
}.

Definition DefaultResponseSchema (d : pyval) : Envelope :=
  mkEnvelope "success" "success" d None.

Definition DefaultFailureSchema (msg : string) (err : string) : Envelope :=
  mkEnvelope "failure" msg PNone (Some err).

(** ** Handlers (scripts/core/handlers)

    [shortuuid.uuid()] and [datetime.now(timezone.utc).timestamp()] are read
    from the environment: the handlers take their results as the arguments
    [uuid] and [now]. *)

(** [table.<name> == value] *)
Definition column_eq (t : Table) (name : string) (v : scalar) : result clause :=
  let? a := getattr t name in Ok (equals a v).

(** [KeyError(key)], whose text is the repr of the key. *)
Definition key_error (key : string) : exn := KeyError ("'" ++ key ++ "'").

(** [x["key"]] on what [select_from_table] returned. *)
Definition subscript (x : pyval) (key : string) : result value :=
  match x with
  | PDict d =>
      match d !! key with
      | Some v => Ok v
      | None => Raise (key_error key)
      end
  | PList _ => Raise (TypeError "list indices must be integers or slices, not str")
  | PStr _ => Raise (TypeError "string indices must be integers")
  | PNone => Raise (TypeError "'NoneType' object is not subscriptable")
  | PCount _ _ => Raise (TypeError "tuple indices must be integers or slices, not str")
  end.

(** [v["key"]] on a column value. *)
Definition subscript_value (v : value) (key : string) : result scalar :=
  match v with
  | VJson o =>
      match o !! key with
      | Some x => Ok x
      | None => Raise (key_error key)
      end
  | VScalar SNull => Raise (TypeError "'NoneType' object is not subscriptable")
  | VScalar (SStr _) => Raise (TypeError "string indices must be integers")
  | VScalar (SBool _) => Raise (TypeError "'bool' object is not subscriptable")
  | VScalar (SInt _) => Raise (TypeError "'int' object is not subscriptable")
  | VScalar (SFloat _) => Raise (TypeError "'float' object is not subscriptable")
  | VEntity _ => Raise (TypeError "object is not subscriptable")
  end.

Module CategoryHandler.

Definition create_categories (self : Table) (request_data : CreateCategoriesModel)
    (user_id : string) (uuid : string) (now : Z) : M Session string :=
  try_except
    (let request_data :=
       mkCategory (Some uuid) (category_name request_data)
                  (description request_data) (meta request_data) in
     let* same_name :=
       lift (column_eq self "category_name"
                       (SStr (category_name request_data))) in
     let* existing :=
       SqlAlchemyUtil.select_from_table self [same_name]
         SqlAlchemyUtil.defaults in
     if truthy existing then raise (CustomError "Category already exists!!")
     else
       let request_data :=
         mkCategory (category_id request_data) (category_name request_data)
                    (description request_data)
                    (Some (mkMeta (Some user_id) (Some now) (Some 0) (Some ""))) in
       SqlAlchemyUtil.insert self (dump_category request_data) [] None ;;
       ret uuid)
    (λ e, raise e).

Definition update_categories (self : Table) (request_data : CreateCategoriesModel)
    (user_id : string) (now : Z) : M Session unit :=
  try_except
    (let* same_id :=
       lift (column_eq self "category_id"
                       (opt_str (category_id request_data))) in
     let* category_data :=
       SqlAlchemyUtil.select_from_table self [same_id]
         SqlAlchemyUtil.defaults in
     if truthy category_data then
       let* m := lift (subscript category_data "meta") in
       let* c_at := lift (subscript_value m "created_at") in
       let* m := lift (subscript category_data "meta") in
       let* c_by := lift (subscript_value m "created_by") in
       let* c_by := lift (validate_str c_by "created_by") in
       let* c_at := lift (validate_int c_at "created_at") in
       let request_data :=
         mkCategory (category_id request_data) (category_name request_data)
                    (description request_data)
                    (Some (mkMeta c_by c_at (Some now) (Some user_id))) in
       let* same_id :=
         lift (column_eq self "category_id"
                         (opt_str (category_id request_data))) in
       SqlAlchemyUtil.update_with_where self (dump_category request_data)
         [same_id] None
     else raise (CustomError "Invalid category_id !!"))
    (λ e, raise e).

Definition fetch_categories (self : Table) (request_data : FetchCategories)
  : M Session pyval :=
  try_except
    (let query := select self in
     let* query := lift (SQLQueryBuilder.add_filters self query request_data) in
     let* task_data := SqlAlchemyUtil.fetch_as_json query in
     if truthy task_data then ret task_data
     else ret (PList []))
    (λ e, raise e).

End CategoryHandler.

Module TransactionHandler.

Definition create_transaction (self : Table) (request_data : CreateTransactionModel)
    (user_id : string) (uuid : string) (now : Z) : M Session string :=
  try_except
    (let request_data :=
       mkTransaction (Some uuid) (t_category_id request_data)
                     (amount request_data) (t_description request_data)
                     (Some (mkMeta (Some user_id) (Some now) (Some 0) (Some ""))) in
     SqlAlchemyUtil.insert Transactions (dump_transaction request_data) [] None ;;
     ret (t_category_id request_data))
    (λ e, raise e).

Definition fetch_transaction (self : Table) (request_data : FetchCategories)
  : M Session pyval :=
  try_except
    (let query := select self in
     let* query := lift (SQLQueryBuilder.add_filters self query request_data) in
     let* task_data := SqlAlchemyUtil.fetch_as_json query in
     if truthy task_data then ret task_data
     else ret (PList []))
    (λ e, raise e).

End TransactionHandler.

(** ** Services (scripts/core/services): the handler's result or exception
    wrapped in an envelope. The routes build their handler on [Categories]
    and [Transactions]. *)
Module Services.

Definition envelope {St} (m : M St pyval) (failure : string) : M St Envelope :=
  try_except
    (let* d := m in ret (DefaultResponseSchema d))
    (λ e, ret (DefaultFailureSchema failure (str_exn e))).

Definition create_categories (request_data : CreateCategoriesModel)
    (meta_user_id : string) (uuid : string) (now : Z) : M Session Envelope :=
  envelope
    (let* r := CategoryHandler.create_categories Categories request_data
                 meta_user_id uuid now in ret (PStr r))
    "Failed to create categories".

Definition update_categories (request_data : CreateCategoriesModel)
    (meta_user_id : string) (now : Z) : M Session Envelope :=
  envelope
    (CategoryHandler.update_categories Categories request_data meta_user_id now ;;
     ret PNone)
    "Failed to update categories".

Definition fetch_categories (request_data : FetchCategories) : M Session Envelope :=
  envelope (CategoryHandler.fetch_categories Categories request_data)
           "Failed to fetch categories".

Definition create_transactions (request_data : CreateTransactionModel)
    (meta_user_id : string) (uuid : string) (now : Z) : M Session Envelope :=
  envelope
    (let* r := TransactionHandler.create_transaction Transactions request_data
                 meta_user_id uuid now in ret (PStr r))
    "Failed to create transactions".

Definition fetch_transactions (request_data : FetchCategories) : M Session Envelope :=
  envelope (TransactionHandler.fetch_transaction Transactions request_data)
           "Failed to fetch transactions".

End Services.

(** ** The document store (scripts/utils/mongo_util.py)

    One accessor is bound to one collection: the state is the collection's
    documents, in natural order, and the failures the driver will meet,
    consumed one per driver call as in [Session]. The [_id] field, which
    every projection used here leaves out, is not represented. *)
Record Collection : Type := mkCollection {
  docs : list pydict;
  mfaults : list (option exn)
}.

(** A condition of a query document: [{k: v}] or [{k: {"$ne": v}}]. *)
Inductive mcond : Type :=
  | MEq (v : value)
  | MNe (v : value).

Definition doc_matches (query : list (string * mcond)) (d : pydict) : bool :=
  forallb (λ kc, match snd kc with
                 | MEq v => bool_decide (d !! fst kc = Some v)
                 | MNe v => negb (bool_decide (d !! fst kc = Some v))
                 end) query.

(** A projection [{"_id": 0, f1: 1, ...}] keeps the named fields; the
    default [{"_id": 0}] keeps every field. *)
Definition project (fields : option (list string)) (d : pydict) : pydict :=
  match fields with
  | None => d
  | Some fs => filter (λ kv, fst kv ∈ fs) d
  end.

Definition driver_step : M Collection unit :=
  λ c, match mfaults c with
       | Some e :: fs => (Raise e, mkCollection (docs c) fs)
       | None :: fs => (Ok tt, mkCollection (docs c) fs)
       | [] => (Ok tt, c)
       end.

(** [collection.find_one(query, projection)] *)
Definition driver_find_one (query : list (string * mcond))
    (fields : option (list string)) : M Collection (option pydict) :=
  driver_step ;;
  gets (λ c, project fields <$> List.find (doc_matches query) (docs c)).

(** Apply [f] to the first document that matches. *)
Fixpoint update_first (query : list (string * mcond)) (f : pydict → pydict)
    (ds : list pydict) : list pydict :=
  match ds with
  | [] => []
  | d :: ds' =>
      if doc_matches query d then f d :: ds'
      else d :: update_first query f ds'
  end.

(** The equality fields of a query, which an upsert copies into the new
    document. *)
Definition query_fields (query : list (string * mcond)) : pydict :=
  list_to_map (omap (λ kc, match snd kc with
                           | MEq v => Some (fst kc, v)
                           | MNe _ => None
                           end) query).

(** [collection.update_one(query, {"$set": data}, upsert=upsert)], giving
    [modified_count]. *)
Definition driver_update_one (query : list (string * mcond)) (data : pydict)
    (upsert : bool) : M Collection nat :=
  driver_step ;;
  let* ds := gets docs in
  match List.find (doc_matches query) ds with
  | Some d =>
      modify (λ c, mkCollection (update_first query (λ d, data ∪ d) ds) (mfaults c)) ;;
      ret (if bool_decide (data ∪ d = d) then 0%nat else 1%nat)
  | None =>
      if upsert
      then modify (λ c, mkCollection (ds ++ [data ∪ query_fields query]) (mfaults c)) ;;
           ret 0%nat
      else ret 0%nat
  end.

(** [collection.update_many(query, {"$set": data}, upsert=upsert)], giving
    [modified_count]: every matching document is patched, and the ones the
    patch changes are counted. *)
Definition driver_update_many (query : list (string * mcond)) (data : pydict)
    (upsert : bool) : M Collection nat :=
  driver_step ;;
  let* ds := gets docs in
  if existsb (doc_matches query) ds then
    modify (λ c, mkCollection
                   (map (λ d, if doc_matches query d then data ∪ d else d) ds)
                   (mfaults c)) ;;
    ret (length (List.filter
                   (λ d, doc_matches query d
                         && negb (bool_decide (data ∪ d = d))) ds))
  else if upsert
  then modify (λ c, mkCollection (ds ++ [data ∪ query_fields query]) (mfaults c)) ;;
       ret 0%nat
  else ret 0%nat.

(** Drop the first document that matches. *)
Fixpoint remove_first (query : list (string * mcond)) (ds : list pydict)
  : list pydict :=
  match ds with
  | [] => []
  | d :: ds' =>
      if doc_matches query d then ds'
      else d :: remove_first query ds'
  end.

(** [collection.delete_one(query)] and [collection.delete_many(query)],
    giving [deleted_count]. *)
Definition driver_delete_one (query : list (string * mcond)) : M Collection nat :=
  driver_step ;;
  let* ds := gets docs in
  if existsb (doc_matches query) ds then
    modify (λ c, mkCollection (remove_first query ds) (mfaults c)) ;;
    ret 1%nat
  else ret 0%nat.

Definition driver_delete_many (query : list (string * mcond)) : M Collection nat :=
  driver_step ;;
  let* ds := gets docs in
  modify (λ c, mkCollection (List.filter (λ d, negb (doc_matches query d)) ds)
                            (mfaults c)) ;;
  ret (length (List.filter (doc_matches query) ds)).

Module MongoCollectionBaseClass.

Definition find_one (query : list (string * mcond)) (filter_dict : option (list string))
  : M Collection pydict :=
  try_except
    (let* response := driver_find_one query filter_dict in
     ret (match response with
          | Some d => if truthy_dict d then d else ∅
          | None => ∅
          end))
    (λ e, raise (MongoException ("exception  in find function as " ++ str_exn e))).

(** [if "$set" in data: data = data["$set"]] *)
Definition unwrap_set (data : pydict) : result pydict :=
  match data !! "$set" with
  | None => Ok data
  | Some (VJson o) => Ok (VScalar <$> o)
  | Some (VScalar _) | Some (VEntity _) =>
      Raise (TypeError "$set must be a document")
  end.

Definition update_one (query : list (string * mcond)) (data : pydict)
    (upsert : bool) : M Collection nat :=
  try_except
    (let* data := lift (unwrap_set data) in
     driver_update_one query data upsert)
    (λ e, raise (MongoException ("exception  in update function as " ++ str_exn e))).

Definition update_many (query : list (string * mcond)) (data : pydict)
    (upsert : bool) : M Collection nat :=
  try_except
    (let* data := lift (unwrap_set data) in
     driver_update_many query data upsert)
    (λ e, raise (MongoException ("exception in aggregate function as " ++ str_exn e))).

Definition delete_many (query : list (string * mcond)) : M Collection nat :=
  try_except
    (driver_delete_many query)
    (λ e, raise (MongoException ("exception  in connecting " ++ str_exn e))).

Definition delete_one (query : list (string * mcond)) : M Collection nat :=
  try_except
    (driver_delete_one query)
    (λ e, raise (MongoException ("exception  in delete function of mongo as "
                                 ++ str_exn e))).

End MongoCollectionBaseClass.

Module UserHandler.

Definition update_user_info (request_data : UserUpdateModel) (uid : string)
  : M Collection unit :=
  try_except
    (let* taken :=
       MongoCollectionBaseClass.find_one
         [("username", MEq (VScalar (SStr (username request_data))));
          ("user_id", MNe (VScalar (SStr (user_id request_data))))]
         (Some ["user_id"]) in
     if truthy_dict taken then raise (CustomError "Username already exists!!")
     else
       let* known :=
         MongoCollectionBaseClass.find_one
           [("user_id", MEq (VScalar (SStr uid)))] (Some ["user_id"]) in
       if truthy_dict known then
         MongoCollectionBaseClass.update_one
           [("user_id", MEq (VScalar (SStr uid)))] (dump_user request_data) false ;;
         ret tt
       else raise (CustomError "Unknown User !!"))
    (λ e, raise e).

End UserHandler.

(** ** Vocabulary of the properties *)

(** The failure the store has in stock for the next statement, if any, and
    the session once that statement is past. *)
Definition next_fault (s : Session) : option exn :=
  match faults s with
  | Some e :: _ => Some e
  | _ => None
  end.

Definition skip (s : Session) : Session :=
  mkSession (db s) (tail (faults s)).

(** The rows a statement selects in a session. *)
Definition rows_of (q : Select) (s : Session) : list pydict :=
  run_select q (table_rows (s_from q) s).

(** The shape of a JSON fetch result for the selected rows [data]: the row
    itself when there is exactly one, the list otherwise. *)
Definition single_or_array (data : list pydict) (v : pyval) : Prop :=
  (∀ row, data = [row] → v = PDict row)
  ∧ (length data ≠ 1%nat → v = PList data)
  ∧ (∀ row, v ≠ PList [row]).

(** The row [create_transaction] inserts. *)
Definition transaction_row (request_data : CreateTransactionModel)
    (uid uuid : string) (now : Z) : pydict :=
  dump_transaction
    (mkTransaction (Some uuid) (t_category_id request_data) (amount request_data)
       (t_description request_data)
       (Some (mkMeta (Some uid) (Some now) (Some 0) (Some "")))).

(** The conditions [update_user_info] queries with. *)
Definition username_taken (request_data : UserUpdateModel) : list (string * mcond) :=
  [("username", MEq (VScalar (SStr (username request_data))));
   ("user_id", MNe (VScalar (SStr (user_id request_data))))].

Definition by_user_id (uid : string) : list (string * mcond) :=
  [("user_id", MEq (VScalar (SStr uid)))].

(** ** Sample data *)

Definition meta_of (by_ : string) (at_ : Z) : MetaData :=
  mkMeta (Some by_) (Some at_) (Some 0) (Some "").

Definition row_food : pydict :=
  dump_category (mkCategory (Some "c1") "Food" (Some "groceries")
                            (Some (meta_of "alice" 5))).

Definition row_rent : pydict :=
  dump_category (mkCategory (Some "c2") "Rent" (Some "flat")
                            (Some (meta_of "alice" 9))).

(** Two categories, a store that answers. *)
Definition shop : Session :=
  mkSession {[ "categories" := [row_food; row_rent] ]} [].

(** The same table behind a store that fails the next statement. *)
Definition shop_down : Session :=
  mkSession {[ "categories" := [row_food; row_rent] ]}
            [Some (OperationalError "connection refused")].

Definition no_filters : FetchCategories :=
  mkFetch "alice" (Some (mkFilterModel (Some []) (Some []))).

Definition only_food : FetchCategories :=
  mkFetch "alice"
    (Some (mkFilterModel (Some [("category_name", SStr "Food")]) (Some []))).

Definition by_color_then_name : FetchCategories :=
  mkFetch "alice"
    (Some (mkFilterModel (Some [("color", SStr "red"); ("category_name", SStr "Food")])
                         (Some [mkSort "color" "desc"; mkSort "category_name" "asc"]))).

Definition by_name : FetchCategories :=
  mkFetch "alice"
    (Some (mkFilterModel (Some [("category_name", SStr "Food")])
                         (Some [mkSort "category_name" "asc"]))).

Definition newest_first : FetchCategories :=
  mkFetch "alice"
    (Some (mkFilterModel (Some []) (Some [mkSort "created_at" "desc"]))).

Definition rename_food : CreateCategoriesModel :=
  mkCategory (Some "c1") "Groceries" (Some "weekly shop") None.

Definition body_without_description : pydict :=
  <["category_id" := VScalar (SStr "c1")]>
  (<["category_name" := VScalar (SStr "Food")]> ∅).

(** What validation makes of [body_without_description], and the row the
    update of [shop] with it by bob at time 20 leaves. *)
Definition food_again : CreateCategoriesModel :=
  mkCategory (Some "c1") "Food" (Some "") None.

Definition row_food_after : pydict :=
  dump_category (mkCategory (Some "c1") "Food" (Some "")
                            (Some (mkMeta (Some "alice") (Some 5) (Some 20)
                                          (Some "bob")))).

Definition rent_to_food : CreateCategoriesModel :=
  mkCategory (Some "c2") "Food" (Some "flat") None.

Definition coffee : CreateTransactionModel :=
  mkTransaction None "c1" "3.5" (Some "coffee") None.

Definition profile (uid name role : string) : pydict :=
  dump_user (mkUser name role uid).

(** Two profiles, a driver that answers. *)
Definition people : Collection :=
  mkCollection [profile "u1" "alice" "admin"; profile "u2" "bob" "user"] [].

Definition bob_becomes_robert : UserUpdateModel := mkUser "robert" "user" "u2".

Definition bob_becomes_alice : UserUpdateModel := mkUser "alice" "user" "u2".

(** A table that satisfies the constraints it declares. *)
Definition consistent (t : Table) (rows : list pydict) : Prop :=
  forallb (not_null_ok t) rows = true ∧ pk_unique t rows = true.

(** The statement [select_from_table] builds when no column list is given. *)
Definition built (self : Table) (cs : list clause) (o : SqlAlchemyUtil.SelectOpts)
  : Select :=
  offset (order_by (where_ (select_columns (SqlAlchemyUtil.table_or
                                      (SqlAlchemyUtil.table_ o) self)) cs)
                   (default [] (SqlAlchemyUtil.order_by_ o)))
         (SqlAlchemyUtil.offset_ o).

Definition first_only : SqlAlchemyUtil.SelectOpts :=
  SqlAlchemyUtil.mkOpts None true None (Some 0%nat) true None None.

Definition counted_page : SqlAlchemyUtil.SelectOpts :=
  SqlAlchemyUtil.mkOpts None false (Some 1%nat) (Some 5%nat) true None None.

Definition with_color : SqlAlchemyUtil.SelectOpts :=
  SqlAlchemyUtil.mkOpts (Some ["category_name"; "color"]) false None None false
                        None None.

(** The condition a [filterModel] item stands for. *)
Definition condition_of (item : string * scalar) : clause :=
  match item.2 with
  | SStr v => if contains "%" v then ColLike item.1 v else ColEq item.1 item.2
  | _ => ColEq item.1 item.2
  end.

Definition on_column (self : Table) (item : string * scalar) : bool :=
  is_column self item.1.

(** No key of the filter names an attribute of the class other than a
    mapped column. *)
Definition plain_keys (self : Table) (fd : list (string * scalar)) : Prop :=
  Forall (λ item, hasattr self item.1 = is_column self item.1) fd.

Definition by_name_and_description : list (string * scalar) :=
  [("category_name", SStr "Food"); ("description", SStr "gro%")].

Definition sort_by_metadata : FetchCategories :=
  mkFetch "alice"
    (Some (mkFilterModel None
             (Some [mkSort "category_name" "asc"; mkSort "metafoo" "desc"]))).

(** The row [create_categories] inserts. *)
Definition category_row (request_data : CreateCategoriesModel)
    (uid uuid : string) (now : Z) : pydict :=
  dump_category
    (mkCategory (Some uuid) (category_name request_data)
       (description request_data)
       (Some (mkMeta (Some uid) (Some now) (Some 0) (Some "")))).

(** The condition its pre-check selects with. *)
Definition same_name (request_data : CreateCategoriesModel) : list clause :=
  [ColEq "category_name" (SStr (category_name request_data))].

Definition travel : CreateCategoriesModel :=
  mkCategory None "Travel" (Some "trips") None.

(** A computation that never touches the tables, and one that leaves them
    alone whenever it raises. *)
Definition keeps_db {A} (m : M Session A) : Prop :=
  ∀ s r s', m s = (r, s') → db s' = db s.

Definition fails_clean {A} (m : M Session A) : Prop :=
  ∀ s e s', m s = (Raise e, s') → db s' = db s.

Definition next_mfault (c : Collection) : option exn :=
  match mfaults c with
  | Some e :: _ => Some e
  | _ => None
  end.

Definition mskip (c : Collection) : Collection :=
  mkCollection (docs c) (tail (mfaults c)).

(** The outcome of a method whose driver call failed with [e]. *)
Definition wrapped {A} (msg : string) (e : exn) (c : Collection)
  : result A * Collection :=
  (Raise (MongoException (msg ++ str_exn e)), mskip c).

(** Two profiles behind a driver that fails the next call. *)
Definition people_down : Collection :=
  mkCollection [profile "u1" "alice" "admin"; profile "u2" "bob" "user"]
               [Some (OperationalError "connection refused")].

Definition new_role : gmap string scalar := {[ "user_role" := SStr "owner" ]}.

Definition promote : pydict := {[ "user_role" := VScalar (SStr "admin") ]}.

(** The condition [update_categories] selects and updates with. *)
Definition same_id (request_data : CreateCategoriesModel) : list clause :=
  [ColEq "category_id" (opt_str (category_id request_data))].

(** A category whose [meta] column was left null. *)
Definition row_gift : pydict :=
  dump_category (mkCategory (Some "c5") "Gifts" (Some "") None).

Definition gift_shop : Session :=
  mkSession {[ "categories" := [row_food; row_gift] ]} [].

(** The order clause of a sort entry on a column of the table. *)
Definition column_clause (e : SortEntry) : direction * order_key :=
  (if String.eqb (lower (sort e)) "desc" then Desc else Asc,
   OCol (SQLQueryBuilder.resolve (colId e))).

(** * Properties *)

(** ** The monad and the store primitives *)

Lemma try_reraise {St A} (m : M St A) (s : St) :
  try_except m (λ e, raise e) s = m s.
Proof. unfold try_except, raise. by destruct (m s) as [[a|e] s']. Qed.

Lemma store_step_ok (s : Session) :
  next_fault s = None → store_step s = (Ok tt, skip s).
Proof.
  unfold next_fault, store_step, skip. destruct s as [d fs]; simpl.
  destruct fs as [|[e|] fs]; simpl; done.
Qed.

Lemma store_step_fault (s : Session) (e : exn) :
  next_fault s = Some e → store_step s = (Raise e, skip s).
Proof.
  unfold next_fault, store_step, skip. destruct s as [d fs]; simpl.
  destruct fs as [|[e'|] fs]; simpl; intros; simplify_eq; done.
Qed.

Lemma store_step_db (s : Session) : db (store_step s).2 = db s.
Proof.
  unfold store_step. destruct s as [d fs]; simpl.
  destruct fs as [|[e|] fs]; done.
Qed.

Lemma table_rows_skip (t : Table) (s : Session) :
  table_rows t (skip s) = table_rows t s.
Proof. done. Qed.

Lemma session_execute_select_ok (q : Select) (s : Session) :
  next_fault s = None →
  session_execute_select q s = (Ok (rows_of q s), skip s).
Proof.
  intros H. unfold session_execute_select, bind. by rewrite store_step_ok.
Qed.

Lemma session_execute_select_fault (q : Select) (s : Session) (e : exn) :
  next_fault s = Some e →
  session_execute_select q s = (Raise e, skip s).
Proof.
  intros H. unfold session_execute_select, bind.
  by rewrite (store_step_fault _ e).
Qed.

Lemma session_execute_count_ok (t : Table) (cs : list clause) (s : Session) :
  next_fault s = None →
  session_execute_count t cs s
  = (Ok (length (List.filter (matches cs) (count_from t cs s))), skip s).
Proof.
  intros H. unfold session_execute_count, bind. by rewrite store_step_ok.
Qed.

(** ** Attributes of a mapped class *)

Lemma hasattr_column (t : Table) (name : string) :
  is_column t name = true → hasattr t name = true.
Proof. unfold hasattr. by intros ->. Qed.

Lemma getattr_column (t : Table) (name : string) :
  is_column t name = true → getattr t name = Ok (Mapped name).
Proof. unfold getattr. by intros ->. Qed.

Lemma getattr_hasattr (t : Table) (name : string) :
  hasattr t name = true → ∃ a, getattr t name = Ok a.
Proof.
  unfold hasattr, getattr. destruct (is_column t name); [by eexists|].
  destruct (lookup_other t name); [by eexists|done].
Qed.

Lemma getattr_unknown (t : Table) (name : string) :
  hasattr t name = false →
  getattr t name
  = Raise (AttributeError ("type object '" ++ classname t
                           ++ "' has no attribute '" ++ name ++ "'")).
Proof.
  unfold hasattr, getattr. destruct (is_column t name); [done|].
  by destruct (lookup_other t name).
Qed.

Lemma column_eq_column (t : Table) (name : string) (v : scalar) :
  is_column t name = true → column_eq t name v = Ok (ColEq name v).
Proof. intros H. unfold column_eq. by rewrite getattr_column. Qed.

(** ** fetch_as_json and select_from_table *)

Lemma fetch_as_json_ok (q : Select) (s : Session) :
  next_fault s = None →
  SqlAlchemyUtil.fetch_as_json q s
  = (Ok (SqlAlchemyUtil.one_or_all (rows_of q s)), skip s).
Proof.
  intros H. unfold SqlAlchemyUtil.fetch_as_json, try_except, bind.
  by rewrite session_execute_select_ok.
Qed.

Lemma fetch_as_json_fault (q : Select) (s : Session) (e : exn) :
  next_fault s = Some e →
  SqlAlchemyUtil.fetch_as_json q s = (Ok PNone, skip s).
Proof.
  intros H. unfold SqlAlchemyUtil.fetch_as_json, try_except, bind.
  by rewrite (session_execute_select_fault _ _ e).
Qed.

Lemma fetch_as_json_never_raises (q : Select) (s : Session) :
  ∃ v, SqlAlchemyUtil.fetch_as_json q s = (Ok v, skip s).
Proof.
  destruct (next_fault s) as [e|] eqn:H.
  - eexists. by apply (fetch_as_json_fault _ _ e).
  - eexists. by apply fetch_as_json_ok.
Qed.

Lemma fetch_by_query_eq (q : Select) (s : Session) :
  SqlAlchemyUtil.fetch_by_query q s = SqlAlchemyUtil.fetch_as_json q s.
Proof.
  unfold SqlAlchemyUtil.fetch_by_query, try_except.
  destruct (fetch_as_json_never_raises q s) as [v ->]. done.
Qed.

Lemma one_or_all_shape (data : list pydict) :
  single_or_array data (SqlAlchemyUtil.one_or_all data).
Proof.
  unfold single_or_array, SqlAlchemyUtil.one_or_all. split_and!.
  - by intros row ->.
  - destruct data as [|r [|r' data]]; simpl; try done.
  - destruct data as [|r [|r' data]]; simpl; intros row; congruence.
Qed.

(** A row mapping has an entry for every selected column. *)
Lemma row_mapping_lookup (cols : list string) (r : pydict) (c : string) :
  c ∈ cols → row_mapping cols r !! c = Some (getcol r c).
Proof.
  intros Hc. unfold row_mapping.
  induction cols as [|c' cols IH]; [by apply not_elem_of_nil in Hc|].
  simpl. destruct (decide (c' = c)) as [->|Hne].
  - apply lookup_insert_eq.
  - rewrite lookup_insert_ne by done. apply IH.
    apply elem_of_cons in Hc as [?|?]; [congruence|done].
Qed.

Lemma row_mapping_truthy (cols : list string) (r : pydict) :
  cols ≠ [] → truthy_dict (row_mapping cols r) = true.
Proof.
  intros Hne. destruct cols as [|c cols]; [done|].
  unfold truthy_dict. rewrite bool_decide_eq_false_2; [done|].
  intros Heq.
  assert (row_mapping (c :: cols) r !! c = Some (getcol r c)) as Hl
    by (apply row_mapping_lookup; left).
  rewrite Heq in Hl. by rewrite lookup_empty in Hl.
Qed.

(** The row mapping of a mapped instance is never an empty dict. *)
Lemma entity_truthy (t : Table) (r : pydict) : truthy_dict (entity t r) = true.
Proof.
  unfold truthy_dict, entity. rewrite bool_decide_eq_false_2; [done|].
  intros Heq. apply (f_equal (lookup (classname t))) in Heq.
  by rewrite lookup_singleton_eq, lookup_empty in Heq.
Qed.

Lemma rows_of_truthy (q : Select) (s : Session) (row : pydict) :
  s_columns q ≠ Columns [] → row ∈ rows_of q s → truthy_dict row = true.
Proof.
  intros Hne Hin. unfold rows_of, run_select in Hin.
  apply list_elem_of_fmap in Hin as (r & -> & _).
  unfold mapping. destruct (s_columns q) as [|cols].
  - apply entity_truthy.
  - apply row_mapping_truthy. congruence.
Qed.

(** ** The query builder touches only the conditions and the order *)

Lemma add_sort_frame (self : Table) (q q' : Select) (e : SortEntry) :
  SQLQueryBuilder.add_sort self q e = Ok q' →
  s_from q' = s_from q ∧ s_columns q' = s_columns q ∧ s_where q' = s_where q
  ∧ s_offset q' = s_offset q ∧ s_limit q' = s_limit q.
Proof.
  unfold SQLQueryBuilder.add_sort, rbind.
  repeat case_match; intros; simplify_eq; done.
Qed.

Lemma sort_loop_frame (self : Table) (es : list SortEntry) (q q' : Select) :
  SQLQueryBuilder.sort_loop self q es = Ok q' →
  s_from q' = s_from q ∧ s_columns q' = s_columns q ∧ s_where q' = s_where q
  ∧ s_offset q' = s_offset q ∧ s_limit q' = s_limit q.
Proof.
  revert q. induction es as [|e es IH]; intros q; simpl.
  - intros; by simplify_eq.
  - unfold rbind at 1. destruct (SQLQueryBuilder.add_sort self q e) as [q1|] eqn:H1; [|done].
    intros H2. apply IH in H2. apply add_sort_frame in H1.
    destruct H1 as (?&?&?&?&?), H2 as (?&?&?&?&?). split_and!; congruence.
Qed.

Lemma add_filter_frame (self : Table) (q q' : Select) (item : string * scalar) :
  SQLQueryBuilder.add_filter self q item = Ok q' →
  s_from q' = s_from q ∧ s_columns q' = s_columns q ∧ s_order q' = s_order q
  ∧ s_offset q' = s_offset q ∧ s_limit q' = s_limit q.
Proof.
  destruct item as [k v]. unfold SQLQueryBuilder.add_filter, rbind.
  repeat case_match; intros; simplify_eq; done.
Qed.

Lemma query_builder_frame (self : Table) (fs : list (string * scalar))
    (q q' : Select) :
  SQLQueryBuilder.query_builder self q fs = Ok q' →
  s_from q' = s_from q ∧ s_columns q' = s_columns q ∧ s_order q' = s_order q
  ∧ s_offset q' = s_offset q ∧ s_limit q' = s_limit q.
Proof.
  revert q. induction fs as [|f fs IH]; intros q; simpl.
  - intros; by simplify_eq.
  - unfold rbind at 1.
    destruct (SQLQueryBuilder.add_filter self q f) as [q1|] eqn:H1; [|done].
    intros H2. apply IH in H2. apply add_filter_frame in H1.
    destruct H1 as (?&?&?&?&?), H2 as (?&?&?&?&?). split_and!; congruence.
Qed.

Lemma add_filters_frame (self : Table) (q q' : Select) (req : FetchCategories) :
  SQLQueryBuilder.add_filters self q req = Ok q' →
  s_from q' = s_from q ∧ s_columns q' = s_columns q
  ∧ s_offset q' = s_offset q ∧ s_limit q' = s_limit q.
Proof.
  unfold SQLQueryBuilder.add_filters.
  destruct (filters req) as [f|]; [|done].
  unfold rbind.
  set (r := match sortModel f with Some (e :: es) => _ | _ => _ end).
  assert (∀ q1, r = Ok q1 → s_from q1 = s_from q ∧ s_columns q1 = s_columns q
    ∧ s_where q1 = s_where q ∧ s_offset q1 = s_offset q ∧ s_limit q1 = s_limit q) as Hr.
  { intros q1. subst r. destruct (sortModel f) as [[|e es]|].
    - intros; by simplify_eq.
    - apply sort_loop_frame.
    - intros; by simplify_eq. }
  destruct r as [q1|]; [|done].
  destruct (Hr q1 eq_refl) as (H1&H2&_&H4&H5).
  destruct (filterModel f) as [[|kv kvs]|]; try (intros [= <-]; done).
  intros Hqb. apply query_builder_frame in Hqb.
  destruct Hqb as (?&?&_&?&?).
  split_and!; simpl; congruence.
Qed.

(** ** C1 *)

(** C1. On the JSON fetch path, when the store answers: [fetch_as_json],
    [select_from_table] without [select_one] (alone or paired with the count)
    and the two fetch handlers return the single selected row as one object
    when exactly one row is selected, and the list of rows, possibly empty,
    otherwise; the result is never a one-element list. *)
Theorem json_fetch_single_object_or_array (s : Session) :
  next_fault s = None →
  (∀ q, ∃ v, SqlAlchemyUtil.fetch_as_json q s = (Ok v, skip s)
             ∧ single_or_array (rows_of q s) v)
  ∧ (∀ self cs o q,
       SqlAlchemyUtil.select_one o = false →
       SqlAlchemyUtil._build_select_query
         (SqlAlchemyUtil.table_or (SqlAlchemyUtil.table_ o) self) cs
         (SqlAlchemyUtil.offset_ o) (SqlAlchemyUtil.columns o)
         (SqlAlchemyUtil.order_by_ o) = Ok q →
       ∃ v, single_or_array (rows_of (limit q (SqlAlchemyUtil.limit_ o)) s) v
            ∧ (SqlAlchemyUtil.return_count o = false →
               SqlAlchemyUtil.select_from_table self cs o s = (Ok v, skip s))
            ∧ (SqlAlchemyUtil.return_count o = true →
               next_fault (skip s) = None →
               ∃ n, SqlAlchemyUtil.select_from_table self cs o s
                    = (Ok (PCount n v), skip (skip s))))
  ∧ (∀ self req q,
       SQLQueryBuilder.add_filters self (select self) req = Ok q →
       ∃ v, CategoryHandler.fetch_categories self req s = (Ok v, skip s)
            ∧ TransactionHandler.fetch_transaction self req s = (Ok v, skip s)
            ∧ single_or_array (rows_of q s) v).
Proof.
  intros Hs. split_and!.
  - intros q. eexists. split; [by apply fetch_as_json_ok|apply one_or_all_shape].
  - intros self cs o q Hone Hq.
    exists (SqlAlchemyUtil.one_or_all (rows_of (limit q (SqlAlchemyUtil.limit_ o)) s)).
    split; [apply one_or_all_shape|]. split.
    + intros Hc. unfold SqlAlchemyUtil.select_from_table.
      rewrite try_reraise. unfold bind, lift. rewrite Hq, Hone.
      rewrite fetch_by_query_eq, fetch_as_json_ok by done. by rewrite Hc.
    + intros Hc Hs2. eexists. unfold SqlAlchemyUtil.select_from_table.
      rewrite try_reraise. unfold bind, lift. rewrite Hq, Hone.
      rewrite fetch_by_query_eq, fetch_as_json_ok by done. rewrite Hc.
      unfold SqlAlchemyUtil._get_count. rewrite session_execute_count_ok by done.
      reflexivity.
  - intros self req q Hq.
    exists (SqlAlchemyUtil.one_or_all (rows_of q s)).
    assert (∀ row, row ∈ rows_of q s → truthy_dict row = true) as Htr.
    { intros row. apply rows_of_truthy.
      by apply add_filters_frame in Hq as (_&->&_). }
    assert (CategoryHandler.fetch_categories self req s
            = (Ok (SqlAlchemyUtil.one_or_all (rows_of q s)), skip s)) as Hc.
    { unfold CategoryHandler.fetch_categories. rewrite try_reraise.
      unfold bind, lift. rewrite Hq. rewrite fetch_as_json_ok by done.
      destruct (rows_of q s) as [|r [|r' l]] eqn:Hrows; simpl; try done.
      rewrite Htr; [done|left]. }
    split_and!; [done| |apply one_or_all_shape].
    exact Hc.
Qed.

Lemma json_fetch_single_object_or_array_witness :
  next_fault shop = None
  ∧ ∃ v, CategoryHandler.fetch_categories Categories only_food shop
         = (Ok v, skip shop)
         ∧ TransactionHandler.fetch_transaction Categories only_food shop
           = (Ok v, skip shop)
         ∧ single_or_array
             (rows_of (where_ (select Categories)
                              [ColEq "category_name" (SStr "Food")]) shop) v.
Proof.
  split; [reflexivity|].
  apply (json_fetch_single_object_or_array shop eq_refl). reflexivity.
Defined.

Example fetch_one_row_is_an_object :
  (CategoryHandler.fetch_categories Categories only_food shop).1
  = Ok (PDict (entity Categories row_food)).
Proof. vm_compute. reflexivity. Qed.

Example fetch_two_rows_is_a_list :
  (CategoryHandler.fetch_categories Categories no_filters shop).1
  = Ok (PList [entity Categories row_food; entity Categories row_rent]).
Proof. vm_compute. reflexivity. Qed.

(** ** Store failures *)

(** The four writes hand the store's exception on to the caller. *)
Lemma insert_reraises (self : Table) (data : pydict) (table : option Table)
    (s : Session) (e : exn) :
  next_fault s = Some e →
  SqlAlchemyUtil.insert self data [] table s = (Raise e, skip s).
Proof.
  intros H. unfold SqlAlchemyUtil.insert. rewrite try_reraise.
  unfold bind, lift, session_execute_insert, bind; simpl.
  by rewrite (store_step_fault _ e).
Qed.

Lemma update_with_where_reraises (self : Table) (data : pydict)
    (cs : list clause) (table : option Table) (s : Session) (e : exn) :
  next_fault s = Some e →
  SqlAlchemyUtil.update_with_where self data cs table s = (Raise e, skip s).
Proof.
  intros H. unfold SqlAlchemyUtil.update_with_where. rewrite try_reraise.
  unfold bind, session_execute_update, bind.
  by rewrite (store_step_fault _ e).
Qed.

Lemma upsert_reraises (self : Table) (data : pydict) (keys : list string)
    (table : option Table) (s : Session) (e : exn) :
  next_fault s = Some e →
  SqlAlchemyUtil.upsert self data keys table s = (Raise e, skip s).
Proof.
  intros H. unfold SqlAlchemyUtil.upsert. rewrite try_reraise.
  unfold bind, session_execute_upsert, bind.
  by rewrite (store_step_fault _ e).
Qed.

Lemma delete_reraises (self : Table) (cs : list clause) (table : option Table)
    (s : Session) (e : exn) :
  next_fault s = Some e →
  SqlAlchemyUtil.delete self cs table s = (Raise e, skip s).
Proof.
  intros H. unfold SqlAlchemyUtil.delete. rewrite try_reraise.
  unfold bind, session_execute_delete, bind.
  by rewrite (store_step_fault _ e).
Qed.

Lemma select_one_reraises (self : Table) (cs : list clause) (s : Session) (e : exn) :
  next_fault s = Some e →
  SqlAlchemyUtil.select_from_table self cs
    (SqlAlchemyUtil.mkOpts None true None None false None None) s
  = (Raise e, skip s).
Proof.
  intros H. unfold SqlAlchemyUtil.select_from_table. rewrite try_reraise.
  unfold bind, lift; simpl. by rewrite (session_execute_select_fault _ _ e).
Qed.

(** The JSON select does not: the failure is logged inside
    [fetch_as_json] and [None] comes back as a normal value. *)
Lemma select_from_table_swallows (self : Table) (cs : list clause)
    (s : Session) (e : exn) :
  next_fault s = Some e →
  SqlAlchemyUtil.select_from_table self cs SqlAlchemyUtil.defaults s
  = (Ok PNone, skip s).
Proof.
  intros H. unfold SqlAlchemyUtil.select_from_table. rewrite try_reraise.
  unfold bind, lift; simpl.
  by rewrite fetch_by_query_eq, (fetch_as_json_fault _ _ e).
Qed.

Lemma select_from_table_ok (self : Table) (cs : list clause) (s : Session) :
  next_fault s = None →
  SqlAlchemyUtil.select_from_table self cs SqlAlchemyUtil.defaults s
  = (Ok (SqlAlchemyUtil.one_or_all
           (rows_of (where_ (select_columns self) cs) s)), skip s).
Proof.
  intros H. unfold SqlAlchemyUtil.select_from_table. rewrite try_reraise.
  unfold bind, lift; simpl.
  by rewrite fetch_by_query_eq, fetch_as_json_ok.
Qed.

(** ** C5 *)

(** C5. A store failure does not always reach the caller as an exception:
    on a session whose next statement fails with an [OperationalError],
    [insert] raises that error, but [select_from_table] returns [None]. *)
Theorem select_from_table_returns_none_on_store_failure :
  next_fault shop_down = Some (OperationalError "connection refused")
  ∧ SqlAlchemyUtil.insert Categories row_food [] None shop_down
    = (Raise (OperationalError "connection refused"), shop)
  ∧ SqlAlchemyUtil.select_from_table Categories
      [ColEq "category_name" (SStr "Food")] SqlAlchemyUtil.defaults shop_down
    = (Ok PNone, shop).
Proof.
  split; [reflexivity|]. split.
  - by rewrite (insert_reraises _ _ _ _ (OperationalError "connection refused")).
  - by rewrite (select_from_table_swallows _ _ _ (OperationalError "connection refused")).
Qed.

(** ** C10 *)

Lemma fetch_handlers_fault (self : Table) (req : FetchCategories) (q : Select)
    (s : Session) (e : exn) :
  next_fault s = Some e →
  SQLQueryBuilder.add_filters self (select self) req = Ok q →
  CategoryHandler.fetch_categories self req s = (Ok (PList []), skip s)
  ∧ TransactionHandler.fetch_transaction self req s = (Ok (PList []), skip s).
Proof.
  intros Hs Hq.
  unfold CategoryHandler.fetch_categories, TransactionHandler.fetch_transaction.
  rewrite !try_reraise. unfold bind, lift. rewrite Hq.
  by rewrite (fetch_as_json_fault _ _ e).
Qed.

Lemma fetch_handlers_empty (self : Table) (req : FetchCategories) (q : Select)
    (s : Session) :
  next_fault s = None →
  SQLQueryBuilder.add_filters self (select self) req = Ok q →
  rows_of q s = [] →
  CategoryHandler.fetch_categories self req s = (Ok (PList []), skip s)
  ∧ TransactionHandler.fetch_transaction self req s = (Ok (PList []), skip s).
Proof.
  intros Hs Hq Hrows.
  unfold CategoryHandler.fetch_categories, TransactionHandler.fetch_transaction.
  rewrite !try_reraise. unfold bind, lift. rewrite Hq.
  rewrite fetch_as_json_ok by done. by rewrite Hrows.
Qed.

(** C10. When the execution of the query raises during a category or
    transaction fetch, [fetch_as_json] returns [None], the handler returns
    the empty list and the route answers with the success envelope around
    it: the very envelope of a fetch that selected no row. *)
Theorem fetch_store_failure_looks_like_no_rows (s : Session) (e : exn)
    (req : FetchCategories) :
  next_fault s = Some e →
  (∀ self q,
     SQLQueryBuilder.add_filters self (select self) req = Ok q →
     SqlAlchemyUtil.fetch_as_json q s = (Ok PNone, skip s)
     ∧ CategoryHandler.fetch_categories self req s = (Ok (PList []), skip s)
     ∧ TransactionHandler.fetch_transaction self req s = (Ok (PList []), skip s))
  ∧ (∀ q,
       SQLQueryBuilder.add_filters Categories (select Categories) req = Ok q →
       (Services.fetch_categories req s).1 = Ok (DefaultResponseSchema (PList []))
       ∧ ∀ s0, next_fault s0 = None → rows_of q s0 = [] →
               (Services.fetch_categories req s0).1
               = (Services.fetch_categories req s).1)
  ∧ (∀ q,
       SQLQueryBuilder.add_filters Transactions (select Transactions) req = Ok q →
       (Services.fetch_transactions req s).1 = Ok (DefaultResponseSchema (PList []))
       ∧ ∀ s0, next_fault s0 = None → rows_of q s0 = [] →
               (Services.fetch_transactions req s0).1
               = (Services.fetch_transactions req s).1).
Proof.
  intros Hs. split_and!.
  - intros self q Hq. split; [by apply (fetch_as_json_fault _ _ e)|].
    by apply (fetch_handlers_fault _ _ q _ e).
  - intros q Hq.
    destruct (fetch_handlers_fault _ _ _ _ _ Hs Hq) as [Hc _].
    unfold Services.fetch_categories, Services.envelope, try_except, bind.
    rewrite Hc. split; [done|]. intros s0 Hs0 Hrows.
    destruct (fetch_handlers_empty _ _ _ _ Hs0 Hq Hrows) as [-> _]. done.
  - intros q Hq.
    destruct (fetch_handlers_fault _ _ _ _ _ Hs Hq) as [_ Ht].
    unfold Services.fetch_transactions, Services.envelope, try_except, bind.
    rewrite Ht. split; [done|]. intros s0 Hs0 Hrows.
    destruct (fetch_handlers_empty _ _ _ _ Hs0 Hq Hrows) as [_ ->]. done.
Qed.

Lemma fetch_store_failure_looks_like_no_rows_witness :
  next_fault shop_down = Some (OperationalError "connection refused")
  ∧ (Services.fetch_categories only_food shop_down).1
    = Ok (DefaultResponseSchema (PList []))
  ∧ (Services.fetch_transactions only_food shop).1
    = (Services.fetch_transactions only_food shop_down).1.
Proof.
  split; [reflexivity|].
  pose proof (fetch_store_failure_looks_like_no_rows shop_down
                (OperationalError "connection refused") only_food eq_refl)
    as (_ & Hc & Ht).
  split.
  - exact (proj1 (Hc _ eq_refl)).
  - apply (proj2 (Ht _ eq_refl)); reflexivity.
Defined.

(** ** Entries of a FilterSpec that compile to nothing *)

Lemma sort_loop_app (self : Table) (s1 s2 : list SortEntry) (q : Select) :
  SQLQueryBuilder.sort_loop self q (s1 ++ s2)
  = (let? q1 := SQLQueryBuilder.sort_loop self q s1 in
     SQLQueryBuilder.sort_loop self q1 s2).
Proof.
  revert q. induction s1 as [|e s1 IH]; intros q; simpl; [done|].
  destruct (SQLQueryBuilder.add_sort self q e) as [q1|]; simpl; [apply IH|done].
Qed.

(** An entry the loop body ignores can be taken out of the sortModel. *)
Lemma sort_loop_skip (self : Table) (s1 s2 : list SortEntry) (e : SortEntry)
    (q : Select) :
  (∀ q1, SQLQueryBuilder.add_sort self q1 e = Ok q1) →
  SQLQueryBuilder.sort_loop self q (s1 ++ e :: s2)
  = SQLQueryBuilder.sort_loop self q (s1 ++ s2).
Proof.
  intros He. rewrite !sort_loop_app.
  destruct (SQLQueryBuilder.sort_loop self q s1) as [q1|]; simpl; [|done].
  by rewrite He.
Qed.

Lemma query_builder_app (self : Table) (f1 f2 : list (string * scalar))
    (q : Select) :
  SQLQueryBuilder.query_builder self q (f1 ++ f2)
  = (let? q1 := SQLQueryBuilder.query_builder self q f1 in
     SQLQueryBuilder.query_builder self q1 f2).
Proof.
  revert q. induction f1 as [|kv f1 IH]; intros q; simpl; [done|].
  destruct (SQLQueryBuilder.add_filter self q kv) as [q1|]; simpl;
    [apply IH|done].
Qed.

Lemma add_filter_unknown (self : Table) (q : Select) (kv : string * scalar) :
  hasattr self kv.1 = false → SQLQueryBuilder.add_filter self q kv = Ok q.
Proof.
  destruct kv as [k v]; simpl. intros Hk.
  unfold SQLQueryBuilder.add_filter. by rewrite Hk.
Qed.

Lemma query_builder_skip (self : Table) (f1 f2 : list (string * scalar))
    (kv : string * scalar) (q : Select) :
  hasattr self kv.1 = false →
  SQLQueryBuilder.query_builder self q (f1 ++ kv :: f2)
  = SQLQueryBuilder.query_builder self q (f1 ++ f2).
Proof.
  intros Hk. rewrite !query_builder_app.
  destruct (SQLQueryBuilder.query_builder self q f1) as [q1|]; simpl; [|done].
  by rewrite add_filter_unknown.
Qed.

(** The truth tests on [sortModel] and [filterModel] only skip a loop that
    would do nothing. *)
Lemma add_filters_loops (self : Table) (q : Select) (uid : string)
    (fm : option (list (string * scalar))) (sm : option (list SortEntry)) :
  SQLQueryBuilder.add_filters self q (mkFetch uid (Some (mkFilterModel fm sm)))
  = (let? q1 := SQLQueryBuilder.sort_loop self q (default [] sm) in
     SQLQueryBuilder.query_builder self q1 (default [] fm)).
Proof.
  unfold SQLQueryBuilder.add_filters; simpl.
  destruct sm as [[|e es]|]; simpl;
    destruct fm as [[|kv kvs]|]; simpl; try done;
    destruct (SQLQueryBuilder.add_sort self q e) as [q1|]; simpl; try done;
    destruct (SQLQueryBuilder.sort_loop self q1 es) as [q2|]; simpl; done.
Qed.

Lemma add_sort_unknown (self : Table) (q : Select) (e : SortEntry) :
  hasattr self (SQLQueryBuilder.resolve (colId e)) = false →
  startswith (SQLQueryBuilder.resolve (colId e)) "meta" = false →
  SQLQueryBuilder.add_sort self q e = Ok q.
Proof. intros H1 H2. unfold SQLQueryBuilder.add_sort. by rewrite H1, H2. Qed.

Lemma split_without_separator (sep : ascii) (s : string) :
  contains sep s = false → split sep s = [s].
Proof.
  induction s as [|c s IH]; simpl; [done|].
  rewrite (Ascii.eqb_sym sep c). destruct (Ascii.eqb c sep); simpl; [done|].
  intros H. by rewrite (IH H).
Qed.

(** [("meta." + field).split(".")[1]] is [field]. *)
Lemma split_meta_field (json_field : string) :
  contains "." json_field = false →
  index (split "." ("meta." ++ json_field)) 1 = Ok json_field.
Proof.
  intros H.
  change (split "." ("meta." ++ json_field))
    with ("meta" :: split "." json_field).
  by rewrite (split_without_separator _ _ H).
Qed.

(** The [meta] branch of the sort loop: any direction but [desc] sorts
    ascending. *)
Lemma add_sort_meta (self : Table) (q : Select) (e : SortEntry)
    (json_field : string) :
  hasattr self (SQLQueryBuilder.resolve (colId e)) = false →
  SQLQueryBuilder.resolve (colId e) = "meta." ++ json_field →
  contains "." json_field = false →
  SQLQueryBuilder.add_sort self q e
  = Ok (order_by q [(if String.eqb (lower (sort e)) "desc" then Desc else Asc,
                     OText json_field)]).
Proof.
  intros Hattr Hcol Hdot. unfold SQLQueryBuilder.add_sort.
  rewrite Hattr, Hcol. change (startswith ("meta." ++ json_field) "meta") with true.
  cbv iota. rewrite (split_meta_field _ Hdot). simpl.
  by destruct (String.eqb (lower (sort e)) "desc").
Qed.

(** The fetch handlers see a request only through the statement compiled
    from it. *)
Lemma fetch_categories_by_query (self : Table) (r1 r2 : FetchCategories)
    (s : Session) :
  SQLQueryBuilder.add_filters self (select self) r1
  = SQLQueryBuilder.add_filters self (select self) r2 →
  CategoryHandler.fetch_categories self r1 s
  = CategoryHandler.fetch_categories self r2 s
  ∧ TransactionHandler.fetch_transaction self r1 s
    = TransactionHandler.fetch_transaction self r2 s.
Proof.
  intros H.
  unfold CategoryHandler.fetch_categories, TransactionHandler.fetch_transaction.
  unfold try_except, bind, lift. by rewrite H.
Qed.

(** ** C2 *)

(** C2, as the code has it. A [filterModel] entry whose key is not an
    attribute of the mapped class, and a [sortModel] entry whose
    alias-resolved column id is not an attribute of the class and does not
    start with [meta], contribute nothing: the statement compiled from the
    FilterSpec is the statement compiled with the entry taken out, so the
    fetch handlers return the same rows in the same order. A [sortModel]
    entry whose resolved id is not an attribute and reads [meta.<field>]
    adds an order clause on the JSON field, descending for the direction
    [desc] and ascending for any other. *)
Theorem unknown_column_entry_is_dropped (self : Table) (q : Select)
    (uid : string) :
  (∀ (fm : option (list (string * scalar))) (s1 s2 : list SortEntry)
     (e : SortEntry),
     hasattr self (SQLQueryBuilder.resolve (colId e)) = false →
     startswith (SQLQueryBuilder.resolve (colId e)) "meta" = false →
     SQLQueryBuilder.add_filters self q
       (mkFetch uid (Some (mkFilterModel fm (Some (s1 ++ e :: s2)%list))))
     = SQLQueryBuilder.add_filters self q
         (mkFetch uid (Some (mkFilterModel fm (Some (s1 ++ s2)%list)))))
  ∧ (∀ (sm : option (list SortEntry)) (f1 f2 : list (string * scalar))
       (kv : string * scalar),
       hasattr self kv.1 = false →
       SQLQueryBuilder.add_filters self q
         (mkFetch uid (Some (mkFilterModel (Some (f1 ++ kv :: f2)%list) sm)))
       = SQLQueryBuilder.add_filters self q
           (mkFetch uid (Some (mkFilterModel (Some (f1 ++ f2)%list) sm))))
  ∧ (∀ (r1 r2 : FetchCategories) (s : Session),
       SQLQueryBuilder.add_filters self (select self) r1
       = SQLQueryBuilder.add_filters self (select self) r2 →
       CategoryHandler.fetch_categories self r1 s
       = CategoryHandler.fetch_categories self r2 s
       ∧ TransactionHandler.fetch_transaction self r1 s
         = TransactionHandler.fetch_transaction self r2 s)
  ∧ (∀ (e : SortEntry) (json_field : string),
       hasattr self (SQLQueryBuilder.resolve (colId e)) = false →
       SQLQueryBuilder.resolve (colId e) = "meta." ++ json_field →
       contains "." json_field = false →
       SQLQueryBuilder.add_sort self q e
       = Ok (order_by q [(if String.eqb (lower (sort e)) "desc"
                          then Desc else Asc, OText json_field)])).
Proof.
  split_and!.
  - intros fm s1 s2 e H1 H2. rewrite !add_filters_loops. simpl.
    rewrite sort_loop_skip; [done|]. intros q1. by apply add_sort_unknown.
  - intros sm f1 f2 kv Hk. rewrite !add_filters_loops. simpl.
    destruct (SQLQueryBuilder.sort_loop self q (default [] sm)) as [q1|];
      simpl; [|done].
    by rewrite query_builder_skip.
  - intros r1 r2 s. apply fetch_categories_by_query.
  - intros e json_field. apply add_sort_meta.
Qed.

Lemma unknown_column_entry_is_dropped_witness :
  hasattr Categories (SQLQueryBuilder.resolve "color") = false
  ∧ startswith (SQLQueryBuilder.resolve "color") "meta" = false
  ∧ hasattr Categories (SQLQueryBuilder.resolve "created_at") = false
  ∧ SQLQueryBuilder.resolve "created_at" = "meta." ++ "created_at"
  ∧ contains "." "created_at" = false
  ∧ SQLQueryBuilder.add_filters Categories (select Categories) by_color_then_name
    = SQLQueryBuilder.add_filters Categories (select Categories) by_name
  ∧ SQLQueryBuilder.add_sort Categories (select Categories)
      (mkSort "created_at" "asc")
    = Ok (order_by (select Categories) [(Asc, OText "created_at")]).
Proof.
  split; [reflexivity|]. split; [reflexivity|]. split; [reflexivity|].
  split; [reflexivity|]. split; [reflexivity|].
  pose proof (unknown_column_entry_is_dropped Categories (select Categories) "alice")
    as (Hsort & Hfilter & _ & Hmeta).
  split.
  - unfold by_color_then_name, by_name.
    rewrite (Hsort _ [] [mkSort "category_name" "asc"] (mkSort "color" "desc"))
      by reflexivity.
    simpl app.
    exact (Hfilter _ [] [("category_name", SStr "Food")] ("color", SStr "red")
                   eq_refl).
  - exact (Hmeta (mkSort "created_at" "asc") "created_at" eq_refl eq_refl eq_refl).
Defined.

(** C2 as stated fails: [created_at] resolves to [meta.created_at], which is
    not a column of [categories], yet the entry orders the result. *)
Lemma meta_sort_entry_changes_order :
  is_column Categories (SQLQueryBuilder.resolve "created_at") = false
  ∧ (CategoryHandler.fetch_categories Categories newest_first shop).1
    = Ok (PList [entity Categories row_rent; entity Categories row_food])
  ∧ (CategoryHandler.fetch_categories Categories no_filters shop).1
    = Ok (PList [entity Categories row_food; entity Categories row_rent])
  ∧ (CategoryHandler.fetch_categories Categories newest_first shop).1
    ≠ (CategoryHandler.fetch_categories Categories no_filters shop).1.
Proof.
  assert ((CategoryHandler.fetch_categories Categories newest_first shop).1
          = Ok (PList [entity Categories row_rent; entity Categories row_food]))
    as H1 by (vm_compute; reflexivity).
  assert ((CategoryHandler.fetch_categories Categories no_filters shop).1
          = Ok (PList [entity Categories row_food; entity Categories row_rent]))
    as H2 by (vm_compute; reflexivity).
  split_and!; [reflexivity|exact H1|exact H2|].
  rewrite H1, H2. vm_compute. discriminate.
Qed.

(** A resolved id that starts with [meta] and has no dot makes the loop
    raise: [split(".")[1]] is out of range. *)
Example meta_without_field_raises :
  SQLQueryBuilder.add_filters Categories (select Categories)
    (mkFetch "alice"
       (Some (mkFilterModel None (Some [mkSort "metafoo" "asc"]))))
  = Raise (IndexError "list index out of range").
Proof. reflexivity. Qed.

(** ** C3 *)

(** C3, as the code has it. For a sort entry whose direction, lowered, is
    neither [desc] nor [asc]: when the resolved column id is an attribute of
    the mapped class, a column of the table in particular, no order clause
    is added; when it is not and starts with [meta], an ascending clause on
    the JSON field is added. *)
Theorem unsupported_direction (self : Table) (q : Select) (e : SortEntry) :
  lower (sort e) ≠ "desc" →
  lower (sort e) ≠ "asc" →
  (hasattr self (SQLQueryBuilder.resolve (colId e)) = true →
   SQLQueryBuilder.add_sort self q e = Ok q
   ∧ ∀ uid fm s1 s2,
       SQLQueryBuilder.add_filters self q
         (mkFetch uid (Some (mkFilterModel fm (Some (s1 ++ e :: s2)%list))))
       = SQLQueryBuilder.add_filters self q
           (mkFetch uid (Some (mkFilterModel fm (Some (s1 ++ s2)%list)))))
  ∧ (hasattr self (SQLQueryBuilder.resolve (colId e)) = false →
     startswith (SQLQueryBuilder.resolve (colId e)) "meta" = true →
     ∀ field,
       index (split "." (SQLQueryBuilder.resolve (colId e))) 1 = Ok field →
       SQLQueryBuilder.add_sort self q e
       = Ok (order_by q [(Asc, OText field)])).
Proof.
  intros Hd Ha.
  apply String.eqb_neq in Hd. apply String.eqb_neq in Ha.
  split.
  - intros Hcol.
    assert (∀ q1, SQLQueryBuilder.add_sort self q1 e = Ok q1) as Hskip.
    { intros q1. unfold SQLQueryBuilder.add_sort. rewrite Hcol.
      destruct (getattr_hasattr _ _ Hcol) as [a ->]. simpl.
      by rewrite Hd, Ha. }
    split; [apply Hskip|]. intros uid fm s1 s2.
    rewrite !add_filters_loops. simpl. by rewrite sort_loop_skip.
  - intros Hcol Hmeta field Hf. unfold SQLQueryBuilder.add_sort.
    rewrite Hcol, Hmeta, Hf. simpl. by rewrite Hd.
Qed.

Lemma unsupported_direction_witness :
  lower "Sideways" ≠ "desc"
  ∧ lower "Sideways" ≠ "asc"
  ∧ SQLQueryBuilder.add_sort Categories (select Categories)
      (mkSort "category_name" "Sideways") = Ok (select Categories)
  ∧ SQLQueryBuilder.add_sort Categories (select Categories)
      (mkSort "created_at" "Sideways")
    = Ok (order_by (select Categories) [(Asc, OText "created_at")]).
Proof.
  assert (lower "Sideways" ≠ "desc") as Hd by (vm_compute; discriminate).
  assert (lower "Sideways" ≠ "asc") as Ha by (vm_compute; discriminate).
  split; [exact Hd|]. split; [exact Ha|]. split.
  - apply (unsupported_direction Categories (select Categories)
             (mkSort "category_name" "Sideways") Hd Ha). reflexivity.
  - apply (unsupported_direction Categories (select Categories)
             (mkSort "created_at" "Sideways") Hd Ha); reflexivity.
Defined.

(** C3 as stated fails on the [meta.<field>] branch: a direction that is
    neither [desc] nor [asc] still adds a clause, an ascending one. *)
Lemma meta_sort_defaults_to_ascending :
  lower "sideways" ≠ "desc"
  ∧ lower "sideways" ≠ "asc"
  ∧ SQLQueryBuilder.add_filters Categories (select Categories)
      (mkFetch "alice"
         (Some (mkFilterModel None (Some [mkSort "meta.created_at" "sideways"]))))
    = Ok (order_by (select Categories) [(Asc, OText "created_at")])
  ∧ s_order (order_by (select Categories) [(Asc, OText "created_at")])
    ≠ s_order (select Categories).
Proof.
  split_and!; [vm_compute; discriminate|vm_compute; discriminate
              |reflexivity|discriminate].
Qed.

(** ** Selecting by a condition *)

Lemma sort_rows_no_order (l : list pydict) : sort_rows (row_le []) l = l.
Proof.
  induction l as [|r l IH]; [done|].
  change (sort_rows (row_le []) (r :: l))
    with (insert_sorted (row_le []) r (sort_rows (row_le []) l)).
  rewrite IH. by destruct l.
Qed.

Lemma rows_of_where (t : Table) (cs : list clause) (s : Session) :
  rows_of (where_ (select_columns t) cs) s
  = map (row_mapping (column_names t))
        (List.filter (matches cs) (table_rows t s)).
Proof.
  unfold rows_of, run_select. simpl. by rewrite sort_rows_no_order, drop_0.
Qed.

Lemma rows_of_entities (t : Table) (cs : list clause) (s : Session) :
  rows_of (where_ (select t) cs) s
  = map (entity t) (List.filter (matches cs) (table_rows t s)).
Proof.
  unfold rows_of, run_select. simpl. by rewrite sort_rows_no_order, drop_0.
Qed.

Lemma filter_none {A} (f : A → bool) (l : list A) :
  Forall (λ x, f x = false) l → List.filter f l = [].
Proof.
  induction 1 as [|x l Hx _ IH]; simpl; [done|]. by rewrite Hx.
Qed.

Lemma matches_one (c : clause) (r : pydict) :
  matches [c] r = eval_clause r c.
Proof. unfold matches; simpl. apply andb_true_r. Qed.

(** ** C7 *)

(** C7. Updating a category whose [category_id] is the id of no row of the
    table raises [CustomError("Invalid category_id !!")], the not-found
    error of the handler, and writes nothing: the table is as it was, and
    the route answers with the failure envelope. *)
Theorem update_unknown_category_id (s : Session) (request_data : CreateCategoriesModel)
    (uid : string) (now : Z) :
  Forall (λ r, getcol r "category_id"
               ≠ VScalar (opt_str (category_id request_data)))
         (table_rows Categories s) →
  CategoryHandler.update_categories Categories request_data uid now s
  = (Raise (CustomError "Invalid category_id !!"), skip s)
  ∧ table_rows Categories (skip s) = table_rows Categories s
  ∧ db (skip s) = db s
  ∧ (Services.update_categories request_data uid now s).1
    = Ok (DefaultFailureSchema "Failed to update categories"
                               "Invalid category_id !!").
Proof.
  intros Hnone.
  assert (CategoryHandler.update_categories Categories request_data uid now s
          = (Raise (CustomError "Invalid category_id !!"), skip s)) as Hu.
  { unfold CategoryHandler.update_categories. rewrite try_reraise.
    unfold bind at 1. simpl. unfold bind at 1.
    destruct (next_fault s) as [e|] eqn:Hf.
    - by rewrite (select_from_table_swallows _ _ _ e).
    - rewrite select_from_table_ok by done. rewrite rows_of_where.
      rewrite filter_none; [done|].
      eapply Forall_impl; [exact Hnone|]. intros r Hr. simpl in Hr.
      rewrite matches_one. simpl. by apply bool_decide_eq_false_2. }
  split_and!; [exact Hu|done|done|].
  unfold Services.update_categories, Services.envelope, try_except.
  unfold bind at 1. unfold bind at 1. by rewrite Hu.
Qed.

Lemma update_unknown_category_id_witness :
  Forall (λ r, getcol r "category_id" ≠ VScalar (SStr "c9"))
         (table_rows Categories shop)
  ∧ CategoryHandler.update_categories Categories
      (mkCategory (Some "c9") "Travel" (Some "") None) "bob" 20 shop
    = (Raise (CustomError "Invalid category_id !!"), skip shop).
Proof.
  assert (Forall (λ r, getcol r "category_id" ≠ VScalar (SStr "c9"))
                 (table_rows Categories shop)) as H.
  { repeat constructor; vm_compute; discriminate. }
  split; [exact H|].
  apply (update_unknown_category_id shop
           (mkCategory (Some "c9") "Travel" (Some "") None) "bob" 20 H).
Defined.

(** ** Writes that went through *)

Lemma bind_lift {St A B} (r : result A) (k : A → M St B) (s : St) :
  bind (lift r) k s = match r with Ok a => k a s | Raise e => (Raise e, s) end.
Proof. unfold bind, lift. by destruct r. Qed.

Lemma table_rows_set_rows (t : Table) (rows : list pydict) (s : Session) :
  table_rows t (set_rows t rows s) = rows.
Proof. unfold table_rows, set_rows; simpl. by rewrite lookup_insert_eq. Qed.

Lemma update_with_where_inv (self : Table) (data : pydict) (cs : list clause)
    (s s' : Session) (u : unit) :
  SqlAlchemyUtil.update_with_where self data cs None s = (Ok u, s') →
  next_fault s = None
  ∧ s' = set_rows self (update_rows cs data (table_rows self s)) (skip s).
Proof.
  unfold SqlAlchemyUtil.update_with_where. rewrite try_reraise. simpl.
  unfold session_execute_update, session_commit.
  unfold bind at 1. unfold bind at 1.
  destruct (next_fault s) as [e|] eqn:Hf.
  { by rewrite (store_step_fault _ e). }
  rewrite store_step_ok by done.
  unfold bind, check, gets, modify, ret, raise.
  repeat case_match; intros; simplify_eq; done.
Qed.

Lemma validate_str_inv (v : scalar) (k : string) (o : option string) :
  validate_str v k = Ok o → v = opt_str o.
Proof. destruct v; simpl; intros; by simplify_eq. Qed.

Lemma validate_int_inv (v : scalar) (k : string) (o : option Z) :
  validate_int v k = Ok o → v = opt_int o.
Proof. destruct v; simpl; intros; by simplify_eq. Qed.

Lemma subscript_value_inv (v : value) (k : string) (x : scalar) :
  subscript_value v k = Ok x → ∃ o, v = VJson o ∧ o !! k = Some x.
Proof.
  destruct v as [[]|o|attrs]; simpl; try done.
  destruct (o !! k) eqn:H; intros; simplify_eq. eauto.
Qed.

(** What a successful [update_categories] did: it found exactly one row
    with the id, read the creation stamp out of its [meta] object, and
    overwrote the row with the dump of the request under the new [meta]. *)
Lemma update_categories_inv (s s' : Session) (request_data : CreateCategoriesModel)
    (uid : string) (now : Z) (u : unit) :
  CategoryHandler.update_categories Categories request_data uid now s = (Ok u, s') →
  let cs := [ColEq "category_id" (opt_str (category_id request_data))] in
  ∃ r0 o c_by c_at,
    List.filter (matches cs) (table_rows Categories s) = [r0]
    ∧ getcol r0 "meta" = VJson o
    ∧ o !! "created_by" = Some (opt_str c_by)
    ∧ o !! "created_at" = Some (opt_int c_at)
    ∧ table_rows Categories s'
      = update_rows cs
          (dump_category
             (mkCategory (category_id request_data) (category_name request_data)
                (description request_data)
                (Some (mkMeta c_by c_at (Some now) (Some uid)))))
          (table_rows Categories s).
Proof.
  unfold CategoryHandler.update_categories. rewrite try_reraise.
  rewrite bind_lift. rewrite (column_eq_column Categories "category_id") by reflexivity.
  cbv beta iota. unfold bind at 1.
  destruct (next_fault s) as [e|] eqn:Hf.
  { by rewrite (select_from_table_swallows _ _ _ e). }
  rewrite select_from_table_ok by done. rewrite rows_of_where.
  destruct (List.filter _ (table_rows Categories s)) as [|r0 [|r1 l]] eqn:Hrows;
    cbn [map SqlAlchemyUtil.one_or_all truthy].
  - done.
  - rewrite (row_mapping_truthy _ r0) by done.
    assert (subscript (PDict (row_mapping (column_names Categories) r0)) "meta"
            = Ok (getcol r0 "meta")) as Hsub.
    { unfold subscript. rewrite row_mapping_lookup; [done|].
      unfold column_names; simpl. set_solver. }
    rewrite bind_lift, Hsub, bind_lift.
    destruct (subscript_value (getcol r0 "meta") "created_at") as [x|] eqn:Hx;
      [|done].
    rewrite bind_lift, ?Hsub, bind_lift.
    destruct (subscript_value (getcol r0 "meta") "created_by") as [y|] eqn:Hy;
      [|done].
    rewrite bind_lift.
    destruct (validate_str y "created_by") as [c_by|] eqn:Hcb; [|done].
    rewrite bind_lift.
    destruct (validate_int x "created_at") as [c_at|] eqn:Hca; [|done].
    rewrite bind_lift.
    rewrite (column_eq_column Categories "category_id") by reflexivity.
    cbv beta iota.
    intros Hup. apply update_with_where_inv in Hup as [_ ->].
    apply subscript_value_inv in Hx as (o & Ho & Hox).
    apply subscript_value_inv in Hy as (o' & Ho' & Hoy).
    rewrite Ho in Ho'. injection Ho' as Heq. subst o'.
    apply validate_str_inv in Hcb as ->. apply validate_int_inv in Hca as ->.
    exists r0, o, c_by, c_at. split_and!; try done.
    by rewrite table_rows_set_rows.
  - rewrite bind_lift. done.
Qed.

Lemma dump_category_lookup (r : CreateCategoriesModel) :
  dump_category r !! "category_id" = Some (VScalar (opt_str (category_id r)))
  ∧ dump_category r !! "category_name" = Some (VScalar (SStr (category_name r)))
  ∧ dump_category r !! "description" = Some (VScalar (opt_str (description r)))
  ∧ dump_category r !! "meta" = Some (dump_opt_meta (meta r))
  ∧ ∀ k, k ∉ ["category_id"; "category_name"; "description"; "meta"] →
         dump_category r !! k = None.
Proof.
  unfold dump_category. split_and!; try by simplify_map_eq.
  intros k Hk. repeat (rewrite lookup_insert_ne; [|set_solver]).
  apply lookup_empty.
Qed.

Lemma dump_meta_lookup (m : MetaData) :
  dump_meta m !! "created_by" = Some (opt_str (created_by m))
  ∧ dump_meta m !! "created_at" = Some (opt_int (created_at m))
  ∧ dump_meta m !! "updated_at" = Some (opt_int (updated_at m))
  ∧ dump_meta m !! "updated_by" = Some (opt_str (updated_by m)).
Proof. unfold dump_meta. split_and!; by simplify_map_eq. Qed.

Lemma parse_category_description (body : pydict) (r : CreateCategoriesModel) :
  parse_category body = Ok r →
  body !! "description" = None →
  description r = Some "".
Proof.
  unfold parse_category, rbind, field_opt_str. intros Hp Hd. rewrite Hd in Hp.
  repeat case_match; simplify_eq; done.
Qed.

(** ** C8 *)

(** C8, as the code has it. A successful category update found exactly one
    row with the id; every row with that id is overwritten with the dump of
    the whole request, the other rows are left alone. In the stored row,
    [meta.created_by] and [meta.created_at] are the values the row had,
    [meta.updated_by] is the requesting user and [meta.updated_at] the
    current time; [category_name] and [description] are those of the
    request, [description] being the empty string when the payload left it
    out; [category_id] and every key outside the model are unchanged. *)
Theorem successful_update_effect (s s' : Session)
    (request_data : CreateCategoriesModel) (uid : string) (now : Z) (u : unit) :
  CategoryHandler.update_categories Categories request_data uid now s = (Ok u, s') →
  let cs := [ColEq "category_id" (opt_str (category_id request_data))] in
  ∃ (r0 new : pydict) (o o' : gmap string scalar),
    List.filter (matches cs) (table_rows Categories s) = [r0]
    ∧ getcol r0 "meta" = VJson o
    ∧ table_rows Categories s'
      = map (λ r, if matches cs r then new ∪ r else r) (table_rows Categories s)
    ∧ (new ∪ r0) !! "meta" = Some (VJson o')
    ∧ o' !! "created_by" = o !! "created_by"
    ∧ o' !! "created_at" = o !! "created_at"
    ∧ o' !! "updated_by" = Some (SStr uid)
    ∧ o' !! "updated_at" = Some (SInt now)
    ∧ (new ∪ r0) !! "category_name" = Some (VScalar (SStr (category_name request_data)))
    ∧ (new ∪ r0) !! "description" = Some (VScalar (opt_str (description request_data)))
    ∧ (∀ body, parse_category body = Ok request_data →
               body !! "description" = None →
               (new ∪ r0) !! "description" = Some (VScalar (SStr "")))
    ∧ getcol (new ∪ r0) "category_id" = getcol r0 "category_id"
    ∧ (∀ k, k ∉ ["category_id"; "category_name"; "description"; "meta"] →
            (new ∪ r0) !! k = r0 !! k).
Proof.
  intros Hup cs. apply update_categories_inv in Hup.
  destruct Hup as (r0 & o & c_by & c_at & Hrows & Hmeta & Hby & Hat & Hs').
  set (new := dump_category _) in Hs'.
  exists r0, new, o, (dump_meta (mkMeta c_by c_at (Some now) (Some uid))).
  destruct (dump_category_lookup
              (mkCategory (category_id request_data) (category_name request_data)
                 (description request_data)
                 (Some (mkMeta c_by c_at (Some now) (Some uid)))))
    as (Hid & Hname & Hdescr & Hm & Hother).
  fold new in Hid, Hname, Hdescr, Hm, Hother.
  cbn [category_id category_name description meta dump_opt_meta]
    in Hid, Hname, Hdescr, Hm.
  destruct (dump_meta_lookup (mkMeta c_by c_at (Some now) (Some uid)))
    as (Hcb & Hca & Hua & Hub).
  cbn [created_by created_at updated_at updated_by opt_str opt_int]
    in Hcb, Hca, Hua, Hub.
  assert (matches cs r0 = true) as Hr0.
  { assert (r0 ∈ List.filter (matches cs) (table_rows Categories s)) as Hin
      by (unfold cs; rewrite Hrows; left).
    apply list_elem_of_In, filter_In in Hin. tauto. }
  split_and!; try done.
  - by apply lookup_union_Some_l.
  - by apply lookup_union_Some_l.
  - by apply lookup_union_Some_l.
  - intros body Hp Hd. rewrite (parse_category_description _ _ Hp Hd) in Hdescr.
    by apply lookup_union_Some_l.
  - unfold getcol at 1. rewrite (lookup_union_Some_l _ _ _ _ Hid). simpl.
    unfold cs, matches in Hr0. simpl in Hr0. rewrite andb_true_r in Hr0.
    by apply bool_decide_eq_true_1 in Hr0.
  - intros k Hk. apply lookup_union_r. by apply Hother.
Qed.

Lemma successful_update_effect_witness :
  ∃ s' r0 new o o',
    CategoryHandler.update_categories Categories rename_food "bob" 20 shop
    = (Ok tt, s')
    ∧ List.filter (matches [ColEq "category_id" (SStr "c1")])
                  (table_rows Categories shop) = [r0]
    ∧ getcol r0 "meta" = VJson o
    ∧ (new ∪ r0) !! "meta" = Some (VJson o')
    ∧ o' !! "created_by" = o !! "created_by"
    ∧ o' !! "created_at" = o !! "created_at"
    ∧ o' !! "updated_by" = Some (SStr "bob")
    ∧ o' !! "updated_at" = Some (SInt 20).
Proof.
  eexists.
  assert (CategoryHandler.update_categories Categories rename_food "bob" 20 shop
          = (Ok tt, _)) as Hrun by (vm_compute; reflexivity).
  destruct (successful_update_effect _ _ _ _ _ _ Hrun)
    as (r0 & new & o & o' & H1 & H2 & _ & H4 & H5 & H6 & H7 & H8 & _).
  exists r0, new, o, o'. split_and!; done.
Defined.

(** C8 as stated fails: the payload does not supply [description], and the
    update still replaces the stored description by the empty string. *)
Lemma update_resets_omitted_description :
  body_without_description !! "description" = None
  ∧ parse_category body_without_description = Ok food_again
  ∧ (CategoryHandler.update_categories Categories food_again "bob" 20 shop).1
    = Ok tt
  ∧ table_rows Categories shop = [row_food; row_rent]
  ∧ row_food !! "description" = Some (VScalar (SStr "groceries"))
  ∧ table_rows Categories
      (CategoryHandler.update_categories Categories food_again "bob" 20 shop).2
    = [row_food_after; row_rent]
  ∧ row_food_after !! "description" = Some (VScalar (SStr "")).
Proof.
  split_and!; (vm_compute; reflexivity).
Qed.

(** ** Creating a category *)

Lemma filter_some {A} (f : A → bool) (l : list A) :
  Exists (λ x, f x = true) l → List.filter f l ≠ [].
Proof.
  induction 1 as [x l Hx|x l _ IH]; simpl.
  - by rewrite Hx.
  - by destruct (f x).
Qed.

Lemma one_or_all_truthy (cols : list string) (rows : list pydict) :
  cols ≠ [] → rows ≠ [] →
  truthy (SqlAlchemyUtil.one_or_all (map (row_mapping cols) rows)) = true.
Proof.
  intros Hc Hr. destruct rows as [|r [|r' rows]]; simpl; try done.
  by apply row_mapping_truthy.
Qed.

(** The create path does run the pre-check: when the store answers it and a
    row already carries the name, the handler raises and nothing is
    written. *)
Lemma create_existing_name_conflict (s : Session)
    (request_data : CreateCategoriesModel) (uid uuid : string) (now : Z) :
  next_fault s = None →
  Exists (λ r, getcol r "category_name"
               = VScalar (SStr (category_name request_data)))
         (table_rows Categories s) →
  CategoryHandler.create_categories Categories request_data uid uuid now s
  = (Raise (CustomError "Category already exists!!"), skip s).
Proof.
  intros Hf Hex. unfold CategoryHandler.create_categories. rewrite try_reraise.
  rewrite bind_lift.
  rewrite (column_eq_column Categories "category_name") by reflexivity.
  cbv beta iota. unfold bind at 1.
  rewrite select_from_table_ok by done. rewrite rows_of_where.
  rewrite one_or_all_truthy; [done|done|].
  apply filter_some. eapply Exists_impl; [exact Hex|].
  intros r Hr. simpl in Hr. rewrite matches_one. simpl.
  by apply bool_decide_eq_true_2.
Qed.

(** ** C4 *)

(** C4. The update path has no pre-check on the name: on a table with the
    categories Food and Rent, renaming Rent to Food succeeds, the route
    answers with the success envelope, and two rows carry the name Food.
    The create path refuses the same name. *)
Theorem update_can_duplicate_category_name :
  NoDup (map (λ r, getcol r "category_name") (table_rows Categories shop))
  ∧ (CategoryHandler.create_categories Categories rent_to_food "bob" "c3" 20 shop).1
    = Raise (CustomError "Category already exists!!")
  ∧ (CategoryHandler.update_categories Categories rent_to_food "bob" 20 shop).1
    = Ok tt
  ∧ (Services.update_categories rent_to_food "bob" 20 shop).1
    = Ok (DefaultResponseSchema PNone)
  ∧ map (λ r, getcol r "category_name")
        (table_rows Categories
           (CategoryHandler.update_categories Categories rent_to_food "bob" 20 shop).2)
    = [VScalar (SStr "Food"); VScalar (SStr "Food")].
Proof.
  split_and!.
  - apply (bool_decide_unpack _). vm_compute. exact I.
  - vm_compute. reflexivity.
  - vm_compute. reflexivity.
  - vm_compute. reflexivity.
  - vm_compute. reflexivity.
Qed.

(** The pre-check of the create path is itself lost when the store fails
    it: [select_from_table] returns [None], the handler takes it for "no
    such name" and inserts. *)
Example create_after_failed_precheck :
  (CategoryHandler.create_categories Categories
     (mkCategory None "Food" (Some "") None) "bob" "c3" 20 shop_down).1
  = Ok "c3"
  ∧ map (λ r, getcol r "category_name")
        (table_rows Categories
           (CategoryHandler.create_categories Categories
              (mkCategory None "Food" (Some "") None) "bob" "c3" 20 shop_down).2)
    = [VScalar (SStr "Food"); VScalar (SStr "Rent"); VScalar (SStr "Food")].
Proof. split; vm_compute; reflexivity. Qed.

(** ** Creating a transaction *)

Lemma transaction_row_accepted (request_data : CreateTransactionModel)
    (uid uuid : string) (now : Z) :
  t_description request_data ≠ None →
  known_keys Transactions (transaction_row request_data uid uuid now) = true
  ∧ not_null_ok Transactions (transaction_row request_data uid uuid now) = true.
Proof.
  intros Hd. unfold transaction_row, dump_transaction. split.
  - apply bool_decide_eq_true_2.
    repeat (apply map_Forall_insert_2; [reflexivity|]).
    apply map_Forall_empty.
  - destruct (t_description request_data) as [d|]; [|done].
    unfold not_null_ok, getcol. simpl. by simplify_map_eq.
Qed.

Lemma insert_ok (self : Table) (data : pydict) (s : Session) :
  next_fault s = None →
  known_keys self data = true →
  not_null_ok self data = true →
  pk_free self (table_rows self s) data = true →
  SqlAlchemyUtil.insert self data [] None s
  = (Ok tt, set_rows self (table_rows self s ++ [data]) (skip s)).
Proof.
  intros Hf Hk Hn Hp. unfold SqlAlchemyUtil.insert. rewrite try_reraise.
  rewrite bind_lift. simpl. unfold session_execute_insert, session_commit.
  unfold bind at 1. unfold bind at 1. rewrite store_step_ok by done.
  unfold bind, check, gets, modify, ret. rewrite Hk, Hn.
  rewrite table_rows_skip, Hp. done.
Qed.

(** ** C9 *)

(** C9. Whatever a transaction create returns is the [category_id] of the
    request, and that is what the route puts in the [data] field of its
    success envelope; the generated [t_id] only goes into the inserted row.
    The create does return when the store takes the insert: the store does
    not fail the statement, the description is not null and the generated id
    is not yet a key of the table. *)
Theorem create_transaction_returns_category_id (self : Table) (s : Session)
    (request_data : CreateTransactionModel) (uid uuid : string) (now : Z) :
  (∀ v s',
     TransactionHandler.create_transaction self request_data uid uuid now s
     = (Ok v, s') →
     v = t_category_id request_data)
  ∧ (∀ env s',
       Services.create_transactions request_data uid uuid now s = (Ok env, s') →
       status env = "success" →
       data env = PStr (t_category_id request_data))
  ∧ (next_fault s = None →
     t_description request_data ≠ None →
     pk_free Transactions (table_rows Transactions s)
             (transaction_row request_data uid uuid now) = true →
     TransactionHandler.create_transaction self request_data uid uuid now s
     = (Ok (t_category_id request_data),
        set_rows Transactions
          (table_rows Transactions s ++ [transaction_row request_data uid uuid now])
          (skip s))
     ∧ (Services.create_transactions request_data uid uuid now s).1
       = Ok (DefaultResponseSchema (PStr (t_category_id request_data)))).
Proof.
  assert (∀ self' v s',
            TransactionHandler.create_transaction self' request_data uid uuid now s
            = (Ok v, s') → v = t_category_id request_data) as Hret.
  { intros self' v s'. unfold TransactionHandler.create_transaction.
    rewrite try_reraise. unfold bind, ret.
    destruct (SqlAlchemyUtil.insert _ _ _ _ s) as [[[]|e] s1]; simpl;
      intros; by simplify_eq. }
  split_and!.
  - apply Hret.
  - intros env s'. unfold Services.create_transactions, Services.envelope.
    unfold try_except. unfold bind at 1. unfold bind at 1.
    destruct (TransactionHandler.create_transaction _ _ _ _ _ s)
      as [[v|e] s1] eqn:Hc; simpl.
    + apply Hret in Hc as ->. intros [= <- <-]. done.
    + intros [= <- <-]. done.
  - intros Hf Hd Hp.
    destruct (transaction_row_accepted request_data uid uuid now Hd) as [Hk Hn].
    assert (TransactionHandler.create_transaction self request_data uid uuid now s
            = (Ok (t_category_id request_data),
               set_rows Transactions
                 (table_rows Transactions s
                  ++ [transaction_row request_data uid uuid now]) (skip s))) as Hc.
    { unfold TransactionHandler.create_transaction. rewrite try_reraise.
      unfold bind. fold (transaction_row request_data uid uuid now).
      by rewrite insert_ok. }
    split; [exact Hc|].
    assert (∀ t, TransactionHandler.create_transaction t request_data uid uuid now s
                 = TransactionHandler.create_transaction self request_data uid uuid now s)
      as Hself by done.
    unfold Services.create_transactions, Services.envelope, try_except.
    unfold bind at 1. unfold bind at 1. by rewrite Hself, Hc.
Qed.

Lemma create_transaction_returns_category_id_witness :
  next_fault shop = None
  ∧ t_description coffee ≠ None
  ∧ pk_free Transactions (table_rows Transactions shop)
            (transaction_row coffee "alice" "t1" 30) = true
  ∧ (TransactionHandler.create_transaction Transactions coffee "alice" "t1" 30 shop).1
    = Ok "c1"
  ∧ (Services.create_transactions coffee "alice" "t1" 30 shop).1
    = Ok (DefaultResponseSchema (PStr "c1")).
Proof.
  assert (t_description coffee ≠ None) as Hd by discriminate.
  split; [reflexivity|]. split; [exact Hd|]. split; [reflexivity|].
  destruct (create_transaction_returns_category_id Transactions shop coffee
              "alice" "t1" 30) as (_ & _ & Hrun).
  destruct (Hrun eq_refl Hd eq_refl) as [Hc Hs].
  split; [by rewrite Hc|exact Hs].
Defined.

(** ** The user handler *)

Lemma driver_step_healthy (c : Collection) :
  mfaults c = [] → driver_step c = (Ok tt, c).
Proof. unfold driver_step. by intros ->. Qed.

Lemma find_one_healthy (query : list (string * mcond)) (fields : option (list string))
    (c : Collection) :
  mfaults c = [] →
  MongoCollectionBaseClass.find_one query fields c
  = (Ok (match List.find (doc_matches query) (docs c) with
         | Some d => if truthy_dict (project fields d) then project fields d else ∅
         | None => ∅
         end), c).
Proof.
  intros H. unfold MongoCollectionBaseClass.find_one, try_except, bind.
  unfold driver_find_one, bind, gets, ret. rewrite driver_step_healthy by done.
  by destruct (List.find _ _).
Qed.

Lemma project_user_id_truthy (d : pydict) :
  is_Some (d !! "user_id") → truthy_dict (project (Some ["user_id"]) d) = true.
Proof.
  intros [v Hv]. unfold truthy_dict, project.
  rewrite bool_decide_eq_false_2; [done|]. intros Heq.
  assert (filter (λ kv : string * value, kv.1 ∈ ["user_id"]) d
          !! "user_id" = Some v) as Hl.
  { apply map_lookup_filter_Some. split; [done|]. simpl. set_solver. }
  rewrite Heq in Hl. by rewrite lookup_empty in Hl.
Qed.

Lemma truthy_empty : truthy_dict ∅ = false.
Proof. unfold truthy_dict. by rewrite bool_decide_eq_true_2. Qed.

Lemma find_first {A} (f : A → bool) (l : list A) :
  Exists (λ x, f x = true) l →
  ∃ l1 x l2, l = (l1 ++ x :: l2)%list ∧ Forall (λ y, f y = false) l1 ∧ f x = true
             ∧ List.find f l = Some x.
Proof.
  induction l as [|y l IH]; intros Hex; [by apply Exists_nil in Hex|].
  destruct (f y) eqn:Hy.
  - exists [], y, l. simpl. by rewrite Hy.
  - apply Exists_cons in Hex as [Hex|Hex]; [congruence|].
    destruct (IH Hex) as (l1 & x & l2 & -> & Hl1 & Hx & Hfind).
    exists (y :: l1), x, l2. simpl. rewrite Hy. split_and!; try done.
    by constructor.
Qed.

Lemma find_absent {A} (f : A → bool) (l : list A) :
  Forall (λ x, f x = false) l → List.find f l = None.
Proof. induction 1 as [|x l Hx _ IH]; simpl; [done|]. by rewrite Hx. Qed.

Lemma update_first_split (query : list (string * mcond)) (f : pydict → pydict)
    (l1 l2 : list pydict) (d : pydict) :
  Forall (λ y, doc_matches query y = false) l1 →
  doc_matches query d = true →
  update_first query f (l1 ++ d :: l2) = (l1 ++ f d :: l2)%list.
Proof.
  intros Hl1 Hd. induction Hl1 as [|y l1 Hy _ IH]; simpl.
  - by rewrite Hd.
  - by rewrite Hy, IH.
Qed.

Lemma username_taken_spec (request_data : UserUpdateModel) (d : pydict) :
  doc_matches (username_taken request_data) d = true
  ↔ d !! "username" = Some (VScalar (SStr (username request_data)))
    ∧ d !! "user_id" ≠ Some (VScalar (SStr (user_id request_data))).
Proof.
  unfold doc_matches, username_taken. simpl. rewrite andb_true_r.
  rewrite andb_true_iff, negb_true_iff, bool_decide_eq_true, bool_decide_eq_false.
  done.
Qed.

Lemma by_user_id_spec (uid : string) (d : pydict) :
  doc_matches (by_user_id uid) d = true
  ↔ d !! "user_id" = Some (VScalar (SStr uid)).
Proof.
  unfold doc_matches, by_user_id. simpl. rewrite andb_true_r.
  by rewrite bool_decide_eq_true.
Qed.

Lemma dump_user_lookup (r : UserUpdateModel) :
  dump_user r !! "username" = Some (VScalar (SStr (username r)))
  ∧ dump_user r !! "user_role" = Some (VScalar (SStr (user_role r)))
  ∧ dump_user r !! "user_id" = Some (VScalar (SStr (user_id r)))
  ∧ dump_user r !! "$set" = None.
Proof. unfold dump_user. split_and!; by simplify_map_eq. Qed.

Lemma update_one_healthy (query : list (string * mcond)) (r : UserUpdateModel)
    (l1 l2 : list pydict) (d : pydict) :
  Forall (λ y, doc_matches query y = false) l1 →
  doc_matches query d = true →
  ∃ n, MongoCollectionBaseClass.update_one query (dump_user r) false
         (mkCollection (l1 ++ d :: l2) [])
       = (Ok n, mkCollection (l1 ++ (dump_user r ∪ d) :: l2) []).
Proof.
  intros Hl1 Hd. unfold MongoCollectionBaseClass.update_one, try_except.
  rewrite bind_lift. unfold MongoCollectionBaseClass.unwrap_set.
  destruct (dump_user_lookup r) as (_ & _ & _ & ->).
  unfold driver_update_one. unfold bind at 1. rewrite driver_step_healthy by done.
  unfold bind at 1. unfold gets. cbn [docs].
  assert (List.find (doc_matches query) (l1 ++ d :: l2) = Some d) as ->.
  { clear -Hl1 Hd. induction Hl1 as [|y l1 Hy _ IH]; simpl.
    - by rewrite Hd.
    - by rewrite Hy. }
  unfold bind, modify, ret. cbn [docs mfaults].
  rewrite update_first_split by done. eauto.
Qed.

(** How the two lookups of [update_user_info] come out on a healthy driver
    over profiles that all carry a [user_id]. *)
Lemma lookup_taken (request_data : UserUpdateModel) (c : Collection) :
  mfaults c = [] →
  Forall (λ d, is_Some (d !! "user_id")) (docs c) →
  ∃ taken,
    MongoCollectionBaseClass.find_one (username_taken request_data)
      (Some ["user_id"]) c = (Ok taken, c)
    ∧ (truthy_dict taken = true
       ↔ Exists (λ d, doc_matches (username_taken request_data) d = true) (docs c)).
Proof.
  intros Hf Hwf. rewrite find_one_healthy by done. eexists; split; [done|].
  destruct (List.find _ (docs c)) as [d|] eqn:Hfind.
  - apply find_some in Hfind as [Hin Hd].
    apply list_elem_of_In in Hin.
    rewrite project_user_id_truthy
      by (eapply (proj1 (Forall_forall _ _)) in Hwf; eauto).
    rewrite project_user_id_truthy
      by (eapply (proj1 (Forall_forall _ _)) in Hwf; eauto).
    split; [|done]. intros _. apply Exists_exists. eauto.
  - rewrite truthy_empty. split; [done|]. intros Hex.
    apply Exists_exists in Hex as (d & Hin & Hd).
    apply list_elem_of_In in Hin.
    eapply find_none in Hfind; [|exact Hin]. congruence.
Qed.

Lemma lookup_known (uid : string) (c : Collection) :
  mfaults c = [] →
  ∃ known,
    MongoCollectionBaseClass.find_one (by_user_id uid) (Some ["user_id"]) c
    = (Ok known, c)
    ∧ (truthy_dict known = true
       ↔ Exists (λ d, doc_matches (by_user_id uid) d = true) (docs c)).
Proof.
  intros Hf. rewrite find_one_healthy by done. eexists; split; [done|].
  destruct (List.find _ (docs c)) as [d|] eqn:Hfind.
  - apply find_some in Hfind as [Hin Hd].
    apply list_elem_of_In in Hin.
    assert (is_Some (d !! "user_id")) as Hsome
      by (apply by_user_id_spec in Hd; eauto).
    rewrite !project_user_id_truthy by done.
    split; [|done]. intros _. apply Exists_exists. eauto.
  - rewrite truthy_empty. split; [done|]. intros Hex.
    apply Exists_exists in Hex as (d & Hin & Hd).
    apply list_elem_of_In in Hin.
    eapply find_none in Hfind; [|exact Hin]. congruence.
Qed.

Lemma update_user_info_steps (request_data : UserUpdateModel) (uid : string)
    (c : Collection) :
  UserHandler.update_user_info request_data uid c
  = (let* taken := MongoCollectionBaseClass.find_one (username_taken request_data)
                     (Some ["user_id"]) in
     if truthy_dict taken then raise (CustomError "Username already exists!!")
     else
       let* known := MongoCollectionBaseClass.find_one (by_user_id uid)
                       (Some ["user_id"]) in
       if truthy_dict known then
         MongoCollectionBaseClass.update_one (by_user_id uid)
           (dump_user request_data) false ;;
         ret tt
       else raise (CustomError "Unknown User !!")) c.
Proof. unfold UserHandler.update_user_info. by rewrite try_reraise. Qed.

(** ** C6 *)

(** C6. The username check looks for the name under a [user_id] other than
    the one in the request body, while the profile that is looked up and
    written is the one of the [user_id] argument. In a collection where
    alice is [u1] and bob is [u2], a request that names [u1] in its body
    and updates [u2] gives bob the username alice, which [u1] owns: the
    handler returns, and two profiles carry the name. The same update with
    [u2] in the body is refused. *)
Theorem update_takes_username_of_another_user :
  docs people = [profile "u1" "alice" "admin"; profile "u2" "bob" "user"]
  ∧ UserHandler.update_user_info (mkUser "alice" "user" "u1") "u2" people
    = (Ok tt, mkCollection [profile "u1" "alice" "admin";
                            profile "u1" "alice" "user"] [])
  ∧ UserHandler.update_user_info (mkUser "alice" "user" "u2") "u2" people
    = (Raise (CustomError "Username already exists!!"), people).
Proof. split_and!; vm_compute; reflexivity. Qed.

(** * Further properties of the accessors, the builder and the handlers *)

(** Close an equation between closed terms by evaluation. *)
Ltac by_evaluation :=
  lazymatch goal with
  | |- ?lhs = ?rhs => vm_cast_no_check (@eq_refl _ rhs)
  end.

(** ** SqlAlchemyUtil *)

(** X1. A store failure during [insert], [update_with_where], [upsert] (on
    named conflict keys), [delete] or a [select_one] select reaches the
    caller as the very exception the store raised, and the tables are as
    they were. *)
Theorem store_failure_is_reraised (self : Table) (data : pydict)
    (cs : list clause) (keys : list string) (table : option Table)
    (o : SqlAlchemyUtil.SelectOpts) (s : Session) (e : exn) :
  next_fault s = Some e →
  SqlAlchemyUtil.insert self data [] table s = (Raise e, skip s)
  ∧ SqlAlchemyUtil.update_with_where self data cs table s = (Raise e, skip s)
  ∧ (keys ≠ [] →
     SqlAlchemyUtil.upsert self data keys table s = (Raise e, skip s))
  ∧ SqlAlchemyUtil.delete self cs table s = (Raise e, skip s)
  ∧ (SqlAlchemyUtil.select_one o = true →
     SqlAlchemyUtil.columns o = None →
     SqlAlchemyUtil.select_from_table self cs o s = (Raise e, skip s))
  ∧ db (skip s) = db s.
Proof.
  intros H. split_and!.
  - by apply insert_reraises.
  - by apply update_with_where_reraises.
  - intros _. by apply upsert_reraises.
  - by apply delete_reraises.
  - intros Hone Hcols. unfold SqlAlchemyUtil.select_from_table.
    rewrite try_reraise, bind_lift.
    unfold SqlAlchemyUtil._build_select_query. rewrite Hcols. simpl.
    rewrite Hone. unfold bind. by rewrite (session_execute_select_fault _ _ e).
  - done.
Qed.

Lemma store_failure_is_reraised_witness :
  next_fault shop_down = Some (OperationalError "connection refused")
  ∧ SqlAlchemyUtil.delete Categories [ColEq "category_id" (SStr "c1")] None shop_down
    = (Raise (OperationalError "connection refused"), skip shop_down).
Proof.
  split; [reflexivity|].
  apply (store_failure_is_reraised Categories ∅ [ColEq "category_id" (SStr "c1")]
           [] None SqlAlchemyUtil.defaults shop_down
           (OperationalError "connection refused") eq_refl).
Defined.

Lemma update_rows_no_match (cs : list clause) (data : pydict) (rows : list pydict) :
  Forall (λ r, matches cs r = false) rows → update_rows cs data rows = rows.
Proof.
  induction 1 as [|r rows Hr _ IH]; simpl; [done|].
  rewrite Hr. f_equal. exact IH.
Qed.

Lemma filter_all {A} (f : A → bool) (l : list A) :
  Forall (λ x, f x = true) l → List.filter f l = l.
Proof.
  induction 1 as [|x l Hx _ IH]; simpl; [done|]. rewrite Hx. by f_equal.
Qed.

(** X2. [update_with_where] and [delete] with conditions that no row meets
    return normally and leave the rows of the table as they are. *)
Theorem write_matching_no_row_is_a_noop (self : Table) (data : pydict)
    (cs : list clause) (s : Session) :
  next_fault s = None →
  Forall (λ r, matches cs r = false) (table_rows self s) →
  (known_keys self data = true →
   consistent self (table_rows self s) →
   ∃ s', SqlAlchemyUtil.update_with_where self data cs None s = (Ok tt, s')
         ∧ table_rows self s' = table_rows self s)
  ∧ (∃ s', SqlAlchemyUtil.delete self cs None s = (Ok tt, s')
           ∧ table_rows self s' = table_rows self s).
Proof.
  intros Hf Hno. split.
  - intros Hk [Hnn Hpk]. eexists.
    unfold SqlAlchemyUtil.update_with_where. rewrite try_reraise. simpl.
    unfold session_execute_update, session_commit.
    unfold bind at 1. unfold bind at 1. rewrite store_step_ok by done.
    unfold bind, check, gets, modify, ret. rewrite Hk, table_rows_skip.
    rewrite update_rows_no_match by done. rewrite Hnn, Hpk.
    split; [reflexivity|]. by rewrite table_rows_set_rows.
  - eexists. unfold SqlAlchemyUtil.delete. rewrite try_reraise. simpl.
    unfold session_execute_delete, session_commit.
    unfold bind at 1. unfold bind at 1. rewrite store_step_ok by done.
    unfold bind, gets, modify, ret. split; [reflexivity|].
    rewrite table_rows_set_rows, table_rows_skip. apply filter_all.
    eapply Forall_impl; [exact Hno|]. intros r Hr. simpl in Hr. by rewrite Hr.
Qed.

Lemma write_matching_no_row_is_a_noop_witness :
  next_fault shop = None
  ∧ Forall (λ r, matches [ColEq "category_id" (SStr "c9")] r = false)
           (table_rows Categories shop)
  ∧ ∃ s', SqlAlchemyUtil.delete Categories [ColEq "category_id" (SStr "c9")] None shop
          = (Ok tt, s')
          ∧ table_rows Categories s' = table_rows Categories shop.
Proof.
  assert (Forall (λ r, matches [ColEq "category_id" (SStr "c9")] r = false)
                 (table_rows Categories shop)) as H.
  { repeat constructor. }
  split; [reflexivity|]. split; [exact H|].
  apply (write_matching_no_row_is_a_noop Categories ∅ _ shop eq_refl H).
Defined.

Lemma build_without_columns (self : Table) (cs : list clause)
    (o : SqlAlchemyUtil.SelectOpts) :
  SqlAlchemyUtil.columns o = None →
  SqlAlchemyUtil._build_select_query
    (SqlAlchemyUtil.table_or (SqlAlchemyUtil.table_ o) self) cs
    (SqlAlchemyUtil.offset_ o) (SqlAlchemyUtil.columns o)
    (SqlAlchemyUtil.order_by_ o)
  = Ok (built self cs o).
Proof. intros H. unfold SqlAlchemyUtil._build_select_query. by rewrite H. Qed.

(** X3. With [select_one], [select_from_table] returns the first row of the
    statement as one object, or [None] when the statement selects no row;
    the [limit] and [return_count] arguments play no part. *)
Theorem select_one_gives_first_row_or_none (self : Table) (cs : list clause)
    (o : SqlAlchemyUtil.SelectOpts) (s : Session) :
  next_fault s = None →
  SqlAlchemyUtil.select_one o = true →
  SqlAlchemyUtil.columns o = None →
  SqlAlchemyUtil.select_from_table self cs o s
  = (Ok (SqlAlchemyUtil.first_row (rows_of (built self cs o) s)), skip s)
  ∧ (rows_of (built self cs o) s = [] →
     (SqlAlchemyUtil.select_from_table self cs o s).1 = Ok PNone)
  ∧ (∀ row rest, rows_of (built self cs o) s = row :: rest →
     (SqlAlchemyUtil.select_from_table self cs o s).1 = Ok (PDict row)).
Proof.
  intros Hf Hone Hcols.
  assert (SqlAlchemyUtil.select_from_table self cs o s
          = (Ok (SqlAlchemyUtil.first_row (rows_of (built self cs o) s)), skip s))
    as Hsel.
  { unfold SqlAlchemyUtil.select_from_table. rewrite try_reraise, bind_lift.
    rewrite build_without_columns by done. rewrite Hone. unfold bind.
    by rewrite session_execute_select_ok. }
  split; [exact Hsel|]. rewrite Hsel. split.
  - by intros ->.
  - by intros row rest ->.
Qed.

Lemma select_one_gives_first_row_or_none_witness :
  next_fault shop = None
  ∧ (SqlAlchemyUtil.select_from_table Categories [] first_only shop).1
    = Ok (PDict row_food).
Proof.
  split; [reflexivity|].
  destruct (select_one_gives_first_row_or_none Categories [] first_only shop
              eq_refl eq_refl eq_refl) as (_ & _ & H).
  apply (H row_food [row_rent]). by_evaluation.
Defined.

Lemma take_opt_length {A} (n : nat) (l : list A) :
  (length (take_opt (Some n) l) ≤ n)%nat.
Proof. simpl. rewrite length_take. lia. Qed.

Lemma insert_sorted_length {A} (le : A → A → bool) (x : A) (l : list A) :
  length (insert_sorted le x l) = S (length l).
Proof.
  induction l as [|y l IH]; simpl; [done|].
  destruct (le x y); simpl; [done|]. by rewrite IH.
Qed.

Lemma sort_rows_length {A} (le : A → A → bool) (l : list A) :
  length (sort_rows le l) = length l.
Proof.
  induction l as [|x l IH]; [done|].
  change (sort_rows le (x :: l)) with (insert_sorted le x (sort_rows le l)).
  by rewrite insert_sorted_length, IH.
Qed.

Lemma count_from_column (t : Table) (cs : list clause) (s : Session) :
  existsb names_column cs = true → count_from t cs s = table_rows t s.
Proof. unfold count_from. by intros ->. Qed.

(** X4. With [return_count], [select_from_table] returns the pair of a
    count and the page. When a condition names a column, the count is the
    number of rows of the table that meet the conditions, whatever [offset]
    and [limit] are, and the page holds no more rows than that; with no
    condition at all the count statement has no FROM and the count is 1,
    whatever the table holds. Under a [limit] the page holds at most
    [limit] rows. *)
Theorem count_ignores_offset_and_limit (self : Table) (cs : list clause)
    (o : SqlAlchemyUtil.SelectOpts) (s : Session) :
  next_fault s = None →
  next_fault (skip s) = None →
  SqlAlchemyUtil.select_one o = false →
  SqlAlchemyUtil.return_count o = true →
  SqlAlchemyUtil.columns o = None →
  let t := SqlAlchemyUtil.table_or (SqlAlchemyUtil.table_ o) self in
  let page := rows_of (limit (built self cs o) (SqlAlchemyUtil.limit_ o)) s in
  (existsb names_column cs = true →
   SqlAlchemyUtil.select_from_table self cs o s
   = (Ok (PCount (length (List.filter (matches cs) (table_rows t s)))
                 (SqlAlchemyUtil.one_or_all page)),
      skip (skip s))
   ∧ (length page ≤ length (List.filter (matches cs) (table_rows t s)))%nat)
  ∧ (cs = [] →
     SqlAlchemyUtil.select_from_table self cs o s
     = (Ok (PCount 1 (SqlAlchemyUtil.one_or_all page)), skip (skip s)))
  ∧ (∀ k, SqlAlchemyUtil.limit_ o = Some k → (length page ≤ k)%nat).
Proof.
  intros Hf Hf2 Hone Hcount Hcols t page.
  assert (SqlAlchemyUtil.select_from_table self cs o s
          = (Ok (PCount (length (List.filter (matches cs) (count_from t cs (skip s))))
                        (SqlAlchemyUtil.one_or_all page)),
             skip (skip s))) as Hrun.
  { unfold SqlAlchemyUtil.select_from_table. rewrite try_reraise, bind_lift.
    rewrite build_without_columns by done. rewrite Hone.
    unfold bind at 1. rewrite fetch_by_query_eq, fetch_as_json_ok by done.
    rewrite Hcount. unfold bind, ret, SqlAlchemyUtil._get_count.
    by rewrite session_execute_count_ok. }
  split_and!.
  - intros Hcs. rewrite Hrun, count_from_column, table_rows_skip by done.
    split; [done|].
    unfold page, rows_of, run_select. rewrite length_map. simpl.
    fold t.
    set (matched := List.filter (matches cs) (table_rows t s)).
    destruct (SqlAlchemyUtil.limit_ o) as [k|]; simpl;
      rewrite ?length_take, length_drop, sort_rows_length; lia.
  - intros ->. by rewrite Hrun.
  - intros k Hk. unfold page, rows_of, run_select. rewrite length_map.
    simpl. rewrite Hk. apply take_opt_length.
Qed.

Lemma count_ignores_offset_and_limit_witness :
  next_fault shop = None
  ∧ next_fault (skip shop) = None
  ∧ existsb names_column [ColLike "category_id" "c%"] = true
  ∧ SqlAlchemyUtil.select_from_table Categories [ColLike "category_id" "c%"]
      counted_page shop
    = (Ok (PCount 2 (PDict row_rent)), skip (skip shop)).
Proof.
  split; [reflexivity|]. split; [reflexivity|]. split; [reflexivity|].
  destruct (count_ignores_offset_and_limit Categories [ColLike "category_id" "c%"]
              counted_page shop eq_refl eq_refl eq_refl eq_refl eq_refl)
    as (H & _).
  rewrite (proj1 (H eq_refl)). by_evaluation.
Defined.

(** Without a condition the count is 1 although the table holds two
    rows. *)
Example count_without_conditions :
  SqlAlchemyUtil.select_from_table Categories [] counted_page shop
  = (Ok (PCount 1 (PDict row_rent)), skip (skip shop)).
Proof. by_evaluation. Qed.

Lemma get_columns_unknown (t : Table) (pre post : list string) (c : string) :
  Forall (λ c', hasattr t c' = true) pre →
  hasattr t c = false →
  SqlAlchemyUtil._get_columns (pre ++ c :: post) t
  = Raise (AttributeError ("type object '" ++ classname t
                           ++ "' has no attribute '" ++ c ++ "'")).
Proof.
  intros Hpre Hc. induction Hpre as [|c' pre Hc' _ IH]; simpl.
  - by rewrite (getattr_unknown _ _ Hc).
  - destruct (getattr_hasattr _ _ Hc') as [a ->]. simpl. by rewrite IH.
Qed.

(** X5. Asking [select_from_table] for columns by name, the first of which
    that is no attribute of the mapped class makes it raise the
    [AttributeError] of [getattr] for that name, before any statement is
    executed: the session is untouched. *)
Theorem unknown_selected_column_raises (self : Table) (cs : list clause)
    (o : SqlAlchemyUtil.SelectOpts) (pre post : list string) (c : string)
    (s : Session) :
  let t := SqlAlchemyUtil.table_or (SqlAlchemyUtil.table_ o) self in
  SqlAlchemyUtil.columns o = Some (pre ++ c :: post)%list →
  Forall (λ c', hasattr t c' = true) pre →
  hasattr t c = false →
  SqlAlchemyUtil.select_from_table self cs o s
  = (Raise (AttributeError ("type object '" ++ classname t
                            ++ "' has no attribute '" ++ c ++ "'")), s).
Proof.
  intros t Hcols Hpre Hc.
  unfold SqlAlchemyUtil.select_from_table. rewrite try_reraise, bind_lift.
  unfold SqlAlchemyUtil._build_select_query. rewrite Hcols. fold t.
  assert (SqlAlchemyUtil._get_columns (pre ++ c :: post) t
          = Raise (AttributeError ("type object '" ++ classname t
                                   ++ "' has no attribute '" ++ c ++ "'")))
    as Hget by (by apply get_columns_unknown).
  destruct (pre ++ c :: post)%list as [|c0 cols0] eqn:Hl;
    [by destruct pre|].
  by rewrite Hget.
Qed.

Lemma unknown_selected_column_raises_witness :
  SqlAlchemyUtil.columns with_color = Some (["category_name"] ++ "color" :: [])%list
  ∧ Forall (λ c', hasattr Categories c' = true) ["category_name"]
  ∧ hasattr Categories "color" = false
  ∧ SqlAlchemyUtil.select_from_table Categories [] with_color shop_down
    = (Raise (AttributeError "type object 'Categories' has no attribute 'color'"),
       shop_down).
Proof.
  assert (Forall (λ c', hasattr Categories c' = true) ["category_name"]) as Hpre
    by (by repeat constructor).
  split; [reflexivity|]. split; [exact Hpre|]. split; [reflexivity|].
  exact (unknown_selected_column_raises Categories [] with_color
           ["category_name"] [] "color" shop_down eq_refl Hpre eq_refl).
Defined.

(** ** SQLQueryBuilder *)

Lemma add_filter_column (self : Table) (q : Select) (item : string * scalar) :
  on_column self item = true →
  SQLQueryBuilder.add_filter self q item = Ok (where_ q [condition_of item]).
Proof.
  destruct item as [k v]. unfold on_column, condition_of. simpl. intros Hk.
  unfold SQLQueryBuilder.add_filter.
  rewrite (hasattr_column _ _ Hk), (getattr_column _ _ Hk). simpl.
  destruct v as [| | | |v]; try done. by destruct (contains "%" v).
Qed.

Lemma query_builder_where (self : Table) (fd : list (string * scalar)) (q : Select) :
  plain_keys self fd →
  ∃ q', SQLQueryBuilder.query_builder self q fd = Ok q'
        ∧ s_where q'
          = (s_where q ++ map condition_of (List.filter (on_column self) fd))%list.
Proof.
  intros Hfd. revert q.
  induction Hfd as [|item fd Hitem _ IH]; intros q; simpl.
  - exists q. by rewrite app_nil_r.
  - destruct (on_column self item) eqn:Hk.
    + rewrite add_filter_column by done. simpl.
      destruct (IH (where_ q [condition_of item])) as (q' & Hq' & Hw').
      exists q'. split; [done|]. rewrite Hw'. simpl. by rewrite <- app_assoc.
    + rewrite add_filter_unknown by (unfold on_column in Hk; congruence).
      simpl. apply IH.
Qed.

Lemma add_filter_prefix (self : Table) (q q' : Select) (item : string * scalar) :
  SQLQueryBuilder.add_filter self q item = Ok q' →
  s_where q `prefix_of` s_where q'.
Proof.
  destruct item as [k v]. unfold SQLQueryBuilder.add_filter, rbind.
  repeat case_match; intros; simplify_eq; simpl; try done;
    by apply prefix_app_r.
Qed.

Lemma query_builder_prefix (self : Table) (fd : list (string * scalar))
    (q q' : Select) :
  SQLQueryBuilder.query_builder self q fd = Ok q' →
  s_where q `prefix_of` s_where q'.
Proof.
  revert q. induction fd as [|item fd IH]; intros q; simpl.
  - by intros [= <-].
  - destruct (SQLQueryBuilder.add_filter self q item) as [q1|] eqn:H1;
      simpl; [|done].
    intros H2. etrans; [by eapply add_filter_prefix|by apply IH].
Qed.

Lemma matches_app (cs1 cs2 : list clause) (r : pydict) :
  matches (cs1 ++ cs2) r = matches cs1 r && matches cs2 r.
Proof. unfold matches. apply forallb_app. Qed.

Lemma matches_perm (cs1 cs2 : list clause) (r : pydict) :
  Permutation cs1 cs2 → matches cs1 r = matches cs2 r.
Proof.
  unfold matches. induction 1 as [|c l1 l2 _ IH|c1 c2 l|l1 l2 l3 _ IH1 _ IH2]; simpl.
  - done.
  - by rewrite IH.
  - destruct (eval_clause r c1), (eval_clause r c2); done.
  - by rewrite IH1.
Qed.

Lemma filter_perm {A} (f : A → bool) (l1 l2 : list A) :
  Permutation l1 l2 → Permutation (List.filter f l1) (List.filter f l2).
Proof.
  induction 1 as [|x l1 l2 _ IH|x y l|l1 l2 l3 _ IH1 _ IH2]; simpl.
  - done.
  - destruct (f x); [by apply perm_skip|done].
  - destruct (f x), (f y); try done. apply perm_swap.
  - exact (perm_trans IH1 IH2).
Qed.

Lemma run_select_where_ext (q1 q2 : Select) (rows : list pydict) :
  s_from q1 = s_from q2 →
  s_columns q1 = s_columns q2 → s_order q1 = s_order q2 →
  s_offset q1 = s_offset q2 → s_limit q1 = s_limit q2 →
  (∀ r, matches (s_where q1) r = matches (s_where q2) r) →
  run_select q1 rows = run_select q2 rows.
Proof.
  intros Hf Hc Ho Hoff Hl Hw. unfold run_select.
  assert (mapping q1 = mapping q2) as -> by (unfold mapping; by rewrite Hf, Hc).
  rewrite Ho, Hoff, Hl.
  do 4 f_equal. induction rows as [|r rows IH]; simpl; [done|].
  by rewrite Hw, IH.
Qed.

Lemma plain_keys_perm (self : Table) (fd fd' : list (string * scalar)) :
  Permutation fd fd' → plain_keys self fd → plain_keys self fd'.
Proof. unfold plain_keys. by intros ->. Qed.

(** X6. When no key of the [filterModel] names an attribute of the class
    other than a mapped column, [query_builder] returns a statement: every
    item whose key is a column has become one condition, a [LIKE] when the
    value is a string holding [%] and an equality otherwise, appended to the
    conditions of the query, so a row is selected when it meets the
    conditions the query had and every one of these. The order of the items
    does not change the rows the statement selects. *)
Theorem filters_are_a_conjunction (self : Table) (q : Select)
    (fd : list (string * scalar)) :
  plain_keys self fd →
  ∃ q', SQLQueryBuilder.query_builder self q fd = Ok q'
    ∧ s_where q'
      = (s_where q ++ map condition_of (List.filter (on_column self) fd))%list
    ∧ (∀ r, matches (s_where q') r
            = matches (s_where q) r
              && forallb (λ item, negb (on_column self item)
                                  || eval_clause r (condition_of item)) fd)
    ∧ (∀ fd' s, Permutation fd fd' →
         ∃ q'', SQLQueryBuilder.query_builder self q fd' = Ok q''
                ∧ rows_of q'' s = rows_of q' s).
Proof.
  intros Hfd. destruct (query_builder_where self fd q Hfd) as (q' & Hq' & Hw).
  exists q'. split_and!; [done|done| |].
  - intros r. rewrite Hw, matches_app. f_equal.
    unfold matches. clear. induction fd as [|item fd IH]; simpl; [done|].
    destruct (on_column self item); simpl; by rewrite IH.
  - intros fd' s Hperm.
    destruct (query_builder_where self fd' q (plain_keys_perm _ _ _ Hperm Hfd))
      as (q'' & Hq'' & Hw'').
    exists q''. split; [done|]. unfold rows_of.
    destruct (query_builder_frame _ _ _ _ Hq') as (Hf & Hc & Ho & Hoff & Hl).
    destruct (query_builder_frame _ _ _ _ Hq'') as (Hf' & Hc' & Ho' & Hoff' & Hl').
    rewrite Hf, Hf'.
    apply run_select_where_ext; try congruence.
    intros r. rewrite Hw, Hw'', !matches_app. f_equal.
    apply matches_perm. apply Permutation_map. symmetry.
    by apply filter_perm.
Qed.

(** X7. [add_filters] only appends: the statement it returns keeps the
    table, the selected columns, the offset and the limit of the query it
    was given, its conditions and order clauses start with those of that
    query, and every [sortModel] entry adds at most one order clause. *)
Theorem add_filters_only_appends (self : Table) (q q' : Select) (uid : string)
    (fm : option (list (string * scalar))) (sm : option (list SortEntry)) :
  SQLQueryBuilder.add_filters self q (mkFetch uid (Some (mkFilterModel fm sm)))
  = Ok q' →
  s_from q' = s_from q ∧ s_columns q' = s_columns q
  ∧ s_offset q' = s_offset q ∧ s_limit q' = s_limit q
  ∧ s_where q `prefix_of` s_where q'
  ∧ s_order q `prefix_of` s_order q'
  ∧ (length (s_order q') ≤ length (s_order q) + length (default [] sm))%nat.
Proof.
  intros Hq.
  destruct (add_filters_frame _ _ _ _ Hq) as (Hf & Hc & Hoff & Hl).
  rewrite add_filters_loops in Hq.
  destruct (SQLQueryBuilder.sort_loop self q (default [] sm)) as [q1|] eqn:Hs;
    simpl in Hq; [|done].
  destruct (sort_loop_frame _ _ _ _ Hs) as (_ & _ & Hw1 & _ & _).
  destruct (query_builder_frame _ _ _ _ Hq) as (_ & _ & Ho2 & _ & _).
  apply query_builder_prefix in Hq.
  assert (s_order q `prefix_of` s_order q1
          ∧ (length (s_order q1) ≤ length (s_order q) + length (default [] sm))%nat)
    as [Hpre Hlen].
  { clear -Hs. revert q Hs. induction (default [] sm) as [|e es IH]; intros q Hs.
    - simpl in Hs. injection Hs as <-. split; [done|lia].
    - simpl in Hs.
      destruct (SQLQueryBuilder.add_sort self q e) as [q0|] eqn:He; simpl in Hs;
        [|done].
      destruct (IH _ Hs) as [Hp Hn].
      assert (s_order q `prefix_of` s_order q0
              ∧ (length (s_order q0) ≤ S (length (s_order q)))%nat) as [Hp0 Hn0].
      { clear -He. unfold SQLQueryBuilder.add_sort, rbind in He.
        repeat case_match; simplify_eq; simpl;
          rewrite ?length_app; simpl;
          (split; [try done; by apply prefix_app_r|lia]). }
      split; [by etrans|simpl; lia]. }
  split_and!; try done.
  - by rewrite <- Hw1.
  - by rewrite Ho2.
  - by rewrite Ho2.
Qed.

Lemma add_filters_only_appends_witness :
  SQLQueryBuilder.add_filters Categories (select Categories) by_name
  = Ok (order_by (where_ (select Categories) [ColEq "category_name" (SStr "Food")])
                 [(Asc, OCol "category_name")])
  ∧ s_limit (order_by (where_ (select Categories)
                              [ColEq "category_name" (SStr "Food")])
                      [(Asc, OCol "category_name")]) = None.
Proof.
  assert (SQLQueryBuilder.add_filters Categories (select Categories) by_name
          = Ok (order_by (where_ (select Categories)
                                 [ColEq "category_name" (SStr "Food")])
                         [(Asc, OCol "category_name")])) as H by reflexivity.
  split; [exact H|].
  apply (add_filters_only_appends Categories (select Categories) _ "alice" _ _ H).
Defined.

(** ** The fetch handlers *)

Lemma json_fetch_shape_of_handlers (self : Table) (req : FetchCategories)
    (q : Select) (s : Session) :
  next_fault s = None →
  SQLQueryBuilder.add_filters self (select self) req = Ok q →
  CategoryHandler.fetch_categories self req s
  = (Ok (SqlAlchemyUtil.one_or_all (rows_of q s)), skip s)
  ∧ TransactionHandler.fetch_transaction self req s
    = (Ok (SqlAlchemyUtil.one_or_all (rows_of q s)), skip s).
Proof.
  intros Hf Hq.
  assert (∀ row, row ∈ rows_of q s → truthy_dict row = true) as Htr.
  { intros row. apply rows_of_truthy.
    by apply add_filters_frame in Hq as (_&->&_). }
  unfold CategoryHandler.fetch_categories, TransactionHandler.fetch_transaction.
  rewrite !try_reraise, !bind_lift, Hq.
  unfold bind, ret. rewrite fetch_as_json_ok by done.
  destruct (rows_of q s) as [|r [|r' l]] eqn:Hrows; simpl; try done.
  rewrite Htr; [done|left].
Qed.

Lemma filters_are_a_conjunction_witness :
  plain_keys Categories by_name_and_description
  ∧ Permutation by_name_and_description (rev by_name_and_description)
  ∧ ∃ q' q'',
      SQLQueryBuilder.query_builder Categories (select Categories)
        by_name_and_description = Ok q'
      ∧ SQLQueryBuilder.query_builder Categories (select Categories)
          (rev by_name_and_description) = Ok q''
      ∧ rows_of q'' shop = rows_of q' shop.
Proof.
  assert (plain_keys Categories by_name_and_description) as Hk
    by (by repeat constructor).
  assert (Permutation by_name_and_description (rev by_name_and_description)) as H
    by apply Permutation_rev.
  split; [exact Hk|]. split; [exact H|].
  destruct (filters_are_a_conjunction Categories (select Categories)
              by_name_and_description Hk) as (q' & Hq' & _ & _ & Hperm).
  destruct (Hperm _ shop H) as (q'' & Hq'' & Hrows).
  by exists q', q''.
Defined.

(** An item keyed by an attribute that is no column is not dropped: on
    [metadata] the comparison is a Python [False], and no row is selected;
    a pattern makes [like] raise. *)
Example filter_on_metadata :
  (CategoryHandler.fetch_categories Categories
     (mkFetch "alice"
        (Some (mkFilterModel (Some [("metadata", SStr "x")]) None))) shop).1
  = Ok (PList [])
  ∧ (CategoryHandler.fetch_categories Categories
       (mkFetch "alice"
          (Some (mkFilterModel (Some [("metadata", SStr "%x")]) None))) shop).1
    = Raise (AttributeError "'MetaData' object has no attribute 'like'").
Proof. split; by_evaluation. Qed.

(** Neither is a sort entry on such an attribute, unless its direction is
    unsupported. *)
Example sort_on_metadata :
  SQLQueryBuilder.add_sort Categories (select Categories)
    (mkSort "metadata" "sideways") = Ok (select Categories)
  ∧ ∃ msg, SQLQueryBuilder.add_sort Categories (select Categories)
             (mkSort "metadata" "desc")
           = Raise (ArgumentError msg).
Proof. split; [reflexivity|by eexists]. Qed.

(** X8. A sort entry whose resolved column id is no attribute of the mapped
    class, starts with [meta] and holds no dot makes [add_filters] raise
    [IndexError] once the
    entries before it are compiled: the fetch handlers raise it without
    executing a statement and the routes answer with a failure envelope. *)
Theorem meta_id_without_dot_raises (self : Table) (uid : string)
    (fm : option (list (string * scalar))) (s1 s2 : list SortEntry)
    (e : SortEntry) (q1 : Select) (s : Session) :
  let col := SQLQueryBuilder.resolve (colId e) in
  let request := mkFetch uid (Some (mkFilterModel fm (Some (s1 ++ e :: s2)%list))) in
  let err := IndexError "list index out of range" in
  hasattr self col = false →
  startswith col "meta" = true →
  contains "." col = false →
  SQLQueryBuilder.sort_loop self (select self) s1 = Ok q1 →
  SQLQueryBuilder.add_filters self (select self) request = Raise err
  ∧ CategoryHandler.fetch_categories self request s = (Raise err, s)
  ∧ TransactionHandler.fetch_transaction self request s = (Raise err, s)
  ∧ (self = Categories →
     Services.fetch_categories request s
     = (Ok (DefaultFailureSchema "Failed to fetch categories"
                                 "list index out of range"), s)).
Proof.
  intros col request err Hcol Hmeta Hdot Hs1.
  assert (SQLQueryBuilder.add_filters self (select self) request = Raise err) as Hq.
  { unfold request. rewrite add_filters_loops. simpl default.
    rewrite sort_loop_app, Hs1. simpl.
    unfold SQLQueryBuilder.add_sort. fold col. rewrite Hcol, Hmeta.
    by rewrite split_without_separator. }
  assert (CategoryHandler.fetch_categories self request s = (Raise err, s)) as Hc.
  { unfold CategoryHandler.fetch_categories. rewrite try_reraise, bind_lift.
    by rewrite Hq. }
  split_and!; [done|done| |].
  - unfold TransactionHandler.fetch_transaction. rewrite try_reraise, bind_lift.
    by rewrite Hq.
  - intros ->. unfold Services.fetch_categories, Services.envelope, try_except.
    unfold bind. by rewrite Hc.
Qed.

Lemma meta_id_without_dot_raises_witness :
  hasattr Categories (SQLQueryBuilder.resolve "metafoo") = false
  ∧ startswith (SQLQueryBuilder.resolve "metafoo") "meta" = true
  ∧ contains "." (SQLQueryBuilder.resolve "metafoo") = false
  ∧ Services.fetch_categories sort_by_metadata shop
    = (Ok (DefaultFailureSchema "Failed to fetch categories"
                                "list index out of range"), shop).
Proof.
  split; [reflexivity|]. split; [reflexivity|]. split; [reflexivity|].
  apply (meta_id_without_dot_raises Categories "alice" None
           [mkSort "category_name" "asc"] [] (mkSort "metafoo" "desc")
           _ shop eq_refl eq_refl eq_refl eq_refl).
  reflexivity.
Defined.

(** X9. A fetch request whose [filters] is null raises [AttributeError] in
    [add_filters]: no statement is executed and the routes answer with a
    failure envelope. *)
Theorem null_filters_fail_the_fetch (self : Table) (uid : string) (s : Session) :
  let err := AttributeError "'NoneType' object has no attribute 'sortModel'" in
  CategoryHandler.fetch_categories self (mkFetch uid None) s = (Raise err, s)
  ∧ TransactionHandler.fetch_transaction self (mkFetch uid None) s = (Raise err, s)
  ∧ Services.fetch_categories (mkFetch uid None) s
    = (Ok (DefaultFailureSchema "Failed to fetch categories" (str_exn err)), s)
  ∧ Services.fetch_transactions (mkFetch uid None) s
    = (Ok (DefaultFailureSchema "Failed to fetch transactions" (str_exn err)), s).
Proof.
  intros err.
  assert (∀ t, CategoryHandler.fetch_categories t (mkFetch uid None) s
               = (Raise err, s)) as Hc.
  { intros t. unfold CategoryHandler.fetch_categories.
    by rewrite try_reraise, bind_lift. }
  assert (∀ t, TransactionHandler.fetch_transaction t (mkFetch uid None) s
               = (Raise err, s)) as Ht.
  { intros t. unfold TransactionHandler.fetch_transaction.
    by rewrite try_reraise, bind_lift. }
  split_and!; [apply Hc|apply Ht| |].
  - unfold Services.fetch_categories, Services.envelope, try_except, bind.
    by rewrite Hc.
  - unfold Services.fetch_transactions, Services.envelope, try_except, bind.
    by rewrite Ht.
Qed.

(** X10. With no filter and no sort entry ([filterModel] and [sortModel] null
    or empty), a fetch returns every row of the table in table order, each
    as the mapping from the name of the class to the instance: the mapping
    itself when the table has one row, the list otherwise. *)
Theorem fetch_without_filters_returns_the_table (self : Table) (uid : string)
    (fm : option (list (string * scalar))) (sm : option (list SortEntry))
    (s : Session) :
  next_fault s = None →
  default [] fm = [] →
  default [] sm = [] →
  let all := map (entity self) (table_rows self s) in
  CategoryHandler.fetch_categories self (mkFetch uid (Some (mkFilterModel fm sm))) s
  = (Ok (SqlAlchemyUtil.one_or_all all), skip s)
  ∧ TransactionHandler.fetch_transaction self
      (mkFetch uid (Some (mkFilterModel fm sm))) s
    = (Ok (SqlAlchemyUtil.one_or_all all), skip s).
Proof.
  intros Hf Hfm Hsm all.
  assert (SQLQueryBuilder.add_filters self (select self)
            (mkFetch uid (Some (mkFilterModel fm sm))) = Ok (select self)) as Hq.
  { rewrite add_filters_loops, Hfm, Hsm. done. }
  assert (rows_of (select self) s = all) as Hrows.
  { change (select self) with (where_ (select self) []) at 1.
    rewrite rows_of_entities. unfold all. f_equal.
    by apply filter_all, Forall_true. }
  destruct (json_fetch_shape_of_handlers self _ _ s Hf Hq) as [Hc Ht].
  by rewrite Hc, Ht, Hrows.
Qed.

Lemma fetch_without_filters_returns_the_table_witness :
  next_fault shop = None
  ∧ (CategoryHandler.fetch_categories Categories no_filters shop).1
    = Ok (PList (map (entity Categories) (table_rows Categories shop))).
Proof.
  split; [reflexivity|].
  destruct (fetch_without_filters_returns_the_table Categories "alice"
              (Some []) (Some []) shop eq_refl eq_refl eq_refl) as [H _].
  unfold no_filters. by rewrite H.
Defined.

(** ** Creating a category, continued *)

Lemma category_row_accepted (request_data : CreateCategoriesModel)
    (uid uuid : string) (now : Z) :
  known_keys Categories (category_row request_data uid uuid now) = true
  ∧ not_null_ok Categories (category_row request_data uid uuid now)
    = bool_decide (description request_data ≠ None).
Proof.
  unfold category_row, dump_category. split.
  - apply bool_decide_eq_true_2.
    repeat (apply map_Forall_insert_2; [reflexivity|]).
    apply map_Forall_empty.
  - unfold not_null_ok, getcol. simpl.
    destruct (description request_data) as [d|]; by simplify_map_eq.
Qed.

Lemma create_categories_steps (request_data : CreateCategoriesModel)
    (uid uuid : string) (now : Z) (s : Session) :
  CategoryHandler.create_categories Categories request_data uid uuid now s
  = (let* existing := SqlAlchemyUtil.select_from_table Categories
                        (same_name request_data) SqlAlchemyUtil.defaults in
     if truthy existing then raise (CustomError "Category already exists!!")
     else
       SqlAlchemyUtil.insert Categories (category_row request_data uid uuid now)
                             [] None ;;
       ret uuid) s.
Proof.
  unfold CategoryHandler.create_categories. by rewrite try_reraise, bind_lift.
Qed.

Lemma insert_run (self : Table) (data : pydict) (s : Session) :
  next_fault s = None →
  known_keys self data = true →
  SqlAlchemyUtil.insert self data [] None s
  = if not_null_ok self data then
      if pk_free self (table_rows self s) data
      then (Ok tt, set_rows self (table_rows self s ++ [data]) (skip s))
      else (Raise (IntegrityError "duplicate key value"), skip s)
    else (Raise (IntegrityError "null value in column"), skip s).
Proof.
  intros Hf Hk. unfold SqlAlchemyUtil.insert. rewrite try_reraise.
  rewrite bind_lift. simpl. unfold session_execute_insert, session_commit.
  unfold bind at 1. unfold bind at 1. rewrite store_step_ok by done.
  unfold bind, check, gets, modify, ret, raise. rewrite Hk.
  destruct (not_null_ok self data); [|done].
  change (table_rows self (skip s)) with (table_rows self s).
  by destruct (pk_free self (table_rows self s) data).
Qed.

Lemma precheck_free (request_data : CreateCategoriesModel) (s : Session) :
  next_fault s = None →
  Forall (λ r, getcol r "category_name"
               ≠ VScalar (SStr (category_name request_data)))
         (table_rows Categories s) →
  SqlAlchemyUtil.select_from_table Categories (same_name request_data)
    SqlAlchemyUtil.defaults s = (Ok (PList []), skip s).
Proof.
  intros Hf Hno. rewrite select_from_table_ok by done. rewrite rows_of_where.
  rewrite filter_none; [done|].
  eapply Forall_impl; [exact Hno|]. intros r Hr. simpl in Hr.
  unfold same_name. rewrite matches_one. simpl. by apply bool_decide_eq_false_2.
Qed.

Lemma create_categories_run (s : Session)
    (request_data : CreateCategoriesModel) (uid uuid : string) (now : Z) :
  next_fault s = None →
  next_fault (skip s) = None →
  Forall (λ r, getcol r "category_name"
               ≠ VScalar (SStr (category_name request_data)))
         (table_rows Categories s) →
  CategoryHandler.create_categories Categories request_data uid uuid now s
  = if bool_decide (description request_data ≠ None) then
      if pk_free Categories (table_rows Categories s)
                 (category_row request_data uid uuid now)
      then (Ok uuid,
            set_rows Categories
              (table_rows Categories s ++ [category_row request_data uid uuid now])
              (skip (skip s)))
      else (Raise (IntegrityError "duplicate key value"), skip (skip s))
    else (Raise (IntegrityError "null value in column"), skip (skip s)).
Proof.
  intros Hf Hf2 Hno.
  destruct (category_row_accepted request_data uid uuid now) as [Hk Hn].
  rewrite create_categories_steps. unfold bind at 1.
  rewrite precheck_free by done. cbn [truthy]. unfold bind at 1.
  rewrite insert_run by done. rewrite Hn.
  change (table_rows Categories (skip s)) with (table_rows Categories s).
  destruct (bool_decide (description request_data ≠ None)); [|done].
  by destruct (pk_free Categories (table_rows Categories s)
                       (category_row request_data uid uuid now)).
Qed.

(** X11. Creating a category whose name no row carries, on a store that
    answers the pre-check and the insert: the handler returns the generated
    id and appends one row holding that id, the request's name and
    description and the creation stamp of the user; it raises
    [IntegrityError] and writes nothing when the generated id is already a
    key of the table or when the description is null. *)
Theorem create_categories_effect (s : Session)
    (request_data : CreateCategoriesModel) (uid uuid : string) (now : Z) :
  next_fault s = None →
  next_fault (skip s) = None →
  Forall (λ r, getcol r "category_name"
               ≠ VScalar (SStr (category_name request_data)))
         (table_rows Categories s) →
  let row := category_row request_data uid uuid now in
  let run := CategoryHandler.create_categories Categories request_data uid uuid now s in
  (description request_data ≠ None →
   pk_free Categories (table_rows Categories s) row = true →
   run = (Ok uuid, set_rows Categories (table_rows Categories s ++ [row])
                            (skip (skip s))))
  ∧ (description request_data ≠ None →
     pk_free Categories (table_rows Categories s) row = false →
     run = (Raise (IntegrityError "duplicate key value"), skip (skip s)))
  ∧ (description request_data = None →
     run = (Raise (IntegrityError "null value in column"), skip (skip s)))
  ∧ row !! "category_id" = Some (VScalar (SStr uuid))
  ∧ row !! "category_name" = Some (VScalar (SStr (category_name request_data)))
  ∧ row !! "description" = Some (VScalar (opt_str (description request_data)))
  ∧ row !! "meta"
    = Some (VJson (dump_meta (mkMeta (Some uid) (Some now) (Some 0) (Some "")))).
Proof.
  intros Hf Hf2 Hno row run.
  pose proof (create_categories_run s request_data uid uuid now Hf Hf2 Hno) as Hrun.
  fold row run in Hrun.
  destruct (dump_category_lookup
              (mkCategory (Some uuid) (category_name request_data)
                 (description request_data)
                 (Some (mkMeta (Some uid) (Some now) (Some 0) (Some "")))))
    as (Hid & Hname & Hdescr & Hm & _).
  split_and!; [| | |exact Hid|exact Hname|exact Hdescr|exact Hm].
  - intros Hd Hp. rewrite Hrun, Hp. by rewrite bool_decide_eq_true_2.
  - intros Hd Hp. rewrite Hrun, Hp. by rewrite bool_decide_eq_true_2.
  - intros Hd. rewrite Hrun. rewrite bool_decide_eq_false_2; [done|].
    by intros H.
Qed.

Lemma create_categories_effect_witness :
  next_fault shop = None
  ∧ next_fault (skip shop) = None
  ∧ Forall (λ r, getcol r "category_name" ≠ VScalar (SStr "Travel"))
           (table_rows Categories shop)
  ∧ description travel ≠ None
  ∧ pk_free Categories (table_rows Categories shop)
            (category_row travel "bob" "c3" 30) = true
  ∧ CategoryHandler.create_categories Categories travel "bob" "c3" 30 shop
    = (Ok "c3", set_rows Categories
                  (table_rows Categories shop ++ [category_row travel "bob" "c3" 30])
                  (skip (skip shop))).
Proof.
  assert (Forall (λ r, getcol r "category_name" ≠ VScalar (SStr "Travel"))
                 (table_rows Categories shop)) as Hno.
  { repeat constructor; vm_compute; discriminate. }
  assert (description travel ≠ None) as Hd by discriminate.
  assert (pk_free Categories (table_rows Categories shop)
                  (category_row travel "bob" "c3" 30) = true) as Hp
    by by_evaluation.
  split_and!; [reflexivity|reflexivity|exact Hno|exact Hd|exact Hp|].
  by apply (create_categories_effect shop travel "bob" "c3" 30 eq_refl eq_refl Hno).
Defined.

Lemma next_fault_set_rows (t : Table) (rows : list pydict) (s : Session) :
  next_fault (set_rows t rows s) = next_fault s.
Proof. done. Qed.

Lemma filter_by_name (request_data : CreateCategoriesModel) (rows : list pydict) :
  List.filter (matches (same_name request_data)) rows = []
  ↔ Forall (λ r, getcol r "category_name"
                 ≠ VScalar (SStr (category_name request_data))) rows.
Proof.
  induction rows as [|r rows IH]; [done|].
  cbn [List.filter]. rewrite Forall_cons, <- IH.
  assert (matches (same_name request_data) r
          = bool_decide (getcol r "category_name"
                         = VScalar (SStr (category_name request_data)))) as ->
    by (unfold same_name; by rewrite matches_one).
  case_bool_decide as Hr.
  - split; [done|]. by intros [? _].
  - tauto.
Qed.

(** X12. Round trip: after a category is created, fetching with its name as
    the only filter returns one object, not a list: the mapping from the
    name of the class to the created instance, whose attributes hold the
    generated id, the name and the creation stamp of the creating user. The
    name must not hold [%], which would make the filter a pattern. *)
Theorem create_then_fetch_by_name (s : Session)
    (request_data : CreateCategoriesModel) (uid uuid reader : string) (now : Z)
    (sm : option (list SortEntry)) :
  next_fault s = None →
  next_fault (skip s) = None →
  next_fault (skip (skip s)) = None →
  Forall (λ r, getcol r "category_name"
               ≠ VScalar (SStr (category_name request_data)))
         (table_rows Categories s) →
  description request_data ≠ None →
  pk_free Categories (table_rows Categories s)
          (category_row request_data uid uuid now) = true →
  contains "%" (category_name request_data) = false →
  default [] sm = [] →
  let created := CategoryHandler.create_categories Categories request_data
                   uid uuid now s in
  let by_its_name :=
    mkFetch reader
      (Some (mkFilterModel
               (Some [("category_name", SStr (category_name request_data))]) sm)) in
  created.1 = Ok uuid
  ∧ ∃ attrs o,
      (CategoryHandler.fetch_categories Categories by_its_name created.2).1
      = Ok (PDict {[ "Categories" := VEntity attrs ]})
      ∧ attrs !! "category_id" = Some (FScalar (SStr uuid))
      ∧ attrs !! "category_name"
        = Some (FScalar (SStr (category_name request_data)))
      ∧ attrs !! "meta" = Some (FJson o)
      ∧ o !! "created_by" = Some (SStr uid)
      ∧ o !! "created_at" = Some (SInt now).
Proof.
  intros Hf Hf2 Hf3 Hno Hd Hp Hpct Hsm created by_its_name.
  pose proof (create_categories_run s request_data uid uuid now Hf Hf2 Hno) as Hok.
  rewrite bool_decide_eq_true_2, Hp in Hok by done. fold created in Hok.
  destruct (dump_category_lookup
              (mkCategory (Some uuid) (category_name request_data)
                 (description request_data)
                 (Some (mkMeta (Some uid) (Some now) (Some 0) (Some "")))))
    as (Hid & Hname & _ & Hm & _).
  cbn [category_id category_name meta dump_opt_meta opt_str] in Hid, Hname, Hm.
  fold (category_row request_data uid uuid now) in Hid, Hname, Hm.
  set (row0 := category_row request_data uid uuid now) in *.
  split; [by rewrite Hok|].
  exists (to_field <$> row_mapping (column_names Categories) row0),
         (dump_meta (mkMeta (Some uid) (Some now) (Some 0) (Some ""))).
  assert (SQLQueryBuilder.add_filters Categories (select Categories) by_its_name
          = Ok (where_ (select Categories) (same_name request_data))) as Hq.
  { unfold by_its_name. rewrite add_filters_loops, Hsm. simpl.
    unfold SQLQueryBuilder.add_filter. simpl.
    by rewrite Hpct. }
  rewrite Hok. cbn [snd].
  destruct (json_fetch_shape_of_handlers Categories by_its_name _
              (set_rows Categories (table_rows Categories s ++ [row0])
                        (skip (skip s))) Hf3 Hq) as [-> _].
  cbn [fst]. rewrite rows_of_entities, table_rows_set_rows.
  rewrite List.filter_app. rewrite (proj2 (filter_by_name request_data _) Hno).
  assert (matches (same_name request_data) row0 = true) as Hmatch.
  { unfold same_name. rewrite matches_one. simpl.
    apply bool_decide_eq_true_2. unfold getcol. by rewrite Hname. }
  cbn [List.filter]. rewrite Hmatch.
  cbn [app map SqlAlchemyUtil.one_or_all].
  destruct (dump_meta_lookup (mkMeta (Some uid) (Some now) (Some 0) (Some "")))
    as (Hcb & Hca & _ & _).
  split_and!; done.
Qed.

Lemma create_then_fetch_by_name_witness :
  ∃ attrs o,
    (CategoryHandler.fetch_categories Categories
       (mkFetch "carol"
          (Some (mkFilterModel (Some [("category_name", SStr "Travel")]) None)))
       (CategoryHandler.create_categories Categories travel "bob" "c3" 30 shop).2).1
    = Ok (PDict {[ "Categories" := VEntity attrs ]})
    ∧ attrs !! "category_id" = Some (FScalar (SStr "c3"))
    ∧ attrs !! "category_name" = Some (FScalar (SStr "Travel"))
    ∧ attrs !! "meta" = Some (FJson o)
    ∧ o !! "created_by" = Some (SStr "bob")
    ∧ o !! "created_at" = Some (SInt 30).
Proof.
  assert (Forall (λ r, getcol r "category_name" ≠ VScalar (SStr "Travel"))
                 (table_rows Categories shop)) as Hno.
  { repeat constructor; vm_compute; discriminate. }
  assert (description travel ≠ None) as Hd by discriminate.
  assert (pk_free Categories (table_rows Categories shop)
                  (category_row travel "bob" "c3" 30) = true) as Hp
    by by_evaluation.
  exact (proj2 (create_then_fetch_by_name shop travel "bob" "c3" "carol" 30 None
                  eq_refl eq_refl eq_refl Hno Hd Hp eq_refl eq_refl)).
Defined.

(** X13. Creating a category keeps category names unique when the store
    answers the pre-check: if no two rows share a name before a create that
    returns, no two rows share a name after it. *)
Theorem create_keeps_names_unique (s s' : Session)
    (request_data : CreateCategoriesModel) (uid uuid v : string) (now : Z) :
  next_fault s = None →
  NoDup (map (λ r, getcol r "category_name") (table_rows Categories s)) →
  CategoryHandler.create_categories Categories request_data uid uuid now s
  = (Ok v, s') →
  v = uuid
  ∧ table_rows Categories s'
    = (table_rows Categories s ++ [category_row request_data uid uuid now])%list
  ∧ NoDup (map (λ r, getcol r "category_name") (table_rows Categories s')).
Proof.
  intros Hf Hnodup. rewrite create_categories_steps. unfold bind at 1.
  rewrite select_from_table_ok by done. rewrite rows_of_where.
  destruct (List.filter (matches (same_name request_data))
                        (table_rows Categories s)) as [|r0 l] eqn:Hfilter.
  2:{ rewrite one_or_all_truthy; done. }
  cbn [map SqlAlchemyUtil.one_or_all truthy].
  apply filter_by_name in Hfilter.
  destruct (category_row_accepted request_data uid uuid now) as [Hk Hn].
  destruct (next_fault (skip s)) as [e|] eqn:Hf2.
  { unfold bind. by rewrite (insert_reraises _ _ _ _ e). }
  unfold bind. rewrite insert_run by done.
  destruct (not_null_ok Categories _); [|done].
  change (table_rows Categories (skip s)) with (table_rows Categories s).
  destruct (pk_free Categories _ _); [|done].
  unfold ret. intros [= <- <-]. rewrite table_rows_set_rows.
  split_and!; [done|done|].
  rewrite map_app. apply NoDup_app. split_and!; [done| |apply NoDup_singleton].
  intros x Hx Hin. simpl in Hin. apply list_elem_of_singleton in Hin. subst x.
  apply list_elem_of_fmap in Hx as (r & Hr & Hin).
  destruct (dump_category_lookup
              (mkCategory (Some uuid) (category_name request_data)
                 (description request_data)
                 (Some (mkMeta (Some uid) (Some now) (Some 0) (Some "")))))
    as (_ & Hname & _).
  assert (getcol (category_row request_data uid uuid now) "category_name"
          = VScalar (SStr (category_name request_data))) as Hrow
    by (unfold category_row, getcol; by rewrite Hname).
  rewrite Hrow in Hr.
  eapply (proj1 (Forall_forall _ _)) in Hfilter; [|exact Hin]. by apply Hfilter.
Qed.

Lemma create_keeps_names_unique_witness :
  next_fault shop = None
  ∧ NoDup (map (λ r, getcol r "category_name") (table_rows Categories shop))
  ∧ NoDup (map (λ r, getcol r "category_name")
               (table_rows Categories
                  (CategoryHandler.create_categories Categories travel
                     "bob" "c3" 30 shop).2)).
Proof.
  assert (NoDup (map (λ r, getcol r "category_name") (table_rows Categories shop)))
    as Hn by (apply (bool_decide_unpack _); vm_compute; exact I).
  split; [reflexivity|]. split; [exact Hn|].
  eapply (create_keeps_names_unique shop _ travel "bob" "c3" "c3" 30 eq_refl Hn).
  by_evaluation.
Defined.

(** ** What a failed handler leaves behind *)

Lemma keeps_db_fails_clean {A} (m : M Session A) : keeps_db m → fails_clean m.
Proof. intros H s e s' Hm. by apply (H s (Raise e)). Qed.

Lemma keeps_db_bind {A B} (m : M Session A) (k : A → M Session B) :
  keeps_db m → (∀ a, keeps_db (k a)) → keeps_db (bind m k).
Proof.
  intros Hm Hk s r s'. unfold bind.
  destruct (m s) as [[a|e] s1] eqn:H1.
  - intros H2. apply Hk in H2. apply Hm in H1. congruence.
  - intros [= <- <-]. by apply Hm in H1.
Qed.

Lemma fails_clean_bind {A B} (m : M Session A) (k : A → M Session B) :
  keeps_db m → (∀ a, fails_clean (k a)) → fails_clean (bind m k).
Proof.
  intros Hm Hk s e s'. unfold bind.
  destruct (m s) as [[a|e1] s1] eqn:H1.
  - intros H2. apply Hk in H2. apply Hm in H1. congruence.
  - intros [= <- <-]. by apply Hm in H1.
Qed.

Lemma fails_clean_then {A B} (m : M Session A) (k : A → M Session B) :
  fails_clean m → (∀ a s r s', k a s = (r, s') → ∃ b, r = Ok b) →
  fails_clean (bind m k).
Proof.
  intros Hm Hk s e s'. unfold bind.
  destruct (m s) as [[a|e1] s1] eqn:H1.
  - intros H2. by destruct (Hk _ _ _ _ H2).
  - intros [= <- <-]. by apply Hm in H1.
Qed.

Lemma fails_clean_reraise {A} (m : M Session A) :
  fails_clean m → fails_clean (try_except m (λ e, raise e)).
Proof. intros H s e s'. rewrite try_reraise. apply H. Qed.

Lemma keeps_db_lift {A} (r : result A) : keeps_db (lift r : M Session A).
Proof. by intros s r' s' [= <- <-]. Qed.

Lemma keeps_db_ret {A} (a : A) : keeps_db (ret a : M Session A).
Proof. by intros s r' s' [= <- <-]. Qed.

Lemma keeps_db_raise {A} (e : exn) : keeps_db (raise e : M Session A).
Proof. by intros s r' s' [= <- <-]. Qed.

Lemma keeps_db_gets {A} (f : Session → A) : keeps_db (gets f).
Proof. by intros s r' s' [= <- <-]. Qed.

Lemma keeps_db_check (b : bool) (e : exn) : keeps_db (check b e).
Proof. unfold check. destruct b; [apply keeps_db_ret|apply keeps_db_raise]. Qed.

Lemma keeps_db_store_step : keeps_db store_step.
Proof. intros s r s' H. rewrite <- (store_step_db s). by rewrite H. Qed.

Lemma keeps_db_select_from_table (self : Table) (cs : list clause)
    (o : SqlAlchemyUtil.SelectOpts) :
  keeps_db (SqlAlchemyUtil.select_from_table self cs o).
Proof.
  intros s r s'. unfold SqlAlchemyUtil.select_from_table. rewrite try_reraise.
  revert s r s'. apply keeps_db_bind; [apply keeps_db_lift|]. intros q.
  assert (keeps_db (session_execute_select q)) as Hsel.
  { intros q'. apply keeps_db_bind; [apply keeps_db_store_step|].
    intros _. apply keeps_db_gets. }
  destruct (SqlAlchemyUtil.select_one o).
  - apply keeps_db_bind; [apply Hsel|]. intros d. apply keeps_db_ret.
  - apply keeps_db_bind.
    + intros s r s'. rewrite fetch_by_query_eq.
      destruct (fetch_as_json_never_raises (limit q (SqlAlchemyUtil.limit_ o)) s)
        as [v ->]. by intros [= <- <-].
    + intros v. destruct (SqlAlchemyUtil.return_count o); [|apply keeps_db_ret].
      apply keeps_db_bind; [|intros n; apply keeps_db_ret].
      apply keeps_db_bind; [apply keeps_db_store_step|].
      intros _. apply keeps_db_gets.
Qed.

Lemma fails_clean_insert (self : Table) (data : pydict) (table : option Table) :
  fails_clean (SqlAlchemyUtil.insert self data [] table).
Proof.
  apply fails_clean_reraise. apply fails_clean_bind; [apply keeps_db_lift|].
  intros _. apply fails_clean_then; [|by intros [] s r s' [= <- <-]; eauto].
  unfold session_execute_insert.
  apply fails_clean_bind; [apply keeps_db_store_step|]. intros _.
  apply fails_clean_bind; [apply keeps_db_check|]. intros _.
  apply fails_clean_bind; [apply keeps_db_check|]. intros _.
  apply fails_clean_bind; [apply keeps_db_gets|]. intros rows.
  apply fails_clean_bind; [apply keeps_db_check|]. intros _.
  by intros s e s'.
Qed.

Lemma fails_clean_update_with_where (self : Table) (data : pydict)
    (cs : list clause) (table : option Table) :
  fails_clean (SqlAlchemyUtil.update_with_where self data cs table).
Proof.
  apply fails_clean_reraise.
  apply fails_clean_then; [|by intros [] s r s' [= <- <-]; eauto].
  unfold session_execute_update.
  apply fails_clean_bind; [apply keeps_db_store_step|]. intros _.
  apply fails_clean_bind; [apply keeps_db_check|]. intros _.
  apply fails_clean_bind; [apply keeps_db_gets|]. intros rows.
  apply fails_clean_bind; [apply keeps_db_check|]. intros _.
  apply fails_clean_bind; [apply keeps_db_check|]. intros _.
  by intros s e s'.
Qed.

(** X14. A category create, a category update or a transaction create that
    raises, whatever the exception and whatever the store did, has written
    nothing: every table is as it was before the call. *)
Theorem failed_write_handlers_write_nothing (self : Table) (s s' : Session)
    (e : exn) (uid uuid : string) (now : Z) :
  (∀ request_data,
     CategoryHandler.create_categories self request_data uid uuid now s
     = (Raise e, s') → db s' = db s)
  ∧ (∀ request_data,
       CategoryHandler.update_categories self request_data uid now s
       = (Raise e, s') → db s' = db s)
  ∧ (∀ request_data,
       TransactionHandler.create_transaction self request_data uid uuid now s
       = (Raise e, s') → db s' = db s).
Proof.
  split_and!; intros request_data; revert s e s'.
  - change (fails_clean (CategoryHandler.create_categories self request_data
                           uid uuid now)).
    apply fails_clean_reraise.
    apply fails_clean_bind; [apply keeps_db_lift|]. intros col.
    apply fails_clean_bind; [apply keeps_db_select_from_table|]. intros existing.
    destruct (truthy existing).
    + apply keeps_db_fails_clean, keeps_db_raise.
    + apply fails_clean_then; [apply fails_clean_insert|].
      intros [] s r s' [= <- <-]. eauto.
  - change (fails_clean (CategoryHandler.update_categories self request_data
                           uid now)).
    apply fails_clean_reraise.
    apply fails_clean_bind; [apply keeps_db_lift|]. intros col.
    apply fails_clean_bind; [apply keeps_db_select_from_table|]. intros found.
    destruct (truthy found); [|apply keeps_db_fails_clean, keeps_db_raise].
    do 7 (apply fails_clean_bind; [apply keeps_db_lift|]; intros ?).
    apply fails_clean_update_with_where.
  - change (fails_clean (TransactionHandler.create_transaction self request_data
                           uid uuid now)).
    apply fails_clean_reraise.
    apply fails_clean_then; [apply fails_clean_insert|].
    intros [] s r s' [= <- <-]. eauto.
Qed.

Lemma failed_write_handlers_write_nothing_witness :
  CategoryHandler.create_categories Categories rent_to_food "bob" "c3" 20 shop
  = (Raise (CustomError "Category already exists!!"), skip shop)
  ∧ db (skip shop) = db shop.
Proof.
  assert (CategoryHandler.create_categories Categories rent_to_food "bob" "c3" 20 shop
          = (Raise (CustomError "Category already exists!!"), skip shop)) as H
    by by_evaluation.
  split; [exact H|].
  destruct (failed_write_handlers_write_nothing Categories shop (skip shop)
              (CustomError "Category already exists!!") "bob" "c3" 20) as (Hc & _).
  exact (Hc rent_to_food H).
Defined.

(** ** Services *)

Lemma envelope_run {St} (m : M St pyval) (failure : string) (s : St) :
  Services.envelope m failure s
  = match m s with
    | (Ok d, s') => (Ok (DefaultResponseSchema d), s')
    | (Raise e, s') => (Ok (DefaultFailureSchema failure (str_exn e)), s')
    end.
Proof.
  unfold Services.envelope, try_except, bind, ret.
  by destruct (m s) as [[d|e] s'].
Qed.

(** ** MongoCollectionBaseClass *)

Lemma driver_step_ok (c : Collection) :
  next_mfault c = None → driver_step c = (Ok tt, mskip c).
Proof.
  unfold next_mfault, driver_step, mskip. destruct c as [ds fs]; simpl.
  destruct fs as [|[e|] fs]; simpl; done.
Qed.

Lemma driver_step_fault (c : Collection) (e : exn) :
  next_mfault c = Some e → driver_step c = (Raise e, mskip c).
Proof.
  unfold next_mfault, driver_step, mskip. destruct c as [ds fs]; simpl.
  destruct fs as [|[e'|] fs]; simpl; intros; simplify_eq; done.
Qed.

(** X16. A failure of the driver never reaches the caller as it is:
    [find_one], [update_one], [update_many], [delete_one] and [delete_many]
    raise a [MongoException] whose text is the message of the method followed
    by the text of the driver's exception, and the documents are as they
    were. *)
Theorem driver_failure_is_wrapped (c : Collection) (e : exn)
    (query : list (string * mcond)) (fields : option (list string))
    (data : pydict) (upsert : bool) :
  next_mfault c = Some e →
  data !! "$set" = None →
  MongoCollectionBaseClass.find_one query fields c
  = wrapped "exception  in find function as " e c
  ∧ MongoCollectionBaseClass.update_one query data upsert c
    = wrapped "exception  in update function as " e c
  ∧ MongoCollectionBaseClass.update_many query data upsert c
    = wrapped "exception in aggregate function as " e c
  ∧ MongoCollectionBaseClass.delete_one query c
    = wrapped "exception  in delete function of mongo as " e c
  ∧ MongoCollectionBaseClass.delete_many query c
    = wrapped "exception  in connecting " e c
  ∧ docs (mskip c) = docs c.
Proof.
  intros Hf Hset. unfold wrapped. split_and!; [| | | | |done].
  - unfold MongoCollectionBaseClass.find_one, try_except, driver_find_one, bind.
    by rewrite (driver_step_fault _ e).
  - unfold MongoCollectionBaseClass.update_one, try_except.
    rewrite bind_lift. unfold MongoCollectionBaseClass.unwrap_set. rewrite Hset.
    unfold driver_update_one, bind. by rewrite (driver_step_fault _ e).
  - unfold MongoCollectionBaseClass.update_many, try_except.
    rewrite bind_lift. unfold MongoCollectionBaseClass.unwrap_set. rewrite Hset.
    unfold driver_update_many, bind. by rewrite (driver_step_fault _ e).
  - unfold MongoCollectionBaseClass.delete_one, try_except, driver_delete_one, bind.
    by rewrite (driver_step_fault _ e).
  - unfold MongoCollectionBaseClass.delete_many, try_except, driver_delete_many, bind.
    by rewrite (driver_step_fault _ e).
Qed.

Lemma driver_failure_is_wrapped_witness :
  next_mfault people_down = Some (OperationalError "connection refused")
  ∧ MongoCollectionBaseClass.delete_many (by_user_id "u1") people_down
    = (Raise (MongoException "exception  in connecting connection refused"),
       people).
Proof.
  assert ((∅ : pydict) !! "$set" = None) as Hset by (vm_compute; reflexivity).
  split; [reflexivity|].
  apply (driver_failure_is_wrapped people_down
           (OperationalError "connection refused") (by_user_id "u1") None ∅ false
           eq_refl Hset).
Defined.

Lemma unwrap_set_plain (data : pydict) :
  data !! "$set" = None → MongoCollectionBaseClass.unwrap_set data = Ok data.
Proof. unfold MongoCollectionBaseClass.unwrap_set. by intros ->. Qed.

(** X17. A patch wrapped in a [$set] envelope is unwrapped before it is
    applied: [update_one] and [update_many] do with [{"$set": fields}]
    exactly what they do with [fields]. *)
Theorem set_envelope_is_unwrapped (query : list (string * mcond))
    (fields : gmap string scalar) (upsert : bool) (c : Collection) :
  fields !! "$set" = None →
  MongoCollectionBaseClass.update_one query {[ "$set" := VJson fields ]} upsert c
  = MongoCollectionBaseClass.update_one query (VScalar <$> fields) upsert c
  ∧ MongoCollectionBaseClass.update_many query {[ "$set" := VJson fields ]} upsert c
    = MongoCollectionBaseClass.update_many query (VScalar <$> fields) upsert c.
Proof.
  intros Hf.
  assert (MongoCollectionBaseClass.unwrap_set {[ "$set" := VJson fields ]}
          = Ok (VScalar <$> fields)) as H1.
  { unfold MongoCollectionBaseClass.unwrap_set. by rewrite lookup_singleton_eq. }
  assert (MongoCollectionBaseClass.unwrap_set (VScalar <$> fields)
          = Ok (VScalar <$> fields)) as H2.
  { apply unwrap_set_plain. by rewrite lookup_fmap, Hf. }
  unfold MongoCollectionBaseClass.update_one, MongoCollectionBaseClass.update_many,
    try_except.
  by rewrite !bind_lift, H1, H2.
Qed.

Lemma set_envelope_is_unwrapped_witness :
  new_role !! "$set" = None
  ∧ MongoCollectionBaseClass.update_one (by_user_id "u2")
      {[ "$set" := VJson new_role ]} false people
    = MongoCollectionBaseClass.update_one (by_user_id "u2")
        (VScalar <$> new_role) false people.
Proof.
  assert (new_role !! "$set" = None) as Hset by (vm_compute; reflexivity).
  split; [exact Hset|].
  apply (set_envelope_is_unwrapped (by_user_id "u2") new_role false people Hset).
Defined.

Lemma existsb_none {A} (f : A → bool) (l : list A) :
  Forall (λ x, f x = false) l → existsb f l = false.
Proof. induction 1 as [|x l Hx _ IH]; simpl; [done|]. by rewrite Hx. Qed.

Lemma mskip_same (c : Collection) (ds : list pydict) :
  ds = docs c → mkCollection ds (mfaults (mskip c)) = mskip c.
Proof. by intros ->. Qed.

(** X18. With a query no document meets, [update_one] and [update_many]
    without upsert, [delete_one] and [delete_many] return the count 0 and
    leave the documents as they are. *)
Theorem mongo_write_matching_nothing (c : Collection)
    (query : list (string * mcond)) (data : pydict) :
  next_mfault c = None →
  Forall (λ d, doc_matches query d = false) (docs c) →
  data !! "$set" = None →
  MongoCollectionBaseClass.update_one query data false c = (Ok 0%nat, mskip c)
  ∧ MongoCollectionBaseClass.update_many query data false c = (Ok 0%nat, mskip c)
  ∧ MongoCollectionBaseClass.delete_one query c = (Ok 0%nat, mskip c)
  ∧ MongoCollectionBaseClass.delete_many query c = (Ok 0%nat, mskip c)
  ∧ docs (mskip c) = docs c.
Proof.
  intros Hf Hno Hset. split_and!; [| | | |done].
  - unfold MongoCollectionBaseClass.update_one, try_except.
    rewrite bind_lift, unwrap_set_plain by done.
    unfold driver_update_one, bind, gets. rewrite driver_step_ok by done.
    cbn [docs mskip]. by rewrite find_absent.
  - unfold MongoCollectionBaseClass.update_many, try_except.
    rewrite bind_lift, unwrap_set_plain by done.
    unfold driver_update_many, bind, gets. rewrite driver_step_ok by done.
    cbn [docs mskip]. by rewrite existsb_none.
  - unfold MongoCollectionBaseClass.delete_one, try_except.
    unfold driver_delete_one, bind, gets. rewrite driver_step_ok by done.
    cbn [docs mskip]. by rewrite existsb_none.
  - unfold MongoCollectionBaseClass.delete_many, try_except.
    unfold driver_delete_many, bind, gets, modify, ret.
    rewrite driver_step_ok by done. cbn [docs mskip].
    rewrite filter_none by done.
    rewrite filter_all; [done|].
    eapply Forall_impl; [exact Hno|]. intros d Hd. simpl in Hd. by rewrite Hd.
Qed.

Lemma mongo_write_matching_nothing_witness :
  next_mfault people = None
  ∧ Forall (λ d, doc_matches (by_user_id "u7") d = false) (docs people)
  ∧ MongoCollectionBaseClass.delete_many (by_user_id "u7") people
    = (Ok 0%nat, mskip people).
Proof.
  assert (Forall (λ d, doc_matches (by_user_id "u7") d = false) (docs people))
    as Hno by (repeat constructor).
  assert ((∅ : pydict) !! "$set" = None) as Hset by (vm_compute; reflexivity).
  split; [reflexivity|]. split; [exact Hno|].
  apply (mongo_write_matching_nothing people (by_user_id "u7") ∅ eq_refl Hno Hset).
Defined.

Lemma remove_first_split (query : list (string * mcond))
    (l1 l2 : list pydict) (d : pydict) :
  Forall (λ y, doc_matches query y = false) l1 →
  doc_matches query d = true →
  remove_first query (l1 ++ d :: l2) = (l1 ++ l2)%list.
Proof.
  intros Hl1 Hd. induction Hl1 as [|y l1 Hy _ IH]; simpl.
  - by rewrite Hd.
  - by rewrite Hy, IH.
Qed.

Lemma filter_length_split {A} (f : A → bool) (l : list A) :
  (length (List.filter f l) + length (List.filter (λ x, negb (f x)) l)
   = length l)%nat.
Proof.
  induction l as [|x l IH]; simpl; [done|].
  destruct (f x); simpl; lia.
Qed.

(** X19. [delete_many] removes exactly the documents that meet the query
    and returns how many they were: afterwards no document meets the query,
    the others are all there in their order, and the count and the
    documents left add up to the documents there were. [delete_one] removes
    the first document that meets the query and no other. *)
Theorem delete_removes_what_matches (c : Collection)
    (query : list (string * mcond)) :
  next_mfault c = None →
  let left_ := List.filter (λ d, negb (doc_matches query d)) (docs c) in
  let n := length (List.filter (doc_matches query) (docs c)) in
  MongoCollectionBaseClass.delete_many query c
  = (Ok n, mkCollection left_ (tail (mfaults c)))
  ∧ Forall (λ d, doc_matches query d = false) left_
  ∧ (∀ d, d ∈ left_ ↔ d ∈ docs c ∧ doc_matches query d = false)
  ∧ (n + length left_ = length (docs c))%nat
  ∧ (∀ l1 d l2,
       docs c = (l1 ++ d :: l2)%list →
       Forall (λ y, doc_matches query y = false) l1 →
       doc_matches query d = true →
       MongoCollectionBaseClass.delete_one query c
       = (Ok 1%nat, mkCollection (l1 ++ l2) (tail (mfaults c)))).
Proof.
  intros Hf left_ n. split_and!.
  - unfold MongoCollectionBaseClass.delete_many, try_except.
    unfold driver_delete_many, bind, gets, modify, ret.
    by rewrite driver_step_ok.
  - unfold left_. apply Forall_forall. intros d Hd.
    apply list_elem_of_In, filter_In in Hd as [_ Hd].
    by apply negb_true_iff.
  - intros d. unfold left_. rewrite list_elem_of_In, filter_In, negb_true_iff.
    by rewrite <- list_elem_of_In.
  - apply filter_length_split.
  - intros l1 d l2 Hdocs Hl1 Hd.
    unfold MongoCollectionBaseClass.delete_one, try_except.
    unfold driver_delete_one, bind, gets, modify, ret.
    rewrite driver_step_ok by done. cbn [docs mskip mfaults]. rewrite Hdocs.
    rewrite existsb_app. simpl. rewrite Hd, orb_true_r.
    by rewrite remove_first_split.
Qed.

Lemma delete_removes_what_matches_witness :
  next_mfault people = None
  ∧ MongoCollectionBaseClass.delete_one (by_user_id "u2") people
    = (Ok 1%nat, mkCollection [profile "u1" "alice" "admin"] []).
Proof.
  split; [reflexivity|].
  destruct (delete_removes_what_matches people (by_user_id "u2") eq_refl)
    as (_ & _ & _ & _ & H).
  apply (H [profile "u1" "alice" "admin"] (profile "u2" "bob" "user") []).
  - reflexivity.
  - repeat constructor.
  - reflexivity.
Defined.

Lemma existsb_some {A} (f : A → bool) (l : list A) :
  Exists (λ x, f x = true) l → existsb f l = true.
Proof.
  induction 1 as [x l Hx|x l _ IH]; simpl.
  - by rewrite Hx.
  - by rewrite IH, orb_true_r.
Qed.

Lemma filter_both_length {A} (f g : A → bool) (l : list A) :
  (length (List.filter (λ x, f x && g x) l) ≤ length (List.filter f l))%nat.
Proof.
  induction l as [|x l IH]; simpl; [done|].
  destruct (f x), (g x); simpl; lia.
Qed.

(** X20. An update is a set of the named fields, never a replacement of
    the document: [update_many] patches every document that meets the query
    and leaves the others alone, in place; a patched document has the
    fields of the patch and keeps every other field it had; the count
    returned is at most the number of documents that met the query.
    [update_one] patches the first such document only. *)
Theorem update_sets_named_fields_only (c : Collection)
    (query : list (string * mcond)) (data : pydict) :
  next_mfault c = None →
  data !! "$set" = None →
  Exists (λ d, doc_matches query d = true) (docs c) →
  let patched := map (λ d, if doc_matches query d then data ∪ d else d) (docs c) in
  (∃ n, MongoCollectionBaseClass.update_many query data false c
        = (Ok n, mkCollection patched (tail (mfaults c)))
        ∧ (n ≤ length (List.filter (doc_matches query) (docs c)))%nat)
  ∧ length patched = length (docs c)
  ∧ (∀ d k v, data !! k = Some v → (data ∪ d) !! k = Some v)
  ∧ (∀ d k, data !! k = None → (data ∪ d) !! k = d !! k)
  ∧ (∀ l1 d l2,
       docs c = (l1 ++ d :: l2)%list →
       Forall (λ y, doc_matches query y = false) l1 →
       doc_matches query d = true →
       MongoCollectionBaseClass.update_one query data false c
       = (Ok (if bool_decide (data ∪ d = d) then 0%nat else 1%nat),
          mkCollection (l1 ++ (data ∪ d) :: l2) (tail (mfaults c)))).
Proof.
  intros Hf Hset Hex patched. split_and!.
  - eexists. split.
    + unfold MongoCollectionBaseClass.update_many, try_except.
      rewrite bind_lift, unwrap_set_plain by done.
      unfold driver_update_many, bind, gets, modify, ret.
      rewrite driver_step_ok by done. cbn [docs mskip mfaults].
      by rewrite existsb_some.
    + apply filter_both_length.
  - unfold patched. apply length_map.
  - intros d k v Hk. by apply lookup_union_Some_l.
  - intros d k Hk. by apply lookup_union_r.
  - intros l1 d l2 Hdocs Hl1 Hd.
    unfold MongoCollectionBaseClass.update_one, try_except.
    rewrite bind_lift, unwrap_set_plain by done.
    unfold driver_update_one, bind, gets, modify, ret.
    rewrite driver_step_ok by done. cbn [docs mskip mfaults]. rewrite Hdocs.
    assert (List.find (doc_matches query) (l1 ++ d :: l2) = Some d) as ->.
    { clear -Hl1 Hd. induction Hl1 as [|y l1 Hy _ IH]; simpl.
      - by rewrite Hd.
      - by rewrite Hy. }
    by rewrite update_first_split.
Qed.

Lemma update_sets_named_fields_only_witness :
  next_mfault people = None
  ∧ promote !! "$set" = None
  ∧ Exists (λ d, doc_matches (by_user_id "u2") d = true) (docs people)
  ∧ MongoCollectionBaseClass.update_one (by_user_id "u2") promote false people
    = (Ok 1%nat, mkCollection [profile "u1" "alice" "admin";
                              profile "u2" "bob" "admin"] []).
Proof.
  assert (promote !! "$set" = None) as Hset by (vm_compute; reflexivity).
  assert (Exists (λ d, doc_matches (by_user_id "u2") d = true) (docs people))
    as Hex by (right; left; reflexivity).
  split; [reflexivity|]. split; [exact Hset|]. split; [exact Hex|].
  destruct (update_sets_named_fields_only people (by_user_id "u2") promote
              eq_refl Hset Hex) as (_ & _ & _ & _ & H).
  rewrite (H [profile "u1" "alice" "admin"] (profile "u2" "bob" "user") []
             eq_refl); [by_evaluation|repeat constructor|reflexivity].
Defined.

(** ** The user handler, continued *)

(** X25. On a driver that answers, over profiles that all carry a [user_id]:
    when some profile has the requested username under a [user_id] other
    than the one in the request body, the update raises
    [CustomError("Username already exists!!")], the conflict error; when no
    profile has the target [user_id] it raises [CustomError("Unknown User !!")],
    the not-found error, unless the username check fired first; in both
    cases the collection is as it was. When the username belongs to nobody
    or only to the [user_id] of the request body, and the target exists,
    the update returns and the first profile with the target [user_id] has
    the fields of the request set, its [user_id] becoming the one of the
    body. *)
Theorem update_user_info_checks (c : Collection) (request_data : UserUpdateModel)
    (uid : string) :
  mfaults c = [] →
  Forall (λ d, is_Some (d !! "user_id")) (docs c) →
  let name := VScalar (SStr (username request_data)) in
  let own := VScalar (SStr (user_id request_data)) in
  let target := VScalar (SStr uid) in
  (Exists (λ d, d !! "username" = Some name ∧ d !! "user_id" ≠ Some own) (docs c) →
   UserHandler.update_user_info request_data uid c
   = (Raise (CustomError "Username already exists!!"), c))
  ∧ (Forall (λ d, d !! "username" = Some name → d !! "user_id" = Some own) (docs c) →
     Forall (λ d, d !! "user_id" ≠ Some target) (docs c) →
     UserHandler.update_user_info request_data uid c
     = (Raise (CustomError "Unknown User !!"), c))
  ∧ (Forall (λ d, d !! "user_id" ≠ Some target) (docs c) →
     ∃ e, UserHandler.update_user_info request_data uid c = (Raise e, c))
  ∧ (Forall (λ d, d !! "username" = Some name → d !! "user_id" = Some own) (docs c) →
     Exists (λ d, d !! "user_id" = Some target) (docs c) →
     ∃ l1 d l2,
       docs c = (l1 ++ d :: l2)%list
       ∧ Forall (λ d', d' !! "user_id" ≠ Some target) l1
       ∧ d !! "user_id" = Some target
       ∧ UserHandler.update_user_info request_data uid c
         = (Ok tt, mkCollection (l1 ++ (dump_user request_data ∪ d) :: l2) [])
       ∧ (dump_user request_data ∪ d) !! "username" = Some name
       ∧ (dump_user request_data ∪ d) !! "user_role"
         = Some (VScalar (SStr (user_role request_data)))
       ∧ (dump_user request_data ∪ d) !! "user_id" = Some own).
Proof.
  intros Hf Hwf name own target.
  destruct (lookup_taken request_data c Hf Hwf) as (taken & Htaken & Htruthy).
  destruct (lookup_known uid c Hf) as (known & Hknown & Hktruthy).
  assert (Exists (λ d, d !! "username" = Some name ∧ d !! "user_id" ≠ Some own)
                 (docs c) → truthy_dict taken = true) as Hconflict.
  { intros Hex. apply Htruthy. eapply Exists_impl; [exact Hex|].
    intros d Hd. by apply username_taken_spec. }
  assert (Forall (λ d, d !! "username" = Some name → d !! "user_id" = Some own)
                 (docs c) → truthy_dict taken = false) as Hfree.
  { intros Hall. apply not_true_is_false. intros Ht. apply Htruthy in Ht.
    apply Exists_exists in Ht as (d & Hin & Hd).
    apply username_taken_spec in Hd as [Hn Hu].
    eapply (proj1 (Forall_forall _ _)) in Hall; [|exact Hin]. by apply Hu, Hall. }
  assert (Forall (λ d, d !! "user_id" ≠ Some target) (docs c) →
          truthy_dict known = false) as Hunknown.
  { intros Hall. apply not_true_is_false. intros Ht. apply Hktruthy in Ht.
    apply Exists_exists in Ht as (d & Hin & Hd).
    apply by_user_id_spec in Hd.
    eapply (proj1 (Forall_forall _ _)) in Hall; [|exact Hin]. by apply Hall. }
  split_and!.
  - intros Hex. rewrite update_user_info_steps. unfold bind.
    by rewrite Htaken, (Hconflict Hex).
  - intros Hall Hno. rewrite update_user_info_steps. unfold bind.
    by rewrite Htaken, (Hfree Hall), Hknown, (Hunknown Hno).
  - intros Hno. rewrite update_user_info_steps. unfold bind.
    rewrite Htaken. destruct (truthy_dict taken); [by eexists|].
    rewrite Hknown, (Hunknown Hno). by eexists.
  - intros Hall Hex.
    destruct (find_first (doc_matches (by_user_id uid)) (docs c))
      as (l1 & d & l2 & Hdocs & Hl1 & Hd & _).
    { eapply Exists_impl; [exact Hex|]. intros d Hd. by apply by_user_id_spec. }
    exists l1, d, l2.
    assert (truthy_dict known = true) as Hk.
    { apply Hktruthy. eapply Exists_impl; [exact Hex|].
      intros d' Hd'. by apply by_user_id_spec. }
    destruct (update_one_healthy (by_user_id uid) request_data l1 l2 d Hl1 Hd)
      as (n & Hupd).
    destruct (dump_user_lookup request_data) as (Hn & Hr & Hu & _).
    split_and!; try done.
    + eapply Forall_impl; [exact Hl1|]. intros d' Hd' Heq.
      apply by_user_id_spec in Heq. congruence.
    + by apply by_user_id_spec.
    + rewrite update_user_info_steps. unfold bind at 1.
      rewrite Htaken, (Hfree Hall). unfold bind at 1. rewrite Hknown, Hk.
      destruct c as [ds fs]. simpl in Hf, Hdocs. subst ds fs.
      unfold bind, ret. by rewrite Hupd.
    + by apply lookup_union_Some_l.
    + by apply lookup_union_Some_l.
    + by apply lookup_union_Some_l.
Qed.

Lemma update_user_info_checks_witness :
  mfaults people = []
  ∧ Forall (λ d : pydict, is_Some (d !! "user_id")) (docs people)
  ∧ UserHandler.update_user_info bob_becomes_alice "u2" people
    = (Raise (CustomError "Username already exists!!"), people)
  ∧ UserHandler.update_user_info bob_becomes_robert "u7" people
    = (Raise (CustomError "Unknown User !!"), people).
Proof.
  assert (Forall (λ d : pydict, is_Some (d !! "user_id")) (docs people)) as Hwf.
  { repeat constructor; vm_compute; eauto. }
  split; [reflexivity|]. split; [exact Hwf|]. split.
  - apply (update_user_info_checks people bob_becomes_alice "u2" eq_refl Hwf).
    left. split; [vm_compute; reflexivity|vm_compute; discriminate].
  - apply (update_user_info_checks people bob_becomes_robert "u7" eq_refl Hwf).
    + repeat constructor; vm_compute; discriminate.
    + repeat constructor; vm_compute; discriminate.
Defined.

Example rename_bob :
  UserHandler.update_user_info bob_becomes_robert "u2" people
  = (Ok tt, mkCollection [profile "u1" "alice" "admin";
                          profile "u2" "robert" "user"] []).
Proof. vm_compute. reflexivity. Qed.

Lemma driver_step_docs (c c' : Collection) (r : result unit) :
  driver_step c = (r, c') → docs c' = docs c.
Proof.
  unfold driver_step. destruct c as [ds fs]; simpl.
  destruct fs as [|[e|] fs]; by intros [= <- <-].
Qed.

Lemma find_one_docs (query : list (string * mcond)) (fields : option (list string))
    (c c' : Collection) (r : result pydict) :
  MongoCollectionBaseClass.find_one query fields c = (r, c') → docs c' = docs c.
Proof.
  unfold MongoCollectionBaseClass.find_one, try_except, driver_find_one.
  unfold bind, gets, ret, raise.
  destruct (driver_step c) as [[[]|e] c1] eqn:Hstep;
    apply driver_step_docs in Hstep; by intros [= <- <-].
Qed.

Lemma update_one_raise_docs (query : list (string * mcond)) (data : pydict)
    (upsert : bool) (c c' : Collection) (e : exn) :
  MongoCollectionBaseClass.update_one query data upsert c = (Raise e, c') →
  docs c' = docs c.
Proof.
  unfold MongoCollectionBaseClass.update_one, try_except. rewrite bind_lift.
  destruct (MongoCollectionBaseClass.unwrap_set data) as [data'|e0];
    [|by intros [= <- <-]].
  unfold driver_update_one, bind, gets, modify, ret, raise.
  destruct (driver_step c) as [[[]|e1] c1] eqn:Hstep;
    apply driver_step_docs in Hstep; [|by intros [= <- <-]].
  destruct (List.find _ (docs c1)); [done|]. by destruct upsert.
Qed.

Lemma driver_failure_is_wrapped_find (c : Collection) (e : exn)
    (query : list (string * mcond)) (fields : option (list string)) :
  next_mfault c = Some e →
  MongoCollectionBaseClass.find_one query fields c
  = wrapped "exception  in find function as " e c.
Proof.
  intros Hf.
  unfold MongoCollectionBaseClass.find_one, try_except, driver_find_one, bind.
  by rewrite (driver_step_fault _ e).
Qed.

(** X21. A user update that raises, whatever the exception and whatever the
    driver did, has written nothing: the documents are as they were. A
    failure of the driver in the first lookup is raised as a
    [MongoException]. *)
Theorem failed_user_update_writes_nothing (c c' : Collection)
    (request_data : UserUpdateModel) (uid : string) (e : exn) :
  (UserHandler.update_user_info request_data uid c = (Raise e, c') →
   docs c' = docs c)
  ∧ (∀ cause, next_mfault c = Some cause →
     UserHandler.update_user_info request_data uid c
     = wrapped "exception  in find function as " cause c).
Proof.
  split.
  - rewrite update_user_info_steps. unfold bind at 1.
    destruct (MongoCollectionBaseClass.find_one _ _ c) as [[taken|e1] c1] eqn:H1;
      apply find_one_docs in H1; [|by intros [= <- <-]].
    destruct (truthy_dict taken); [by intros [= <- <-]|].
    unfold bind at 1.
    destruct (MongoCollectionBaseClass.find_one _ _ c1) as [[known|e2] c2] eqn:H2;
      apply find_one_docs in H2; [|intros [= <- <-]; congruence].
    destruct (truthy_dict known); [|intros [= <- <-]; congruence].
    unfold bind, ret.
    destruct (MongoCollectionBaseClass.update_one _ _ _ c2) as [[n|e3] c3] eqn:H3;
      [done|].
    apply update_one_raise_docs in H3. intros [= <- <-]. congruence.
  - intros cause Hf. rewrite update_user_info_steps. unfold bind at 1.
    by rewrite (driver_failure_is_wrapped_find c cause).
Qed.

Lemma failed_user_update_writes_nothing_witness :
  next_mfault people_down = Some (OperationalError "connection refused")
  ∧ UserHandler.update_user_info bob_becomes_robert "u2" people_down
    = (Raise (MongoException
                "exception  in find function as connection refused"), people).
Proof.
  split; [reflexivity|].
  exact (proj2 (failed_user_update_writes_nothing people_down people
                  bob_becomes_robert "u2" (OperationalError "connection refused"))
               (OperationalError "connection refused") eq_refl).
Defined.

(** ** Updating a category, continued *)

Lemma bind_run {St A B} (m : M St A) (k : A → M St B) (s : St) :
  bind m k s = match m s with
               | (Ok a, s') => k a s'
               | (Raise e, s') => (Raise e, s')
               end.
Proof. done. Qed.

Lemma update_categories_steps (request_data : CreateCategoriesModel)
    (uid : string) (now : Z) (s : Session) :
  CategoryHandler.update_categories Categories request_data uid now s
  = (let* category_data := SqlAlchemyUtil.select_from_table Categories
                             (same_id request_data) SqlAlchemyUtil.defaults in
     if truthy category_data then
       let* m := lift (subscript category_data "meta") in
       let* c_at := lift (subscript_value m "created_at") in
       let* m := lift (subscript category_data "meta") in
       let* c_by := lift (subscript_value m "created_by") in
       let* c_by := lift (validate_str c_by "created_by") in
       let* c_at := lift (validate_int c_at "created_at") in
       SqlAlchemyUtil.update_with_where Categories
         (dump_category
            (mkCategory (category_id request_data) (category_name request_data)
               (description request_data)
               (Some (mkMeta c_by c_at (Some now) (Some uid)))))
         (same_id request_data) None
     else raise (CustomError "Invalid category_id !!")) s.
Proof.
  unfold CategoryHandler.update_categories, same_id.
  rewrite try_reraise, bind_lift.
  rewrite (column_eq_column Categories "category_id") by reflexivity. cbv beta iota.
  rewrite !bind_run.
  destruct (SqlAlchemyUtil.select_from_table _ _ _ s) as [[d|e] s1]; [|done].
  destruct (truthy d); [|done].
  repeat (rewrite !bind_lift; case_match; try done).
Qed.

Lemma found_one (request_data : CreateCategoriesModel) (s : Session) (r0 : pydict) :
  next_fault s = None →
  List.filter (matches (same_id request_data)) (table_rows Categories s) = [r0] →
  SqlAlchemyUtil.select_from_table Categories (same_id request_data)
    SqlAlchemyUtil.defaults s
  = (Ok (PDict (row_mapping (column_names Categories) r0)), skip s)
  ∧ subscript (PDict (row_mapping (column_names Categories) r0)) "meta"
    = Ok (getcol r0 "meta").
Proof.
  intros Hf Hrows. rewrite select_from_table_ok by done.
  rewrite rows_of_where, Hrows. split; [done|].
  unfold subscript. rewrite row_mapping_lookup; [done|].
  unfold column_names; simpl. set_solver.
Qed.

(** X22. Updating a category whose row has a null [meta], or a [meta]
    object without [created_at], cannot succeed: reading the creation stamp
    raises [TypeError], respectively [KeyError], before anything is
    written. *)
Theorem update_needs_the_creation_stamp (s : Session)
    (request_data : CreateCategoriesModel) (uid : string) (now : Z) (r0 : pydict) :
  next_fault s = None →
  List.filter (matches (same_id request_data)) (table_rows Categories s) = [r0] →
  (getcol r0 "meta" = VScalar SNull →
   CategoryHandler.update_categories Categories request_data uid now s
   = (Raise (TypeError "'NoneType' object is not subscriptable"), skip s))
  ∧ (∀ o, getcol r0 "meta" = VJson o → o !! "created_at" = None →
     CategoryHandler.update_categories Categories request_data uid now s
     = (Raise (KeyError "'created_at'"), skip s))
  ∧ db (skip s) = db s.
Proof.
  intros Hf Hrows. destruct (found_one request_data s r0 Hf Hrows) as [Hsel Hsub].
  split_and!; [| |done].
  - intros Hnull. rewrite update_categories_steps. unfold bind at 1.
    rewrite Hsel. cbn [truthy]. rewrite row_mapping_truthy by done.
    by rewrite bind_lift, Hsub, bind_lift, Hnull.
  - intros o Ho Hat. rewrite update_categories_steps. unfold bind at 1.
    rewrite Hsel. cbn [truthy]. rewrite row_mapping_truthy by done.
    rewrite bind_lift, Hsub, bind_lift, Ho. simpl. by rewrite Hat.
Qed.

Lemma update_needs_the_creation_stamp_witness :
  next_fault gift_shop = None
  ∧ List.filter (matches [ColEq "category_id" (SStr "c5")])
                (table_rows Categories gift_shop) = [row_gift]
  ∧ getcol row_gift "meta" = VScalar SNull
  ∧ CategoryHandler.update_categories Categories
      (mkCategory (Some "c5") "Presents" (Some "") None) "bob" 20 gift_shop
    = (Raise (TypeError "'NoneType' object is not subscriptable"), skip gift_shop).
Proof.
  assert (List.filter (matches [ColEq "category_id" (SStr "c5")])
                      (table_rows Categories gift_shop) = [row_gift]) as Hrows
    by by_evaluation.
  assert (getcol row_gift "meta" = VScalar SNull) as Hnull by by_evaluation.
  split; [reflexivity|]. split; [exact Hrows|]. split; [exact Hnull|].
  apply (update_needs_the_creation_stamp gift_shop
           (mkCategory (Some "c5") "Presents" (Some "") None) "bob" 20 row_gift
           eq_refl Hrows). exact Hnull.
Defined.

Lemma dump_category_known (r : CreateCategoriesModel) :
  known_keys Categories (dump_category r) = true.
Proof.
  unfold dump_category. apply bool_decide_eq_true_2.
  repeat (apply map_Forall_insert_2; [reflexivity|]).
  apply map_Forall_empty.
Qed.

Lemma getcol_patched (r : CreateCategoriesModel) (row : pydict) :
  getcol (dump_category r ∪ row) "category_id" = VScalar (opt_str (category_id r))
  ∧ getcol (dump_category r ∪ row) "category_name"
    = VScalar (SStr (category_name r))
  ∧ getcol (dump_category r ∪ row) "description"
    = VScalar (opt_str (description r)).
Proof.
  destruct (dump_category_lookup r) as (Hid & Hname & Hdescr & _).
  unfold getcol.
  by rewrite (lookup_union_Some_l _ _ _ _ Hid), (lookup_union_Some_l _ _ _ _ Hname),
    (lookup_union_Some_l _ _ _ _ Hdescr).
Qed.

Lemma same_id_spec (request_data : CreateCategoriesModel) (row : pydict) :
  matches (same_id request_data) row = true
  ↔ getcol row "category_id" = VScalar (opt_str (category_id request_data)).
Proof.
  unfold same_id. rewrite matches_one. simpl. apply bool_decide_eq_true.
Qed.

Lemma not_null_categories (row : pydict) :
  not_null_ok Categories row = true
  ↔ getcol row "category_id" ≠ VScalar SNull
    ∧ getcol row "category_name" ≠ VScalar SNull
    ∧ getcol row "description" ≠ VScalar SNull.
Proof.
  unfold not_null_ok. simpl.
  rewrite !andb_true_iff, !negb_true_iff, !bool_decide_eq_false. tauto.
Qed.

(** The patch keeps the row within the constraints of the table. *)
Lemma patched_rows_consistent (r : CreateCategoriesModel) (rows : list pydict) :
  description r ≠ None →
  consistent Categories rows →
  consistent Categories (update_rows (same_id r) (dump_category r) rows).
Proof.
  intros Hd [Hnn Hpk]. unfold consistent, update_rows. split.
  - rewrite forallb_forall in Hnn. apply forallb_forall. intros x Hx.
    apply in_map_iff in Hx as (row & <- & Hin). specialize (Hnn row Hin).
    destruct (matches (same_id r) row) eqn:Hm; [|done].
    apply same_id_spec in Hm. apply not_null_categories in Hnn as (Hid & _ & _).
    destruct (getcol_patched r row) as (Hpid & Hpname & Hpdescr).
    apply not_null_categories. rewrite Hpid, Hpname, Hpdescr.
    split_and!; [congruence|congruence|].
    destruct (description r); simpl; congruence.
  - unfold pk_unique in *. apply bool_decide_eq_true_2.
    apply bool_decide_eq_true_1 in Hpk.
    rewrite map_map. erewrite map_ext; [exact Hpk|].
    intros row. cbv beta. destruct (matches (same_id r) row) eqn:Hm; [|done].
    apply same_id_spec in Hm. unfold pk_of. cbn [t_columns Categories mapped List.filter
      c_primary c_name map].
    destruct (getcol_patched r row) as (-> & _). by rewrite Hm.
Qed.

(** X23. A category update returns when the store answers the lookup and
    the update, exactly one row has the id, that row's [meta] is an object
    with a string or null [created_by] and an integer or null [created_at],
    the description of the request is not null and the table is within its
    constraints; the rows with the id are then overwritten with the dump of
    the request, in place. *)
Theorem update_categories_succeeds (s : Session)
    (request_data : CreateCategoriesModel) (uid : string) (now : Z)
    (r0 : pydict) (o : gmap string scalar) (c_by : option string)
    (c_at : option Z) :
  next_fault s = None →
  next_fault (skip s) = None →
  List.filter (matches (same_id request_data)) (table_rows Categories s) = [r0] →
  getcol r0 "meta" = VJson o →
  o !! "created_by" = Some (opt_str c_by) →
  o !! "created_at" = Some (opt_int c_at) →
  description request_data ≠ None →
  consistent Categories (table_rows Categories s) →
  let stamped :=
    mkCategory (category_id request_data) (category_name request_data)
      (description request_data)
      (Some (mkMeta c_by c_at (Some now) (Some uid))) in
  CategoryHandler.update_categories Categories request_data uid now s
  = (Ok tt, set_rows Categories
              (update_rows (same_id request_data) (dump_category stamped)
                           (table_rows Categories s))
              (skip (skip s)))
  ∧ (Services.update_categories request_data uid now s).1
    = Ok (DefaultResponseSchema PNone).
Proof.
  intros Hf Hf2 Hrows Hmeta Hby Hat Hd Hcons stamped.
  destruct (found_one request_data s r0 Hf Hrows) as [Hsel Hsub].
  assert (consistent Categories
            (update_rows (same_id request_data) (dump_category stamped)
                         (table_rows Categories s))) as [Hnn Hpk]
    by (by apply (patched_rows_consistent stamped)).
  assert (CategoryHandler.update_categories Categories request_data uid now s
          = (Ok tt, set_rows Categories
                      (update_rows (same_id request_data) (dump_category stamped)
                                   (table_rows Categories s))
                      (skip (skip s)))) as Hrun.
  { rewrite update_categories_steps. unfold bind at 1.
    rewrite Hsel. cbn [truthy]. rewrite row_mapping_truthy by done.
    rewrite bind_lift, Hsub, bind_lift, Hmeta. simpl subscript_value.
    rewrite Hat, bind_lift, ?Hsub, bind_lift, ?Hmeta. simpl subscript_value.
    rewrite Hby, bind_lift.
    assert (validate_str (opt_str c_by) "created_by" = Ok c_by) as ->
      by by destruct c_by.
    rewrite bind_lift.
    assert (validate_int (opt_int c_at) "created_at" = Ok c_at) as ->
      by by destruct c_at.
    fold stamped.
    unfold SqlAlchemyUtil.update_with_where. rewrite try_reraise. simpl.
    unfold session_execute_update, session_commit.
    unfold bind at 1. unfold bind at 1. rewrite store_step_ok by done.
    unfold bind, check, gets, modify, ret.
    rewrite dump_category_known.
    change (table_rows Categories (skip (skip s))) with (table_rows Categories s).
    by rewrite Hnn, Hpk. }
  split; [exact Hrun|].
  unfold Services.update_categories. rewrite envelope_run.
  unfold bind, ret. by rewrite Hrun.
Qed.

Lemma update_categories_succeeds_witness :
  ∃ o,
    next_fault shop = None
    ∧ List.filter (matches (same_id rename_food)) (table_rows Categories shop)
      = [row_food]
    ∧ getcol row_food "meta" = VJson o
    ∧ o !! "created_by" = Some (SStr "alice")
    ∧ o !! "created_at" = Some (SInt 5)
    ∧ consistent Categories (table_rows Categories shop)
    ∧ (Services.update_categories rename_food "bob" 20 shop).1
      = Ok (DefaultResponseSchema PNone).
Proof.
  exists (dump_meta (meta_of "alice" 5)).
  assert (List.filter (matches (same_id rename_food)) (table_rows Categories shop)
          = [row_food]) as Hrows by by_evaluation.
  assert (getcol row_food "meta" = VJson (dump_meta (meta_of "alice" 5))) as Hm
    by by_evaluation.
  assert (dump_meta (meta_of "alice" 5) !! "created_by" = Some (SStr "alice"))
    as Hby by by_evaluation.
  assert (dump_meta (meta_of "alice" 5) !! "created_at" = Some (SInt 5))
    as Hat by by_evaluation.
  assert (consistent Categories (table_rows Categories shop)) as Hc
    by (split; by_evaluation).
  assert (description rename_food ≠ None) as Hd by discriminate.
  split_and!; [reflexivity|exact Hrows|exact Hm|exact Hby|exact Hat|exact Hc|].
  apply (update_categories_succeeds shop rename_food "bob" 20 row_food _
           (Some "alice") (Some 5) eq_refl eq_refl Hrows Hm Hby Hat Hd Hc).
Defined.

(** ** Sort entries *)

(** X24. Sort entries on columns of the table, with a direction that reads
    [desc] or [asc] in any letter case, compile to one order clause each, in
    the order of the [sortModel], after the order clauses the query had: the
    first entry is the primary key of the order. The letter case of the
    direction makes no difference to the statement. *)
Theorem sort_entries_compile_in_order (self : Table) (q : Select)
    (es : list SortEntry) :
  Forall (λ e, is_column self (SQLQueryBuilder.resolve (colId e)) = true
               ∧ (lower (sort e) = "desc" ∨ lower (sort e) = "asc")) es →
  SQLQueryBuilder.sort_loop self q es = Ok (order_by q (map column_clause es))
  ∧ (∀ es', Forall2 (λ e e', colId e = colId e'
                             ∧ lower (sort e) = lower (sort e')) es es' →
            SQLQueryBuilder.sort_loop self q es'
            = SQLQueryBuilder.sort_loop self q es).
Proof.
  intros Hes. split.
  - revert q. induction Hes as [|e es [Hcol Hdir] _ IH]; intros q; simpl.
    + unfold order_by. rewrite app_nil_r. by destruct q.
    + assert (SQLQueryBuilder.add_sort self q e = Ok (order_by q [column_clause e]))
        as ->.
      { unfold SQLQueryBuilder.add_sort, column_clause.
        rewrite (hasattr_column _ _ Hcol), (getattr_column _ _ Hcol).
        destruct Hdir as [-> | ->]; reflexivity. }
      simpl. rewrite IH. unfold order_by; simpl. by rewrite <- app_assoc.
  - intros es' H2. clear Hes. revert q.
    induction H2 as [|e e' es es' [Hc Hs] _ IH]; intros q; simpl; [done|].
    assert (SQLQueryBuilder.add_sort self q e' = SQLQueryBuilder.add_sort self q e)
      as ->.
    { unfold SQLQueryBuilder.add_sort. by rewrite Hc, Hs. }
    destruct (SQLQueryBuilder.add_sort self q e); simpl; [apply IH|done].
Qed.

Lemma sort_entries_compile_in_order_witness :
  SQLQueryBuilder.sort_loop Categories (select Categories)
    [mkSort "category_name" "DESC"; mkSort "description" "Asc"]
  = Ok (order_by (select Categories)
          [(Desc, OCol "category_name"); (Asc, OCol "description")]).
Proof.
  assert (Forall (λ e, is_column Categories (SQLQueryBuilder.resolve (colId e)) = true
                       ∧ (lower (sort e) = "desc" ∨ lower (sort e) = "asc"))
                 [mkSort "category_name" "DESC"; mkSort "description" "Asc"]) as H.
  { apply Forall_cons. split; [split; [reflexivity|left; reflexivity]|].
    apply Forall_cons. split; [split; [reflexivity|right; reflexivity]|].
    apply Forall_nil_2. }
  exact (proj1 (sort_entries_compile_in_order Categories (select Categories) _ H)).
Defined.
